(** * OS.js server: virtual filesystem dispatcher, filesystem transport and
      package manager

    A shallow embedding of

    - [src/server/node/lib/vfs.js]                (the VFS dispatcher),
    - [src/server/node/modules/vfs/filesystem.js] (the default transport),
    - the template transport                      (every method rejects),
    - [src/server/node/lib/packagemanager.js]     (package listing, installing),
    - [request] of the server instance            (sessions, permissions, replies),
    - [createHttpObject] and the HTTP responder   (of the HTTP server),
    - [src/server/node/modules/auth/example.js]   (the example authenticator),

    together with the parts of the JavaScript runtime these files lean on:
    string methods, Node's [path.join], block scoping of [const].

    Conventions.
    - A JavaScript string is a Rocq [string]; every character is one code
      unit in the range 0..255.
    - A value that may be [undefined] or [null] is an [option].
    - An object used as a table is a finite map of its own members.  Where
      a name is looked up that the request chooses (the protocol of an
      address, the method of a call, the name of a package), the members
      every object inherits from [Object.prototype] are taken into account.
    - Every VFS operation finishes by calling [resolve], calling [reject],
      writing to the responder, throwing, or returning without any of
      these: this is the [outcome] type.  An
      operation is a function from the state of the disk to the new state
      and an outcome; callbacks are run to completion in the order the code
      chains them, and requests are not interleaved.
    - Node's [fs] and the npm packages are an interface, [Runtime]; a small
      reference implementation is there to run the operations on. *)

From Stdlib Require Import String Ascii List Bool Arith Lia.
From stdpp Require Import base option gmap strings list.

Local Open Scope string_scope.
Local Open Scope list_scope.

(** ** JavaScript string methods *)

Module JsString.

Definition is_char (c d : ascii) : bool := Ascii.eqb c d.

(** [String(v)] for a value that is a string or [undefined]. *)
Definition String_ (v : option string) : string :=
  match v with
  | Some s => s
  | None => "undefined"
  end.

Fixpoint drop (n : nat) (s : string) : string :=
  match n, s with
  | O, _ => s
  | S _, EmptyString => EmptyString
  | S k, String _ s' => drop k s'
  end.

(** [s.indexOf(q) !== -1] *)
Fixpoint includes (q s : string) : bool :=
  String.prefix q s ||
  match s with
  | EmptyString => false
  | String _ s' => includes q s'
  end.

(** [s.charAt(0) === c] *)
Definition starts_with_char (c : ascii) (s : string) : bool :=
  match s with
  | String d _ => is_char c d
  | EmptyString => false
  end.

(** [s && s[s.length - 1] === c] *)
Fixpoint ends_with_char (c : ascii) (s : string) : bool :=
  match s with
  | EmptyString => false
  | String d EmptyString => is_char c d
  | String _ s' => ends_with_char c s'
  end.

(** [s.toLowerCase()] on code units 0..255: A-Z and the upper-case
    letters of the Latin-1 supplement (U+00C0..U+00DE without U+00D7). *)
Definition lower_char (c : ascii) : ascii :=
  let n := nat_of_ascii c in
  if (((65 <=? n) && (n <=? 90)) ||
      ((192 <=? n) && (n <=? 222) && negb (n =? 215)))%nat
  then ascii_of_nat (n + 32)
  else c.

Fixpoint toLowerCase (s : string) : string :=
  match s with
  | EmptyString => EmptyString
  | String c s' => String (lower_char c) (toLowerCase s')
  end.

(** [s.split(c)] for a one-character separator. *)
Fixpoint split_char (c : ascii) (s : string) : list string :=
  match s with
  | EmptyString => [EmptyString]
  | String d s' =>
      if is_char c d then EmptyString :: split_char c s'
      else match split_char c s' with
           | h :: t => String d h :: t
           | [] => [String d EmptyString]
           end
  end.

(** [parts.join(sep)] *)
Fixpoint join (sep : string) (parts : list string) : string :=
  match parts with
  | [] => EmptyString
  | [p] => p
  | p :: ps => p +:+ sep +:+ join sep ps
  end.

(** The suffix of [s] that starts at its last [c]:
    [i = s.lastIndexOf(c); i === -1 ? null : s.substr(i)]. *)
Fixpoint from_last_char (c : ascii) (s : string) : option string :=
  match s with
  | EmptyString => None
  | String d s' =>
      match from_last_char c s' with
      | Some t => Some t
      | None => if is_char c d then Some s else None
      end
  end.

(** [s.substring(s.indexOf(c) + 1)]: all of [s] when it has no [c]. *)
Fixpoint after_first_char (c : ascii) (s : string) : string :=
  match s with
  | EmptyString => EmptyString
  | String d s' =>
      if is_char c d then s'
      else if includes (String c EmptyString) s' then after_first_char c s'
      else s
  end.

(** [s.replace(re, r)] where [re] is one or more slashes at the start of
    the text, matched lazily: the match is exactly one slash. *)
Definition replace_leading_slash (r s : string) : string :=
  match s with
  | String c s' => if is_char "/" c then r +:+ s' else s
  | EmptyString => s
  end.

(** [s.replace(re, '')] where [re] is the optional group [^get/]: it
    matches at index 0, either the text [get/] or the empty string. *)
Definition strip_get (s : string) : string :=
  if String.prefix "get/" s then drop 4 s else s.

(** The replacement text of [String.prototype.replace] for a pattern
    without capture groups: [$$], [$&], [$`] and [$'] are expanded, any
    other [$] stays. *)
Fixpoint get_substitution (matched before after repl : string) : string :=
  match repl with
  | EmptyString => EmptyString
  | String a t =>
      if is_char "$" a then
        match t with
        | String c r =>
            if is_char "$" c then String "$" (get_substitution matched before after r)
            else if is_char "&" c then matched +:+ get_substitution matched before after r
            else if is_char "`" c then before +:+ get_substitution matched before after r
            else if is_char "'" c then after +:+ get_substitution matched before after r
            else String a (get_substitution matched before after t)
        | EmptyString => String a EmptyString
        end
      else String a (get_substitution matched before after t)
  end.

(** [s.replace(new RegExp(tok, 'g'), repl)] for a literal, non-empty
    [tok]: the matches are the non-overlapping occurrences of [tok] in
    [s], left to right; [skip] counts the characters of a match still to
    be passed over and [before] is the text of [s] already scanned. *)
Fixpoint replace_go (tok repl : string) (skip : nat) (before s : string) : string :=
  match s with
  | EmptyString => EmptyString
  | String c s' =>
      match skip with
      | S k => replace_go tok repl k (before +:+ String c EmptyString) s'
      | O =>
          if String.prefix tok s
          then get_substitution tok before (drop (String.length tok) s) repl
               +:+ replace_go tok repl (String.length tok - 1)
                    (before +:+ String c EmptyString) s'
          else String c (replace_go tok repl 0 (before +:+ String c EmptyString) s')
      end
  end.

Definition replace_all (tok repl s : string) : string :=
  replace_go tok repl 0 EmptyString s.

(** *** Splitting an address at its protocol

    [query.split(re)] where the pattern [re] is: a greedy captured run of
    [.], the text [://], a second greedy captured run of [.].  A [.]
    matches every character but a line terminator. *)
Definition is_line_terminator (c : ascii) : bool :=
  is_char "010" c || is_char "013" c.

(** The longest prefix without a line terminator, and what follows. *)
Fixpoint line_span (s : string) : string * string :=
  match s with
  | EmptyString => (EmptyString, EmptyString)
  | String c s' =>
      if is_line_terminator c then (EmptyString, s)
      else let (l, r) := line_span s' in (String c l, r)
  end.

(** Inside one line the greedy first group gives back characters until
    [://] matches: the text is cut at the last [://]. *)
Fixpoint cut_last_sep (line : string) : option (string * string) :=
  match line with
  | EmptyString => None
  | String c rest =>
      match cut_last_sep rest with
      | Some (a, b) => Some (String c a, b)
      | None => if String.prefix "://" line then Some (EmptyString, drop 3 line) else None
      end
  end.

(** A match of the pattern at the start of [s]: the two captures and the
    text after the match. *)
Definition match_here (s : string) : option (string * string * string) :=
  let (line, rest) := line_span s in
  match cut_last_sep line with
  | Some (a, b) => Some (a, b, rest)
  | None => None
  end.

(** The loop of [String.prototype.split]: [piece] is the text between the
    end of the previous match and the position under test.  A match is
    never empty, so its end never equals the start of the piece. *)
Fixpoint split_loop (fuel : nat) (piece s : string) : list (option string) :=
  match fuel with
  | O => [Some (piece +:+ s)]
  | S fuel' =>
      match s with
      | EmptyString => [Some piece]
      | String c s' =>
          match match_here s with
          | Some (a, b, rest) => Some piece :: Some a :: Some b :: split_loop fuel' EmptyString rest
          | None => split_loop fuel' (piece +:+ String c EmptyString) s'
          end
      end
  end.

Definition split_protocol (query : string) : list (option string) :=
  split_loop (S (String.length query)) EmptyString query.

(** [parts[i]] *)
Definition part (i : nat) (parts : list (option string)) : option string :=
  match nth_error parts i with
  | Some p => p
  | None => None
  end.

End JsString.

(** ** Node's [path] module (POSIX flavour) *)

Module Path.
Import JsString.

(** [normalizeArray(parts, allowAboveRoot)]: [res] is the stack of kept
    segments, its top first. *)
Fixpoint normalizeArray_go (allowAboveRoot : bool) (parts res : list string) : list string :=
  match parts with
  | [] => rev res
  | p :: ps =>
      if String.eqb p "" || String.eqb p "." then normalizeArray_go allowAboveRoot ps res
      else if String.eqb p ".." then
        match res with
        | top :: below =>
            if negb (String.eqb top "..") then normalizeArray_go allowAboveRoot ps below
            else if allowAboveRoot then normalizeArray_go allowAboveRoot ps (".." :: res)
            else normalizeArray_go allowAboveRoot ps res
        | [] =>
            if allowAboveRoot then normalizeArray_go allowAboveRoot ps (".." :: res)
            else normalizeArray_go allowAboveRoot ps res
        end
      else normalizeArray_go allowAboveRoot ps (p :: res)
  end.

Definition normalizeArray (parts : list string) (allowAboveRoot : bool) : list string :=
  normalizeArray_go allowAboveRoot parts [].

Definition isAbsolute (path : string) : bool := starts_with_char "/" path.

(** The segments [normalize] keeps:
    [normalizeArray(path.split('/'), !isAbsolute)]. *)
Definition segments (path : string) : list string :=
  normalizeArray (split_char "/" path) (negb (isAbsolute path)).

Definition normalize (path : string) : string :=
  let absolute := isAbsolute path in
  let trailingSlash := ends_with_char "/" path in
  let p1 := JsString.join "/" (segments path) in
  let p2 := if String.eqb p1 "" && negb absolute then "." else p1 in
  let p3 := if negb (String.eqb p2 "") && trailingSlash then p2 +:+ "/" else p2 in
  (if absolute then "/" else "") +:+ p3.

(** The loop of [path.join]: empty arguments are skipped, the others are
    glued with a slash. *)
Fixpoint join_go (path : string) (segments : list string) : string :=
  match segments with
  | [] => path
  | segment :: rest =>
      if String.eqb segment "" then join_go path rest
      else if String.eqb path "" then join_go segment rest
      else join_go (path +:+ "/" +:+ segment) rest
  end.

Definition join (segments : list string) : string :=
  normalize (join_go "" segments).

End Path.

(** ** Data model *)

(** A mountpoint of [CONFIG.vfs.mounts]: a destination template, or an
    object [{destination, transport, enabled, ro}]. *)
Record mount_object := {
  destination : option string;
  mount_transport : option string;
  enabled : option bool;
  ro : option bool }.

Inductive mountpoint :=
| MountTemplate (template : string)
| MountObject (o : mount_object).

(** The [ServerInstance] without its list of transports, which is passed
    next to it. *)
Record instance := {
  DIST : string;
  DIRS_root : string;
  DIRS_server : string;
  mounts : option (gmap string mountpoint);
  mimes : gmap string string }.

(** The arguments object of a VFS call.  [a_raw], [a_stream], [a_rawtype]
    are the members of [args.options]; [a_query], [a_recursive], [a_limit]
    those of [args.args]. *)
Record vfs_args := {
  a_path : option string;
  a_src : option string;
  a_dest : option string;
  a_root : option string;
  a_data : option string;
  a_overwrite : option string;
  a_raw : option bool;
  a_stream : option bool;
  a_rawtype : option string;
  a_query : option string;
  a_recursive : option bool;
  a_limit : option nat }.

Definition no_args : vfs_args :=
  {| a_path := None; a_src := None; a_dest := None; a_root := None;
     a_data := None; a_overwrite := None; a_raw := None; a_stream := None;
     a_rawtype := None; a_query := None; a_recursive := None; a_limit := None |}.

(** [{path: p}] *)
Definition path_args (p : string) : vfs_args :=
  {| a_path := Some p; a_src := None; a_dest := None; a_root := None;
     a_data := None; a_overwrite := None; a_raw := None; a_stream := None;
     a_rawtype := None; a_query := None; a_recursive := None; a_limit := None |}.

Record upload_file := { upload_path : string; upload_name : string }.

(** The [ServerRequest]: [method] is [http.request.method], [username] is
    what [http.session.get('username')] returns, with [None] for [false]. *)
Record http_request := {
  method : string;
  endpoint : string;
  data : vfs_args;
  files_upload : option upload_file;
  username : option string }.

Record stat := {
  isFile : bool;
  st_size : option N;
  st_mode : option N;
  st_ctime : option N;
  st_mtime : option N }.

Inductive file_type := TypeFile | TypeDir.

(** The File Info record; [fi_mime] is [None] when the MIME table has no
    entry. *)
Record fileinfo := {
  filename : string;
  fi_path : string;
  fi_size : N;
  fi_mime : option string;
  fi_type : file_type;
  permissions : string;
  ctime : option N;
  mtime : option N }.

(** [fstream.Reader(path)] and [fstream.Writer(path)] *)
Inductive stream :=
| Reader (path : option string)
| Writer (path : option string).

Inductive value :=
| VTrue
| VBuffer (bytes : string)
| VString (s : string)
| VList (l : list fileinfo)
| VInfo (info : fileinfo) (exif : string)
| VNumber (n : N)
| VStream (s : stream).

(** What is written through [http.respond]. *)
Inductive response :=
| RespondStream (path : string) (s : stream)
| RespondRaw (body : string) (code : nat) (headers : list (string * string)).

(** How a call ends.  [Thrown] is an exception that reaches the caller;
    [Uncaught] is an exception raised inside an I/O callback: neither
    [resolve] nor [reject] is ever called.  [Unanswered] is a call that
    returns without having called either, and without an exception. *)
Inductive outcome (V : Type) :=
| Resolved (v : V)
| Rejected (e : string)
| Responded (r : response)
| Thrown (e : string)
| Uncaught (e : string)
| Unanswered.
Arguments Resolved {V} v.
Arguments Rejected {V} e.
Arguments Responded {V} r.
Arguments Thrown {V} e.
Arguments Uncaught {V} e.
Arguments Unanswered {V}.

(** How a promise ends: fulfilled, rejected, or never settled; the text
    is the exception that escaped from an I/O callback, or empty when the
    call returned without an answer. *)
Inductive promise (V : Type) :=
| Fulfilled (v : V)
| Broken (e : string)
| Pending (e : string).
Arguments Fulfilled {V} v.
Arguments Broken {V} e.
Arguments Pending {V} e.

(** A computation that returns or throws. *)
Inductive thrown (A : Type) :=
| Returned (a : A)
| Raised (e : string).
Arguments Returned {A} a.
Arguments Raised {A} e.

(** A [let] or [const] binding: it exists from the start of its block but
    holds no value until its declaration has been evaluated, and reading it
    before that throws. *)
Inductive binding (A : Type) :=
| Uninitialized
| Initialized (a : A).
Arguments Uninitialized {A}.
Arguments Initialized {A} a.

Definition read_binding {A} (name : string) (b : binding A) : thrown A :=
  match b with
  | Initialized a => Returned a
  | Uninitialized => Raised ("ReferenceError: " +:+ name +:+ " is not defined")
  end.

(** [xs.indexOf(searchElement)] on an array of strings; strict equality
    never relates a string to [undefined]. *)
Fixpoint indexOf_from (i : Z) (xs : list string) (searchElement : option string) : Z :=
  match xs with
  | [] => (-1)%Z
  | x :: xs' =>
      match searchElement with
      | Some s => if String.eqb x s then i else indexOf_from (i + 1)%Z xs' searchElement
      | None => indexOf_from (i + 1)%Z xs' searchElement
      end
  end.

Definition indexOf (xs : list string) (searchElement : option string) : Z :=
  indexOf_from 0%Z xs searchElement.

(** A string or [undefined] as a condition: the empty string is falsy. *)
Definition truthy (v : option string) : option string :=
  match v with
  | Some "" | None => None
  | Some s => Some s
  end.

(** The names under which every object has a function. *)
Definition Object_prototype_functions : list string :=
  ["constructor"; "hasOwnProperty"; "isPrototypeOf"; "propertyIsEnumerable";
   "toLocaleString"; "toString"; "valueOf";
   "__defineGetter__"; "__defineSetter__"; "__lookupGetter__"; "__lookupSetter__"].

(** The names every object answers to without having a member of its own:
    the functions, and [__proto__], which gives the prototype object.  All
    of these values are truthy. *)
Definition Object_prototype_members : list string :=
  Object_prototype_functions ++ ["__proto__"].

Definition inherited (k : string) : bool :=
  negb (bool_decide (indexOf Object_prototype_members (Some k) = (-1)%Z)).

Inductive access_mode := R_OK | W_OK.

(** An entry reported by the [findit] walker. *)
Record walk_entry := { we_path : string; we_isdir : bool; we_stat : stat }.

(** A member of a package's metadata.  Arrays and nested objects are kept
    as their text. *)
Inductive json :=
| JNull
| JBool (b : bool)
| JNumber (z : Z)
| JString (s : string)
| JNested (text : string).

(** ** The runtime the server runs on

    Node's [fs] (through [node-fs-extra]), the [fstream], [findit],
    [diskspace] and [exif] packages, [Buffer], [JSON] and [lib/utils.js]
    are not part of the three files; they enter as one interface.  An I/O
    error is the message of its error object. *)
Class Runtime := {
  disk : Type;
  fs_exists : disk -> option string -> bool;
  fs_readFile : disk -> option string -> string + string;
  fs_writeFile : disk -> option string -> string -> string -> disk * option string;
  fs_unlink : disk -> string -> disk;
  fs_remove : disk -> option string -> disk * option string;
  fs_access : disk -> option string -> access_mode -> option string;
  fs_copy : disk -> option string -> option string -> disk * option string;
  fs_rename : disk -> option string -> option string -> disk * option string;
  fs_mkdir : disk -> option string -> disk * option string;
  fs_readdir : disk -> option string -> string + list string;
  fs_statSync : disk -> option string -> thrown stat;
  (** [createReadStream(source).pipe(createWriteStream(dest, {flags: 'w'}))]
      run until the output closes ([None]) or a stream reports an error. *)
  fs_pipe : disk -> string -> string -> disk * option string;
  path_dirname : string -> string;
  path_basename : string -> string;
  (** The files and directories [findit] reports, in order; [Raised] when
      the package cannot be loaded. *)
  findit : disk -> option string -> thrown (list walk_entry);
  diskspace_check : disk -> option string -> thrown N;
  exif_image : disk -> option string -> string + string;
  base64_encode : string -> string;
  base64_decode : string -> string;
  unescape : string -> string;
  permissionToString : option N -> string;
  (** [JSON.parse] at the two document shapes the package manager reads;
      [None] is a [SyntaxError]. *)
  JSON_parse_packages : string -> option (gmap string (gmap string (gmap string json)));
  JSON_parse_manifest : string -> option (gmap string (gmap string json)) }.

Section Server.
Context `{Runtime}.

(** The envelope [{query, method, data}] handed to a transport. *)
Record vfs_request := {
  query : string;
  req_method : string;
  req_data : vfs_args }.

(** A transport module: [{request, createReadStream, createWriteStream,
    name}].  The two stream creators return a promise. *)
Record transport := {
  name : string;
  transport_request :
    instance -> http_request -> vfs_request -> disk -> disk * outcome value;
  transport_createReadStream : instance -> http_request -> string -> outcome stream;
  transport_createWriteStream : instance -> http_request -> string -> outcome stream }.

(** *** lib/vfs.js *)

Definition writeableMap : list string :=
  ["upload"; "write"; "delete"; "copy"; "move"; "mkdir"].

(** [(argumentMap[method] || argumentMap._default)(args, dest)] up to the
    point where the result is used as a string.  The table has four members
    of its own.  A name it inherits is found before [_default] is asked:
    the inherited function is called without a receiver, for which
    [toString] has an answer and the others throw; [constructor] returns
    [args] itself, which has no [split]; [__proto__] is no function. *)
Definition argumentMap (method : string) (args : vfs_args) (dest : bool)
    : thrown (option string) :=
  if String.eqb method "freeSpace" then Returned (a_root args)
  else if String.eqb method "move" || String.eqb method "copy"
  then Returned (if dest then a_dest args else a_src args)
  else if String.eqb method "toString" then Returned (Some "[object Undefined]")
  else if String.eqb method "constructor"
  then Raised "TypeError: query.split is not a function"
  else if String.eqb method "__proto__"
  then Raised "TypeError: (argumentMap[method] || argumentMap._default) is not a function"
  else if inherited method
  then Raised "TypeError: Cannot convert undefined or null to object"
  else Returned (a_path args).

Record parsed_query := {
  p_query : string;
  p_protocol : option string;
  p_path : string }.

Record found_transport := {
  f_parsed : parsed_query;
  f_transport : option transport }.

Definition mountpoints (inst : instance) : gmap string mountpoint :=
  default ∅ (mounts inst).

(** [findTransport]: [Returned None] is the result [false].  The extractor
    is called with [args] alone, so its [dest] parameter is [undefined]. *)
Definition findTransport (inst : instance) (VFS : list transport)
    (method : string) (args : vfs_args) : thrown (option found_transport) :=
  match argumentMap method args false with
  | Raised e => Raised e
  | Returned None => Raised "TypeError: Cannot read property 'split' of undefined"
  | Returned (Some q) =>
      let parts := JsString.split_protocol q in
      let parsed :=
        {| p_query := q;
           p_protocol := JsString.part 1 parts;
           p_path := JsString.replace_leading_slash "/"
                       (JsString.String_ (JsString.part 2 parts)) |} in
      let mount := mountpoints inst !! JsString.String_ (p_protocol parsed) in
      let transportName :=
        match mount with
        | Some (MountObject o) => default "__default__" (mount_transport o)
        | _ => "__default__"
        end in
      let denied :=
        match mount with
        | Some (MountObject o) =>
            bool_decide (enabled o = Some false) ||
            (bool_decide (ro o = Some true) &&
             negb (indexOf writeableMap (Some method) =? -1)%Z)
        | _ => false
        end in
      if denied then Returned None
      else Returned (Some {| f_parsed := parsed;
                             f_transport :=
                               List.find (fun module => String.eqb (name module) transportName) VFS |})
  end.

(** [module.exports.request]: [resolve] and [reject] are those of the
    promise the caller builds around the call. *)
Definition request (inst : instance) (VFS : list transport) (http : http_request)
    (d : disk) : disk * outcome value :=
  let data_ :=
    if String.eqb (method http) "GET"
    then path_args (JsString.strip_get (endpoint http))
    else data http in
  let fn := if String.eqb (method http) "GET" then "read" else endpoint http in
  match findTransport inst VFS fn data_ with
  | Raised e => (d, Thrown e)
  | Returned None => (d, Rejected "Operation denied!")
  | Returned (Some found) =>
      match f_transport found with
      | None => (d, Rejected ("Cannot find VFS module for: " +:+ p_query (f_parsed found)))
      | Some t =>
          transport_request t inst http
            {| query := p_query (f_parsed found); req_method := fn; req_data := data_ |} d
      end
  end.

(** [found.transport] is [undefined] both when [found] is [false] and when
    no module carries the name. *)
Definition createReadStream (inst : instance) (VFS : list transport)
    (http : http_request) (path : string) : outcome stream :=
  match findTransport inst VFS "read" (path_args path) with
  | Raised e => Thrown e
  | Returned (Some {| f_transport := Some t |}) => transport_createReadStream t inst http path
  | Returned _ => Thrown "TypeError: Cannot read property 'createReadStream' of undefined"
  end.

Definition createWriteStream (inst : instance) (VFS : list transport)
    (http : http_request) (path : string) : outcome stream :=
  match findTransport inst VFS "read" (path_args path) with
  | Raised e => Thrown e
  | Returned (Some {| f_transport := Some t |}) => transport_createWriteStream t inst http path
  | Returned _ => Thrown "TypeError: Cannot read property 'createWriteStream' of undefined"
  end.

Definition getMime (inst : instance) (iter : string) : option string :=
  let ext := JsString.from_last_char "." iter in
  mimes inst !! default "default" ext.

(** The argument a [_nullResponder] passes on to [resolve]. *)
Definition nullResponder (r : response) : value :=
  match r with
  | RespondStream path _ => VString path
  | RespondRaw body _ _ => VString body
  end.

(** [_request]: the call runs inside the executor of a new promise, so an
    exception it throws rejects the promise, and every responder resolves
    it.  [newHttp] shares its [request] object with [http]; the assignment
    of ['POST'] is visible through both. *)
Definition _request (inst : instance) (VFS : list transport) (http : http_request)
    (method_ : string) (args : vfs_args) (d : disk) : disk * promise value :=
  let newHttp :=
    {| method := "POST"; endpoint := method_; data := args;
       files_upload := files_upload http; username := username http |} in
  match request inst VFS newHttp d with
  | (d', Resolved v) => (d', Fulfilled v)
  | (d', Rejected e) => (d', Broken e)
  | (d', Responded r) => (d', Fulfilled (nullResponder r))
  | (d', Thrown e) => (d', Broken e)
  | (d', Uncaught e) => (d', Pending e)
  | (d', Unanswered) => (d', Pending "")
  end.

(** *** modules/vfs/filesystem.js *)

Record resolved_path := {
  r_query : string;
  r_protocol : option string;
  r_path : string;
  r_real : option string }.

(** [http.session.get('username')] as the replacement text of
    [String.prototype.replace]. *)
Definition session_username (http : http_request) : string :=
  default "false" (username http).

(** The table [rmap], in the order of its keys. *)
Definition rmap (inst : instance) (http : http_request) (protocol : option string)
    : list (string * string) :=
  [("%DIST%", DIST inst);
   ("%UID%", session_username http);
   ("%USERNAME%", session_username http);
   ("%DROOT%", DIRS_root inst);
   ("%MOUNTPOINT%", JsString.String_ protocol)].

Definition substitute (table : list (string * string)) (found : string) : string :=
  fold_left (fun found kv => JsString.replace_all (fst kv) (snd kv) found) table found.

(** [mountpoints[protocol] || mountpoints['*']], as far as it is a
    mountpoint.  An empty template is falsy.  A protocol that names no
    mount but a member every object inherits finds that member: it is
    truthy, so the wildcard is not asked, and it is neither a template nor
    an object with a destination. *)
Definition lookup_mount (inst : instance) (protocol : option string) : option mountpoint :=
  match mountpoints inst !! JsString.String_ protocol with
  | Some (MountTemplate "") => mountpoints inst !! "*"
  | Some m => Some m
  | None =>
      if inherited (JsString.String_ protocol) then None
      else mountpoints inst !! "*"
  end.

(** [if ( typeof found === 'object' ) found = found.destination]; the
    result is a string or [undefined]. *)
Definition destination_of (found : option mountpoint) : option string :=
  match found with
  | Some (MountObject o) => destination o
  | Some (MountTemplate t) => Some t
  | None => None
  end.

Definition resolveRequestPath (inst : instance) (http : http_request)
    (query_ : option string) : thrown resolved_path :=
  match query_ with
  | None => Raised "TypeError: Cannot read property 'split' of undefined"
  | Some q =>
      let parts := JsString.split_protocol q in
      let protocol := JsString.part 1 parts in
      let path := JsString.replace_leading_slash ""
                    (JsString.String_ (JsString.part 2 parts)) in
      let found := destination_of (lookup_mount inst protocol) in
      let real :=
        match found with
        | Some found => Some (Path.join [substitute (rmap inst http protocol) found; path])
        | None => None
        end in
      Returned {| r_query := q; r_protocol := protocol; r_path := path; r_real := real |}
  end.

(** [fstream.Reader(path)]: the constructor reads a member of its argument
    first, so it throws on [null]. *)
Definition fstream_Reader (path : option string) : thrown stream :=
  match path with
  | Some p => Returned (Reader (Some p))
  | None => Raised "TypeError: Cannot read property 'type' of null"
  end.

(** The reader is made inside the executor of the promise: what the
    constructor throws rejects it. *)
Definition filesystem_createReadStream (inst : instance) (http : http_request)
    (path : string) : outcome stream :=
  match resolveRequestPath inst http (Some path) with
  | Raised e => Thrown e
  | Returned resolved =>
      match fstream_Reader (r_real resolved) with
      | Returned s => Resolved s
      | Raised e => Rejected e
      end
  end.

Definition filesystem_createWriteStream (inst : instance) (http : http_request)
    (path : string) : outcome stream :=
  match resolveRequestPath inst http (Some path) with
  | Raised e => Thrown e
  | Returned resolved => Resolved (Writer (r_real resolved))
  end.

(** The stand-in used when [statSync] throws: only [isFile] is there. *)
Definition fallback_stat : stat :=
  {| isFile := true; st_size := None; st_mode := None; st_ctime := None; st_mtime := None |}.

Definition createFileIter (inst : instance) (query_ : string) (real : option string)
    (iter : string) (stat_ : option stat) (d : disk) : fileinfo :=
  let st :=
    match stat_ with
    | Some st => st
    | None => match fs_statSync d real with
              | Returned st => st
              | Raised _ => fallback_stat
              end
    end in
  let type := if isFile st then TypeFile else TypeDir in
  let mime := match type with
              | TypeFile => getMime inst iter
              | TypeDir => Some ""
              end in
  {| filename := iter;
     fi_path := query_ +:+ (if JsString.starts_with_char "/" iter then iter else "/" +:+ iter);
     fi_size := default 0%N (st_size st);
     fi_mime := mime;
     fi_type := type;
     permissions := permissionToString (st_mode st);
     ctime := st_ctime st;
     mtime := st_mtime st |}.

(** The continuation of an I/O callback. *)
Definition callback : Type := disk -> disk * outcome value.

Definition existsWrapper (checkFound : bool) (real : option string)
    (resolve : value -> callback) (reject : string -> callback) : callback :=
  fun d =>
    let exists_ := fs_exists d real in
    if checkFound then
      if exists_ then reject "File or directory already exist." d
      else resolve VTrue d
    else
      if exists_ then resolve VTrue d
      else reject "No such file or directory" d.

Definition default_filter (iter : string) : bool :=
  bool_decide (indexOf ["."; ".."] (Some iter) = (-1)%Z).

(** [readDir]: how the promise it returns settles.  [path.join] throws on
    a [real] that is not a string. *)
Definition readDir (inst : instance) (query_ : string) (real : option string)
    (filter_ : option (string -> bool)) (d : disk) : outcome (list fileinfo) :=
  let filter_ := default default_filter filter_ in
  match fs_readdir d real with
  | inl err => Rejected err
  | inr list_ =>
      match real with
      | None =>
          match List.filter filter_ list_ with
          | [] => Resolved []
          | _ :: _ => Uncaught "TypeError: Path must be a string"
          end
      | Some real =>
          Resolved (map (fun iter =>
                           createFileIter inst query_ (Some (Path.join [real; iter])) iter None d)
                        (List.filter filter_ list_))
      end
  end.

(** The [resolve] and [reject] of the promise around a VFS call. *)
Definition resolve_ (v : value) : callback := fun d => (d, Resolved v).
Definition reject_ (e : string) : callback := fun d => (d, Rejected e).
Definition throw_ (e : string) : callback := fun d => (d, Thrown e).
Definition uncaught_ (e : string) : callback := fun d => (d, Uncaught e).
Definition unanswered_ : callback := fun d => (d, Unanswered).

Definition with_resolved (inst : instance) (http : http_request) (query_ : option string)
    (k : resolved_path -> callback) : callback :=
  match resolveRequestPath inst http query_ with
  | Raised e => throw_ e
  | Returned resolved => k resolved
  end.

Definition VFS_exists (inst : instance) (http : http_request) (args : vfs_args) : callback :=
  with_resolved inst http (a_path args) (fun resolved =>
    existsWrapper true (r_real resolved) resolve_ reject_).

(** [fs.readFile(path, callback)] with the two callbacks of [read]: on
    [null] it throws before it reads anything. *)
Definition readFile_or_throw (real : option string)
    (k : string + string -> callback) : callback :=
  match real with
  | None => throw_ "TypeError: path must be a string or Buffer"
  | Some real => fun d => k (fs_readFile d (Some real)) d
  end.

(** [read].  Without a real path, the reader and [readFile] throw while
    [read] is still running: no responder and no callback is reached. *)
Definition VFS_read (inst : instance) (http : http_request) (args : vfs_args) : callback :=
  with_resolved inst http (a_path args) (fun resolved =>
    if negb (bool_decide (a_raw args = Some false)) then
      if negb (bool_decide (a_stream args = Some false)) then
        match fstream_Reader (r_real resolved) with
        | Returned s => fun d => (d, Responded (RespondStream (r_query resolved) s))
        | Raised e => throw_ e
        end
      else
        readFile_or_throw (r_real resolved) (fun r d =>
          match r with
          | inl e => reject_ e d
          | inr r => resolve_ (VBuffer r) d
          end)
    else
      let mime := getMime inst (r_query resolved) in
      readFile_or_throw (r_real resolved) (fun r d =>
        match r with
        | inl e => reject_ e d
        | inr data_parameter =>
            (* The else block declares [const data]; inside the block the
               name [data] is that constant, also in its own initialiser,
               where it has no value yet.  The parameter of the same name
               is out of reach. *)
            let data_block : binding string := Uninitialized in
            match read_binding "data" data_block with
            | Raised e => uncaught_ e d
            | Returned data_ =>
                let data_block :=
                  "data:" +:+ JsString.String_ mime +:+ ";base64," +:+ base64_encode data_ in
                resolve_ (VString data_block) d
            end
        end)).

(** [_proceed] of [upload]: the copy through the two streams, then
    [streamDone] or [streamError]. *)
Definition _proceed (source dest : string) : callback :=
  fun d =>
    match fs_pipe d source dest with
    | (d1, None) =>
        (fs_unlink d1 source,
         Responded (RespondRaw "1" 200 [("Content-Type", "text/plain")]))
    | (d1, Some err) => reject_ err d1
    end.

Definition VFS_upload (inst : instance) (http : http_request) (args : vfs_args) : callback :=
  match files_upload http with
  | None => throw_ "TypeError: Cannot read property 'path' of undefined"
  | Some upload =>
      let source := upload_path upload in
      with_resolved inst http (a_path (data http)) (fun dresolved =>
        match r_real dresolved with
        | None => throw_ "TypeError: Path must be a string"
        | Some real =>
            let dest := Path.join [real; upload_name upload] in
            existsWrapper false (Some source) (fun _ =>
              if String.eqb (JsString.String_ (a_overwrite (data http))) "true"
              then _proceed source dest
              else existsWrapper true (Some dest) (fun _ => _proceed source dest) reject_)
              reject_
        end)
  end.

Definition VFS_write (inst : instance) (http : http_request) (args : vfs_args) : callback :=
  with_resolved inst http (a_path args) (fun resolved =>
    let data_ := default "" (a_data args) in
    let writeFile (dt : string) (e : option string) : callback :=
      fun d =>
        match fs_writeFile d (r_real resolved) dt (default "utf8" e) with
        | (d1, Some error) => reject_ ("Error writing file: " +:+ error) d1
        | (d1, None) => resolve_ VTrue d1
        end in
    if bool_decide (a_raw args = Some true) then
      writeFile data_ (Some (default "binary" (truthy (a_rawtype args))))
    else
      writeFile (base64_decode (unescape (JsString.after_first_char "," data_))) None).

(** [delete]: the guard calls [indexOf] without an argument. *)
Definition VFS_delete (inst : instance) (http : http_request) (args : vfs_args) : callback :=
  with_resolved inst http (a_path args) (fun resolved =>
    if negb (indexOf [""; "."; "/"] None =? -1)%Z then reject_ "Permission denied"
    else
      existsWrapper false (r_real resolved) (fun _ d =>
        match fs_remove d (r_real resolved) with
        | (d1, Some err) => reject_ ("Error deleting: " +:+ err) d1
        | (d1, None) => resolve_ VTrue d1
        end) reject_).

(** [path.dirname] and [path.basename] throw on [null]. *)
Definition dirname (p : option string) : thrown string :=
  match p with
  | Some p => Returned (path_dirname p)
  | None => Raised "TypeError: Path must be a string"
  end.

Definition basename (p : option string) : thrown string :=
  match p with
  | Some p => Returned (path_basename p)
  | None => Raised "TypeError: Path must be a string"
  end.

(** [copy]: when the directory of the destination is not writable the code
    calls [callback], a name that is bound nowhere. *)
Definition VFS_copy (inst : instance) (http : http_request) (args : vfs_args) : callback :=
  with_resolved inst http (a_src args) (fun sresolved =>
  with_resolved inst http (a_dest args) (fun dresolved =>
    existsWrapper false (r_real sresolved) (fun _ =>
      existsWrapper true (r_real dresolved) (fun _ d =>
        match dirname (r_real dresolved) with
        | Raised e => uncaught_ e d
        | Returned dir =>
            match fs_access d (Some dir) W_OK with
            | Some _ => uncaught_ "ReferenceError: callback is not defined" d
            | None =>
                match fs_copy d (r_real sresolved) (r_real dresolved) with
                | (d1, Some error) => reject_ ("Error copying: " +:+ error) d1
                | (d1, None) => resolve_ VTrue d1
                end
            end
        end) reject_) reject_)).

Definition VFS_move (inst : instance) (http : http_request) (args : vfs_args) : callback :=
  with_resolved inst http (a_src args) (fun sresolved =>
  with_resolved inst http (a_dest args) (fun dresolved => fun d =>
    match fs_access d (r_real sresolved) R_OK with
    | Some _ => reject_ "Cannot read source" d
    | None =>
        match dirname (r_real dresolved) with
        | Raised e => uncaught_ e d
        | Returned dir =>
            match fs_access d (Some dir) W_OK with
            | Some _ => reject_ "Cannot write to destination" d
            | None =>
                match fs_rename d (r_real sresolved) (r_real dresolved) with
                | (d1, Some error) => reject_ ("Error renaming/moving: " +:+ error) d1
                | (d1, None) => resolve_ VTrue d1
                end
            end
        end
    end)).

(** [mkdir]: the message of a failed [mkdir] is built from [error], a name
    that is bound nowhere. *)
Definition VFS_mkdir (inst : instance) (http : http_request) (args : vfs_args) : callback :=
  with_resolved inst http (a_path args) (fun resolved =>
    existsWrapper true (r_real resolved) (fun _ d =>
      match fs_mkdir d (r_real resolved) with
      | (d1, Some _) => uncaught_ "ReferenceError: error is not defined" d1
      | (d1, None) => resolve_ VTrue d1
      end) reject_).

(** The filter [find] hands to [readDir] when it does not recurse. *)
Definition find_filter (query_ : string) (iter : string) : bool :=
  if bool_decide (indexOf ["."; ".."] (Some iter) = (-1)%Z)
  then JsString.includes query_ (JsString.toLowerCase iter)
  else false.

(** [qargs.limit && list.length >= qargs.limit] *)
Definition limit_reached (limit : option nat) (list_ : list fileinfo) : bool :=
  match limit with
  | Some (S l) => (S l <=? length list_)%nat
  | _ => false
  end.

(** The recursive walk.  For every entry the [path] handler runs, then the
    [directory] or [file] handler; [find.stop()] resolves the list through
    the [stop] handler and no later event is taken into account. *)
Fixpoint find_walk (inst : instance) (path : string) (real : option string)
    (query_ : string) (limit : option nat) (entries : list walk_entry)
    (list_ : list fileinfo) (d : disk) : list fileinfo :=
  match entries with
  | [] => list_
  | e :: rest =>
      if limit_reached limit list_ then list_
      else
        let list1 :=
          if JsString.includes query_ (JsString.toLowerCase (path_basename (we_path e)))
          then list_ ++ [createFileIter inst path real (we_path e) (Some (we_stat e)) d]
          else list_ in
        find_walk inst path real query_ limit rest list1 d
  end.

Definition settle (o : outcome (list fileinfo)) : outcome value :=
  match o with
  | Resolved l => Resolved (VList l)
  | Rejected e => Rejected e
  | Responded r => Responded r
  | Thrown e => Thrown e
  | Uncaught e => Uncaught e
  | Unanswered => Unanswered
  end.

Definition VFS_find (inst : instance) (http : http_request) (args : vfs_args) : callback :=
  let query_ := JsString.toLowerCase (default "" (a_query args)) in
  with_resolved inst http (a_path args) (fun resolved =>
    if negb (bool_decide (a_recursive args = Some true)) then
      fun d =>
        (d, settle (readDir inst (r_query resolved) (r_real resolved)
                      (Some (find_filter query_)) d))
    else
      fun d =>
        match findit d (r_real resolved) with
        | Raised e => reject_ ("Failed to load findit node library: " +:+ e) d
        | Returned entries =>
            resolve_ (VList (find_walk inst (r_query resolved) (r_real resolved)
                               query_ (a_limit args) entries [] d)) d
        end).

(** [fileinfo]: [readExif] resolves [null] for a MIME type that is not an
    image; a failure of the EXIF reader becomes the [exif] member. *)
Definition VFS_fileinfo (inst : instance) (http : http_request) (args : vfs_args) : callback :=
  with_resolved inst http (a_path args) (fun resolved =>
    existsWrapper false (r_real resolved) (fun _ d =>
      match r_real resolved with
      | None => uncaught_ "TypeError: Path must be a string" d
      | Some real =>
          let info := createFileIter inst (r_query resolved) (Some real)
                        (path_basename real) None d in
          match getMime inst real with
          | None => uncaught_ "TypeError: Cannot read property 'match' of undefined" d
          | Some mime =>
              if String.prefix "image" mime then
                match exif_image d (Some real) with
                | inr result =>
                    resolve_ (VInfo info (if String.eqb result ""
                                          then "No EXIF data available" else result)) d
                | inl error => resolve_ (VInfo info error) d
                end
              else resolve_ (VInfo info "No EXIF data available") d
          end
      end) reject_).

Definition VFS_scandir (inst : instance) (http : http_request) (args : vfs_args) : callback :=
  with_resolved inst http (a_path args) (fun resolved d =>
    (d, settle (readDir inst (r_query resolved) (r_real resolved) None d))).

Definition VFS_freeSpace (inst : instance) (http : http_request) (args : vfs_args) : callback :=
  with_resolved inst http (a_root args) (fun resolved d =>
    match diskspace_check d (r_real resolved) with
    | Returned free => resolve_ (VNumber free) d
    | Raised e => reject_ ("Failed to load diskspace node library: " +:+ e) d
    end).

(** The object [VFS], by its own members. *)
Definition VFS_methods : list (string * (instance -> http_request -> vfs_args -> callback)) :=
  [("exists", VFS_exists); ("read", VFS_read); ("upload", VFS_upload);
   ("write", VFS_write); ("delete", VFS_delete); ("copy", VFS_copy);
   ("move", VFS_move); ("mkdir", VFS_mkdir); ("find", VFS_find);
   ("fileinfo", VFS_fileinfo); ("scandir", VFS_scandir); ("freeSpace", VFS_freeSpace)].

Fixpoint member {A} (key : string) (object : list (string * A)) : option A :=
  match object with
  | [] => None
  | (k, v) :: rest => if String.eqb k key then Some v else member key rest
  end.

(** [VFS[method]] for a name the table has no member of its own for.  The
    functions every object inherits are functions: called with
    [(instance, http, data, resolve, reject)] on the table they return
    without an answer, but for the two that ask for a function as their
    second argument and throw.  Any other name, [__proto__] included, gives
    no function. *)
Definition inherited_method (method : string) (otherwise : callback) : callback :=
  if String.eqb method "__defineGetter__" || String.eqb method "__defineSetter__"
  then throw_ ("TypeError: Object.prototype." +:+ method +:+ ": Expecting function")
  else if bool_decide (indexOf Object_prototype_functions (Some method) = (-1)%Z)
  then otherwise
  else unanswered_.

Definition filesystem_request (inst : instance) (http : http_request)
    (req : vfs_request) : callback :=
  match member (req_method req) VFS_methods with
  | Some f => f inst http (req_data req)
  | None =>
      inherited_method (req_method req)
        (reject_ ("No such VFS method: " +:+ req_method req))
  end.

(** The module [modules/vfs/filesystem.js]. *)
Definition filesystem : transport :=
  {| name := "__default__";
     transport_request := filesystem_request;
     transport_createReadStream := filesystem_createReadStream;
     transport_createWriteStream := filesystem_createWriteStream |}.

(** The template transport: every method rejects, both streams are opened
    on [null], which the reader does not take. *)
Definition example_methods : list string :=
  ["read"; "upload"; "write"; "delete"; "copy"; "move"; "mkdir"; "find";
   "fileinfo"; "scandir"; "freeSpace"].

Definition example_request (inst : instance) (http : http_request)
    (req : vfs_request) : callback :=
  if bool_decide (indexOf example_methods (Some (req_method req)) = (-1)%Z)
  then inherited_method (req_method req) (reject_ "No such VFS method")
  else reject_ "Not implemented".

Definition example : transport :=
  {| name := "EXAMPLE";
     transport_request := example_request;
     transport_createReadStream := fun _ _ _ =>
       match fstream_Reader None with
       | Returned s => Resolved s
       | Raised e => Rejected e
       end;
     transport_createWriteStream := fun _ _ _ => Resolved (Writer None) |}.

(** *** lib/packagemanager.js *)

(** [meta.scope = s] *)
Definition set_scope (s : string) (meta : gmap string json) : gmap string json :=
  <["scope" := JString s]> meta.

(** [getSystemMetadata]: an exception of [JSON.parse] or of
    [Object.keys(undefined)] is raised inside the callback of
    [readFile]. *)
Definition getSystemMetadata (inst : instance) (d : disk)
    : promise (gmap string (gmap string json)) :=
  let path := Path.join [DIRS_server inst; "packages.json"] in
  match fs_readFile d (Some path) with
  | inl e => Broken e
  | inr data_ =>
      match JSON_parse_packages data_ with
      | None => Pending "SyntaxError"
      | Some document =>
          match document !! DIST inst with
          | None => Pending "TypeError: Cannot convert undefined or null to object"
          | Some meta => Fulfilled (set_scope "system" <$> meta)
          end
      end
  end.

(** [JSON.parse(res)] followed by [Object.keys]: what is read as a
    manifest from the value a [read] resolved.  A value that is no text of
    a manifest adds no key, whether [JSON.parse] throws on it or not. *)
Definition manifest_of (res : value) : gmap string (gmap string json) :=
  match res with
  | VBuffer text | VString text => default ∅ (JSON_parse_manifest text)
  | _ => ∅
  end.

(** [Object.keys(meta).forEach(k => { summed[k] = meta[k];
    summed[k].scope = 'user' })].  An assignment to [__proto__] sets the
    prototype of [summed] and makes no member. *)
Definition add_user_manifest (meta summed : gmap string (gmap string json))
    : gmap string (gmap string json) :=
  map_fold (fun k v summed =>
              if String.eqb k "__proto__" then summed
              else <[k := set_scope "user" v]> summed) summed meta.

Definition read_args (path : string) : vfs_args :=
  {| a_path := Some path; a_src := None; a_dest := None; a_root := None;
     a_data := None; a_overwrite := None; a_raw := Some true; a_stream := Some false;
     a_rawtype := None; a_query := None; a_recursive := None; a_limit := None |}.

(** The loop [_utils.iterate(paths, ...)] of [getUserMetadata]: the
    entries are visited one after the other, [next] moves on. *)
Fixpoint getUserMetadata_iterate (inst : instance) (VFS : list transport)
    (http : http_request) (paths : list string)
    (summed : gmap string (gmap string json)) (d : disk)
    : disk * promise (gmap string (gmap string json)) :=
  match paths with
  | [] => (d, Fulfilled summed)
  | iter :: rest =>
      let path := JsString.join "/" [iter; "packages.json"] in
      match _request inst VFS http "read" (read_args path) d with
      | (d1, Fulfilled res) =>
          getUserMetadata_iterate inst VFS http rest
            (add_user_manifest (manifest_of res) summed) d1
      | (d1, Broken _) => getUserMetadata_iterate inst VFS http rest summed d1
      | (d1, Pending e) => (d1, Pending e)
      end
  end.

(** The manifests the loop reads, in the order of the search paths: one for
    every path whose [read] is fulfilled. *)
Fixpoint user_manifests (inst : instance) (VFS : list transport)
    (http : http_request) (paths : list string) (d : disk)
    : list (gmap string (gmap string json)) :=
  match paths with
  | [] => []
  | iter :: rest =>
      let path := JsString.join "/" [iter; "packages.json"] in
      match _request inst VFS http "read" (read_args path) d with
      | (d1, Fulfilled res) => manifest_of res :: user_manifests inst VFS http rest d1
      | (d1, Broken _) => user_manifests inst VFS http rest d1
      | (d1, Pending _) => []
      end
  end.

(** The arguments of the package API: [{scope, paths}]. *)
Record package_args := {
  scope : option string;
  paths : option (list string) }.

Definition getUserMetadata (inst : instance) (VFS : list transport)
    (http : http_request) (args : package_args) (d : disk)
    : disk * promise (gmap string (gmap string json)) :=
  getUserMetadata_iterate inst VFS http (default [] (paths args)) ∅ d.

(** [Object.keys(r).forEach(k => { if ( !summed[k] ) summed[k] = r[k] })].
    What [summed] inherits is truthy like a member of its own. *)
Definition add_missing (r summed : gmap string (gmap string json))
    : gmap string (gmap string json) :=
  map_fold (fun k v summed =>
              match summed !! k with
              | Some _ => summed
              | None => if inherited k then summed else <[k := v]> summed
              end) summed r.

(** [module.exports.list] *)
Definition list_packages (inst : instance) (VFS : list transport)
    (http : http_request) (args : package_args) (d : disk)
    : disk * promise (gmap string (gmap string json)) :=
  match scope args with
  | None | Some "" =>
      match getSystemMetadata inst d with
      | Fulfilled summed =>
          match getUserMetadata inst VFS http args d with
          | (d1, Fulfilled r) => (d1, Fulfilled (add_missing r summed))
          | (d1, Broken e) => (d1, Broken e)
          | (d1, Pending e) => (d1, Pending e)
          end
      | Broken e => (d, Broken e)
      | Pending e => (d, Pending e)
      end
  | Some s =>
      if String.eqb s "system" then (d, getSystemMetadata inst d)
      else if String.eqb s "user" then getUserMetadata inst VFS http args d
      else (d, Broken "Invalid scope")
  end.

End Server.

(** ** Vocabulary of the statements *)

(** Letters without their case.  The capital letters are the codes 65 to
    90, and in the upper half 192 to 222 without the multiplication sign
    215; the small letter of a capital is 32 codes above it. *)
Definition capital_of (small big : ascii) : Prop :=
  let n := nat_of_ascii big in
  ((65 <= n <= 90)%nat \/ ((192 <= n <= 222)%nat /\ n <> 215%nat)) /\
  nat_of_ascii small = (n + 32)%nat.

Definition same_letter (a b : ascii) : Prop :=
  a = b \/ capital_of a b \/ capital_of b a.

(** Two texts of the same length with the same letters throughout. *)
Fixpoint same_text (s t : string) : Prop :=
  match s, t with
  | EmptyString, EmptyString => True
  | String a s', String b t' => same_letter a b /\ same_text s' t'
  | _, _ => False
  end.

(** A name the search keeps: it is neither [.] nor [..], and a stretch of
    it is the query but for the case of the letters. *)
Definition name_matches (query_ iter : string) : Prop :=
  iter <> "." /\ iter <> ".." /\
  exists pre mid post, iter = pre +:+ mid +:+ post /\ same_text mid query_.

(** The segments of a path that count: not empty, not [.]. *)
Definition clean (parts : list string) : list string :=
  List.filter (fun p => negb (String.eqb p "" || String.eqb p ".")) parts.

(** [s] has the character [c]. *)
Fixpoint has_char (c : ascii) (s : string) : bool :=
  match s with
  | EmptyString => false
  | String d s' => JsString.is_char c d || has_char c s'
  end.

(** ** A reference runtime

    A small disk on which the operations can be run: an association list
    from absolute, normalised paths to files and directories, with the root
    directory always there.  [JSON.parse] knows the documents it is given. *)

Module Reference.

Inductive node :=
| File (content : string)
| Directory.

Definition ref_disk : Type := list (string * node).

Fixpoint lookup_node (p : string) (d : ref_disk) : option node :=
  match d with
  | [] => None
  | (q, n) :: rest => if String.eqb q p then Some n else lookup_node p rest
  end.

Definition node_at (d : ref_disk) (p : string) : option node :=
  if String.eqb p "/" then Some Directory else lookup_node p d.

Definition is_directory (d : ref_disk) (p : string) : bool :=
  match node_at d p with
  | Some Directory => true
  | _ => false
  end.

(** [p] lies strictly below [dir]. *)
Definition below (dir p : string) : bool :=
  String.prefix (if String.eqb dir "/" then "/" else dir +:+ "/") p
  && negb (String.eqb p dir).

Definition erase (p : string) (d : ref_disk) : ref_disk :=
  List.filter (fun e => negb (String.eqb (fst e) p)) d.

Definition erase_tree (p : string) (d : ref_disk) : ref_disk :=
  List.filter (fun e => negb (String.eqb (fst e) p || below p (fst e))) d.

Definition put (p : string) (n : node) (d : ref_disk) : ref_disk :=
  (p, n) :: erase p d.

(** The directory part and the last segment of a normalised path. *)
Definition parent (p : string) : string :=
  match rev (JsString.split_char "/" p) with
  | _ :: before =>
      match JsString.join "/" (rev before) with
      | "" => if JsString.starts_with_char "/" p then "/" else "."
      | dir => dir
      end
  | [] => "."
  end.

Definition last_segment (p : string) : string :=
  match rev (JsString.split_char "/" p) with
  | s :: _ => s
  | [] => ""
  end.

Definition can_create (d : ref_disk) (p : string) : bool :=
  is_directory d (parent p) && negb (is_directory d p).

Definition enoent : string := "ENOENT: no such file or directory".
Definition eisdir : string := "EISDIR: illegal operation on a directory".
Definition eexist : string := "EEXIST: file already exists".
Definition bad_path : string := "TypeError: path must be a string".

Definition exists_ (d : ref_disk) (p : option string) : bool :=
  match p with
  | Some p => bool_decide (is_Some (node_at d p))
  | None => false
  end.

Definition readFile (d : ref_disk) (p : option string) : string + string :=
  match p with
  | None => inl bad_path
  | Some p =>
      match node_at d p with
      | Some (File c) => inr c
      | Some Directory => inl eisdir
      | None => inl enoent
      end
  end.

Definition writeFile (d : ref_disk) (p : option string) (content encoding : string)
    : ref_disk * option string :=
  match p with
  | None => (d, Some bad_path)
  | Some p =>
      if can_create d p then (put p (File content) d, None)
      else (d, Some (if is_directory d p then eisdir else enoent))
  end.

Definition unlink (d : ref_disk) (p : string) : ref_disk :=
  match node_at d p with
  | Some (File _) => erase p d
  | _ => d
  end.

Definition remove (d : ref_disk) (p : option string) : ref_disk * option string :=
  match p with
  | None => (d, Some bad_path)
  | Some p => (erase_tree p d, None)
  end.

Definition access (d : ref_disk) (p : option string) (m : access_mode) : option string :=
  if exists_ d p then None else Some enoent.

(** The copy of an upload: the output file is opened first, which creates
    or empties it; reading a directory fails. *)
Definition pipe (d : ref_disk) (source dest : string) : ref_disk * option string :=
  if can_create d dest then
    match node_at d source with
    | Some (File c) => (put dest (File c) d, None)
    | Some Directory => (put dest (File "") d, Some eisdir)
    | None => (put dest (File "") d, Some enoent)
    end
  else (d, Some (if is_directory d dest then eisdir else enoent)).

Definition move_entry (from to : string) (e : string * node) : string * node :=
  if String.eqb (fst e) from then (to, snd e)
  else if below from (fst e)
  then (to +:+ JsString.drop (String.length from) (fst e), snd e)
  else e.

Definition copy (d : ref_disk) (from to : option string) : ref_disk * option string :=
  match from, to with
  | Some from, Some to =>
      if exists_ d (Some from) && is_directory d (parent to) then
        (map (move_entry from to)
             (List.filter (fun e => String.eqb (fst e) from || below from (fst e)) d)
           ++ erase_tree to d, None)
      else (d, Some enoent)
  | _, _ => (d, Some bad_path)
  end.

Definition rename (d : ref_disk) (from to : option string) : ref_disk * option string :=
  match from, to with
  | Some from, Some to =>
      if exists_ d (Some from) && is_directory d (parent to) then
        (map (move_entry from to) (erase_tree to d), None)
      else (d, Some enoent)
  | _, _ => (d, Some bad_path)
  end.

Definition mkdir (d : ref_disk) (p : option string) : ref_disk * option string :=
  match p with
  | None => (d, Some bad_path)
  | Some p =>
      if exists_ d (Some p) then (d, Some eexist)
      else if is_directory d (parent p) then (put p Directory d, None)
      else (d, Some enoent)
  end.

Definition readdir (d : ref_disk) (p : option string) : string + list string :=
  match p with
  | None => inl bad_path
  | Some p =>
      match node_at d p with
      | Some Directory =>
          inr (map (fun e => last_segment (fst e))
                   (List.filter (fun e => String.eqb (parent (fst e)) p) d))
      | Some (File _) => inl "ENOTDIR: not a directory"
      | None => inl enoent
      end
  end.

Definition stat_of (n : node) : stat :=
  match n with
  | File c =>
      {| isFile := true; st_size := Some (N.of_nat (String.length c));
         st_mode := Some 420%N; st_ctime := None; st_mtime := None |}
  | Directory =>
      {| isFile := false; st_size := Some 0%N;
         st_mode := Some 493%N; st_ctime := None; st_mtime := None |}
  end.

Definition statSync (d : ref_disk) (p : option string) : thrown stat :=
  match p with
  | None => Raised bad_path
  | Some p =>
      match node_at d p with
      | Some n => Returned (stat_of n)
      | None => Raised enoent
      end
  end.

Definition walk (d : ref_disk) (p : option string) : thrown (list walk_entry) :=
  match p with
  | None => Raised bad_path
  | Some p =>
      Returned (map (fun e => {| we_path := fst e;
                                 we_isdir := negb (isFile (stat_of (snd e)));
                                 we_stat := stat_of (snd e) |})
                    (List.filter (fun e => String.eqb (fst e) p || below p (fst e)) d))
  end.

(** [rwxrwxrwx] for the nine low bits of a mode. *)
Definition permission_bits (mode : option N) : string :=
  match mode with
  | None => "---------"
  | Some m =>
      string_of_list_ascii
        (map (fun i => if N.testbit m (N.of_nat (8 - i))
                       then nth (i mod 3) ["r"; "w"; "x"]%char "-"%char
                       else "-"%char)
             (seq 0 9))
  end.

Fixpoint document {A} (text : string) (known : list (string * A)) : option A :=
  match known with
  | [] => None
  | (t, a) :: rest => if String.eqb t text then Some a else document text rest
  end.

(** [Buffer]'s base64 codec. *)
Definition alphabet : string :=
  "ABCDEFGHIJKLMNOPQRSTUVWXYZabcdefghijklmnopqrstuvwxyz0123456789+/".

Definition sextet_char (n : nat) : ascii :=
  match String.get n alphabet with
  | Some c => c
  | None => "="%char
  end.

Fixpoint sextet_from (i : nat) (table : string) (c : ascii) : option nat :=
  match table with
  | EmptyString => None
  | String d rest => if Ascii.eqb c d then Some i else sextet_from (S i) rest c
  end.

Fixpoint to_base64 (bytes : string) : string :=
  match bytes with
  | EmptyString => EmptyString
  | String a EmptyString =>
      let x := nat_of_ascii a in
      String (sextet_char (x / 4))
        (String (sextet_char (x mod 4 * 16)) "==")
  | String a (String b EmptyString) =>
      let x := nat_of_ascii a in
      let y := nat_of_ascii b in
      String (sextet_char (x / 4))
        (String (sextet_char (x mod 4 * 16 + y / 16))
           (String (sextet_char (y mod 16 * 4)) "="))
  | String a (String b (String c rest)) =>
      let x := nat_of_ascii a in
      let y := nat_of_ascii b in
      let z := nat_of_ascii c in
      String (sextet_char (x / 4))
        (String (sextet_char (x mod 4 * 16 + y / 16))
           (String (sextet_char (y mod 16 * 4 + z / 64))
              (String (sextet_char (z mod 64)) (to_base64 rest))))
  end.

(** The sextets of a base64 text, up to the padding; characters outside the
    alphabet are passed over. *)
Fixpoint sextets (text : string) : list nat :=
  match text with
  | EmptyString => []
  | String c rest =>
      if Ascii.eqb c "=" then []
      else match sextet_from 0 alphabet c with
           | Some n => n :: sextets rest
           | None => sextets rest
           end
  end.

Fixpoint bytes_of_sextets (l : list nat) : string :=
  match l with
  | p :: q :: r :: t :: rest =>
      String (ascii_of_nat (p * 4 + q / 16))
        (String (ascii_of_nat (q mod 16 * 16 + r / 4))
           (String (ascii_of_nat (r mod 4 * 64 + t)) (bytes_of_sextets rest)))
  | [p; q; r] =>
      String (ascii_of_nat (p * 4 + q / 16))
        (String (ascii_of_nat (q mod 16 * 16 + r / 4)) EmptyString)
  | [p; q] => String (ascii_of_nat (p * 4 + q / 16)) EmptyString
  | _ => EmptyString
  end.

Definition from_base64 (text : string) : string := bytes_of_sextets (sextets text).

(** [unescape]: a percent sign and two hexadecimal digits stand for the
    character of that code. *)
Definition hex_digit (c : ascii) : option nat :=
  sextet_from 0 "0123456789abcdef" (JsString.lower_char c).

Fixpoint unescape_go (skip : nat) (s : string) : string :=
  match s with
  | EmptyString => EmptyString
  | String c rest =>
      match skip with
      | S k => unescape_go k rest
      | O =>
          match rest with
          | String h (String l _) =>
              match Ascii.eqb c "%", hex_digit h, hex_digit l with
              | true, Some x, Some y =>
                  String (ascii_of_nat (16 * x + y)) (unescape_go 2 rest)
              | _, _, _ => String c (unescape_go 0 rest)
              end
          | _ => String c (unescape_go 0 rest)
          end
      end
  end.

Definition unescape_text (s : string) : string := unescape_go 0 s.

(** The runtime over [ref_disk]. *)
Definition runtime
    (packages : list (string * gmap string (gmap string (gmap string json))))
    (manifests : list (string * gmap string (gmap string json))) : Runtime :=
  {| disk := ref_disk;
     fs_exists := exists_;
     fs_readFile := readFile;
     fs_writeFile := writeFile;
     fs_unlink := unlink;
     fs_remove := remove;
     fs_access := access;
     fs_copy := copy;
     fs_rename := rename;
     fs_mkdir := mkdir;
     fs_readdir := readdir;
     fs_statSync := statSync;
     fs_pipe := pipe;
     path_dirname := parent;
     path_basename := last_segment;
     findit := walk;
     diskspace_check := fun _ _ => Returned 0%N;
     exif_image := fun _ _ => inl "Error: no EXIF segment";
     base64_encode := to_base64;
     base64_decode := from_base64;
     unescape := unescape_text;
     permissionToString := permission_bits;
     JSON_parse_packages := fun text => document text packages;
     JSON_parse_manifest := fun text => document text manifests |}.

End Reference.

(** ** Fixtures: one server, one disk *)

Module Fixture.
Import Reference.

Definition home_mount : mountpoint := MountTemplate "/srv/users/%USERNAME%".

Definition shared_mount : mountpoint :=
  MountObject {| destination := Some "/srv/shared"; mount_transport := None;
                 enabled := None; ro := Some true |}.

Definition server : instance :=
  {| DIST := "dist";
     DIRS_root := "/opt/osjs";
     DIRS_server := "/opt/osjs/src/server";
     mounts := Some (<["home" := home_mount]> (<["shared" := shared_mount]> ∅));
     mimes := <[".txt" := "text/plain"]> (<["default" := "application/octet-stream"]> ∅) |}.

Definition disk0 : ref_disk :=
  [("/srv", Directory); ("/srv/users", Directory); ("/srv/users/alice", Directory);
   ("/srv/users/alice/a.txt", File "hello"); ("/srv/users/alice/Notes.TXT", File "n");
   ("/srv/users/alice/docs", Directory);
   ("/srv/shared", Directory); ("/srv/shared/b.txt", File "kept");
   ("/tmp", Directory); ("/tmp/upload_1", File "new bytes")].

Definition alice (method_ endpoint_ : string) (args : vfs_args) : http_request :=
  {| method := method_; endpoint := endpoint_; data := args;
     files_upload := None; username := Some "alice" |}.

(** A server whose only mount is the wildcard, and a disk that has a file
    called [undefined] under it. *)
Definition wildcard_server : instance :=
  {| DIST := "dist";
     DIRS_root := "/opt/osjs";
     DIRS_server := "/opt/osjs/src/server";
     mounts := Some (<["*" := MountTemplate "/srv/data"]> ∅);
     mimes := ∅ |}.

Definition disk1 : ref_disk :=
  [("/srv", Directory); ("/srv/data", Directory);
   ("/srv/data/undefined", File "x"); ("/srv/data/report.txt", File "r")].

(** [{path, options: {raw}}] *)
Definition raw_args (p : string) (raw : bool) : vfs_args :=
  {| a_path := Some p; a_src := None; a_dest := None; a_root := None;
     a_data := None; a_overwrite := None; a_raw := Some raw; a_stream := None;
     a_rawtype := None; a_query := None; a_recursive := None; a_limit := None |}.

(** A multipart upload of [/tmp/upload_1] under the name [name]. *)
Definition upload (dir name : string) (overwrite : option string) : http_request :=
  {| method := "POST"; endpoint := "upload";
     data := {| a_path := Some dir; a_src := None; a_dest := None; a_root := None;
                a_data := None; a_overwrite := overwrite; a_raw := None;
                a_stream := None; a_rawtype := None; a_query := None;
                a_recursive := None; a_limit := None |};
     files_upload := Some {| upload_path := "/tmp/upload_1"; upload_name := name |};
     username := Some "alice" |}.

(** [{path, args: {query}}] *)
Definition find_args (p q : string) : vfs_args :=
  {| a_path := Some p; a_src := None; a_dest := None; a_root := None;
     a_data := None; a_overwrite := None; a_raw := None; a_stream := None;
     a_rawtype := None; a_query := Some q; a_recursive := None; a_limit := None |}.

(** [{src, dest}] *)
Definition copy_args (src dest : string) : vfs_args :=
  {| a_path := None; a_src := Some src; a_dest := Some dest; a_root := None;
     a_data := None; a_overwrite := None; a_raw := None; a_stream := None;
     a_rawtype := None; a_query := None; a_recursive := None; a_limit := None |}.

(** The documents [JSON.parse] reads: the system file, with the manifest of
    the dist [dist], and the manifest of one user. *)
Definition system_document : gmap string (gmap string (gmap string json)) :=
  <["dist" := <["a" := <["path" := JString "default/a"]> ∅]> ∅]> ∅.

Definition user_document : gmap string (gmap string json) :=
  <["b" := <["path" := JString "home:///.packages/b"]> ∅]> ∅.

(** Further manifests of users: one that names [b] again and [c], one with
    a package called [constructor], one with a package called
    [__proto__]. *)
Definition later_document : gmap string (gmap string json) :=
  <["b" := <["path" := JString "home:///.more/b"]> ∅]>
    (<["c" := <["path" := JString "home:///.more/c"]> ∅]> ∅).

Definition constructor_document : gmap string (gmap string json) :=
  <["constructor" := <["path" := JString "home:///.packages/constructor"]> ∅]> ∅.

Definition proto_document : gmap string (gmap string json) :=
  <["__proto__" := <["path" := JString "home:///.packages/proto"]> ∅]> ∅.

Definition node : Runtime :=
  runtime [("SYSTEM", system_document)]
    [("USER", user_document); ("LATER", later_document);
     ("CONSTRUCTOR", constructor_document); ("PROTO", proto_document)].

(** A disk with the system manifest and the manifest of [alice]. *)
Definition disk2 : ref_disk :=
  [("/opt", Directory); ("/opt/osjs", Directory); ("/opt/osjs/src", Directory);
   ("/opt/osjs/src/server", Directory);
   ("/opt/osjs/src/server/packages.json", File "SYSTEM");
   ("/srv", Directory); ("/srv/users", Directory); ("/srv/users/alice", Directory);
   ("/srv/users/alice/.packages", Directory);
   ("/srv/users/alice/.packages/packages.json", File "USER")].

(** The same server with another manifest of [alice]. *)
Definition disk_with_manifest (text : string) : ref_disk :=
  [("/opt", Directory); ("/opt/osjs", Directory); ("/opt/osjs/src", Directory);
   ("/opt/osjs/src/server", Directory);
   ("/opt/osjs/src/server/packages.json", File "SYSTEM");
   ("/srv", Directory); ("/srv/users", Directory); ("/srv/users/alice", Directory);
   ("/srv/users/alice/.packages", Directory);
   ("/srv/users/alice/.packages/packages.json", File text)].

(** And with two search paths. *)
Definition disk3 : ref_disk :=
  disk2 ++ [("/srv/users/alice/.more", Directory);
            ("/srv/users/alice/.more/packages.json", File "LATER")].

End Fixture.

(** ** The rest of the package manager, and the request layer *)

(** [s] is one line: it has neither a line feed nor a carriage return. *)
Definition single_line (s : string) : Prop :=
  has_char "010" s = false /\ has_char "013" s = false.

(** The arguments of [install]: [{zip, dest, paths}]. *)
Record install_args := {
  zip : option string;
  install_dest : option string;
  install_paths : option (list string) }.

Section PackageManager.
Context `{Runtime}.

(** The zip decoder at work: [zipStream.pipe(unzip.Parse())] with the
    three handlers of [install].  For every entry the decoder reports, the
    handler asks [sink] for a write stream under the entry's path and pipes
    the entry into it; the run ends with [finish] ([None]) or with [error]. *)
Variable unzip_into : (string -> outcome stream) -> stream -> disk -> disk * option string.

(** [_onerror]: the destination is deleted, and whether that works or not
    the installation rejects with the error it started from. *)
Definition _onerror (inst : instance) (VFS : list transport) (http : http_request)
    (dest e : string) (d : disk) : disk * promise value :=
  match _request inst VFS http "delete" (path_args dest) d with
  | (d1, Fulfilled _) => (d1, Broken e)
  | (d1, Broken _) => (d1, Broken e)
  | (d1, Pending p) => (d1, Pending p)
  end.

(** [module.exports.install].  The value [exists] and [mkdir] resolve is not
    looked at.  A promise of [createReadStream] that never settles leaves
    the installation pending. *)
Definition install (inst : instance) (VFS : list transport) (http : http_request)
    (args : install_args) (d : disk) : disk * promise value :=
  match truthy (zip args), truthy (install_dest args), install_paths args with
  | Some zip_, Some dest, Some _ =>
      match _request inst VFS http "exists" (path_args dest) d with
      | (d1, Broken e) => (d1, Broken e)
      | (d1, Pending p) => (d1, Pending p)
      | (d1, Fulfilled _) =>
          match _request inst VFS http "mkdir" (path_args dest) d1 with
          | (d2, Broken e) => _onerror inst VFS http dest e d2
          | (d2, Pending p) => (d2, Pending p)
          | (d2, Fulfilled _) =>
              match createReadStream inst VFS http zip_ with
              | Resolved zipStream =>
                  let sink entry :=
                    createWriteStream inst VFS http (JsString.join "/" [dest; entry]) in
                  match unzip_into sink zipStream d2 with
                  | (d3, None) => (d3, Fulfilled VTrue)
                  | (d3, Some e) => _onerror inst VFS http dest e d3
                  end
              | Rejected e => _onerror inst VFS http dest e d2
              | Thrown e => _onerror inst VFS http dest e d2
              | Responded _ => (d2, Pending "createReadStream")
              | Uncaught p => (d2, Pending p)
              | Unanswered => (d2, Pending "")
              end
          end
      end
  | _, _, _ => (d, Broken "Invalid install action")
  end.

(** [module.exports.uninstall] *)
Definition uninstall (inst : instance) (VFS : list transport) (http : http_request)
    (path : option string) (d : disk) : disk * promise value :=
  match truthy path with
  | Some p => _request inst VFS http "delete" (path_args p) d
  | None => (d, Broken "Invalid uninstall action")
  end.

End PackageManager.

(** *** The request layer: [createHttpObject] and [request] of the instance *)

(** [path.match(re) !== null] where [re] is [/FS] at the start. *)
Definition isfs_of (path : string) : bool := String.prefix "/FS" path.

(** [path.replace(re, '')] where [re] is, at the start, a slash, [FS] or
    [API], and an optional slash. *)
Definition endpoint_of (path : string) : string :=
  let after (n : nat) :=
    let rest := JsString.drop n path in
    if JsString.starts_with_char "/" rest then JsString.drop 1 rest else rest in
  if String.prefix "/FS" path then after 3
  else if String.prefix "/API" path then after 4
  else path.

(** The text before the last [c] of [s]. *)
Fixpoint before_last_char (c : ascii) (s : string) : option string :=
  match s with
  | EmptyString => None
  | String d rest =>
      match before_last_char c rest with
      | Some a => Some (String d a)
      | None => if JsString.is_char c d then Some EmptyString else None
      end
  end.

(** [pmatch[1]] of [http.path.match(re)], where [re] is: at the start an
    optional slash and [packages/], then a captured greedy run with a slash
    in it, a slash, and a second captured greedy run.  A run stays on one
    line, so the first capture is what stands before the last slash of the
    line, and it must have a slash of its own. *)
Definition package_of (path : string) : option string :=
  let s := if JsString.starts_with_char "/" path then JsString.drop 1 path else path in
  if String.prefix "packages/" s then
    match before_last_char "/" (fst (JsString.line_span (JsString.drop 9 s))) with
    | Some a => if has_char "/" a then Some a else None
    | None => None
    end
  else None.

(** The [ServerRequest] with the two members the request layer reads on top
    of those the VFS reads: [path] and [isfs]. *)
Record connection := {
  c_http : http_request;
  c_path : string;
  c_isfs : bool }.

(** [createHttpObject]: [data] and [files] may be missing. *)
Definition createHttpObject (method_ path : string) (data_ : option vfs_args)
    (files : option upload_file) (user : option string) : connection :=
  {| c_http := {| method := method_; endpoint := endpoint_of path;
                  data := default no_args data_; files_upload := files;
                  username := user |};
     c_path := path;
     c_isfs := isfs_of path |}.

(** The object handed to [respond.json]: [{error: String(err), result:
    false}], [{error: null, result}] or [{error: 'No such API method'}]. *)
Inductive json_body :=
| ErrorBody (err : string)
| ResultBody (result : value)
| NoMethodBody.

(** The call on [http.respond] that answers the request, if any.
    [ReplyBy] is a response the handler of the call wrote itself. *)
Inductive reply :=
| ReplyJson (body : json_body) (code : option nat)
| ReplyFile (path : string)
| ReplyError (message : string) (code : nat)
| ReplyBy (r : response)
| NoReply.

(** The options [_checkPermission] passes on. *)
Inductive permission_options :=
| VfsOptions (method_ : string) (args : vfs_args)
| ApiOptions (method_ : string)
| PackageOptions (path : string).

(** The three functions of [lib/auth.js] the request layer calls, each
    returning a promise. *)
Record auth_library := {
  initSession : http_request -> promise unit;
  checkSession : http_request -> promise unit;
  checkPermission : http_request -> string -> permission_options -> promise unit }.

Section Instance.
Context `{Runtime}.

(** A function of [instance.API]: it is called with [resolve] and [reject]
    of a new promise. *)
Definition api_method : Type := instance -> http_request -> disk -> disk * outcome value.

(** [instance.API] is a plain object: next to its own members it has the
    functions every object inherits, and [inherited] is what a call of one
    of them does. *)
Variable inherited : string -> api_method.

Definition API_member (API : gmap string api_method) (k : string) : option api_method :=
  match API !! k with
  | Some f => Some f
  | None =>
      if bool_decide (indexOf Object_prototype_functions (Some k) = (-1)%Z)
      then None else Some (inherited k)
  end.

Definition _rejectResponse (err : string) : reply := ReplyJson (ErrorBody err) (Some 500).

Definition _resolveResponse (result : value) : reply := ReplyJson (ResultBody result) None.

(** [_checkPermission]: [None] when its promise is fulfilled.  A check that
    fails answers through [_rejectResponse] and leaves the promise
    unsettled, so what was chained to it never runs. *)
Definition _checkPermission (auth : auth_library) (http : http_request)
    (type : string) (options : permission_options) : option reply :=
  let login :=
    String.eqb type "api" &&
    match options with
    | ApiOptions method_ => String.eqb method_ "login"
    | _ => false
    end in
  match (if login then Fulfilled tt else checkSession auth http) with
  | Broken e => Some (_rejectResponse e)
  | Pending _ => Some NoReply
  | Fulfilled _ =>
      match checkPermission auth http type options with
      | Broken e => Some (_rejectResponse e)
      | Pending _ => Some NoReply
      | Fulfilled _ => None
      end
  end.

(** [.then(_resolveResponse).catch(_rejectResponse)] on the promise built
    around a call. *)
Definition respond (o : outcome value) : reply :=
  match o with
  | Resolved v => _resolveResponse v
  | Rejected e => _rejectResponse e
  | Thrown e => _rejectResponse e
  | Responded r => ReplyBy r
  | Uncaught _ => NoReply
  | Unanswered => NoReply
  end.

Definition _vfsCall (auth : auth_library) (inst : instance) (VFS : list transport)
    (c : connection) (d : disk) : disk * reply :=
  let http := c_http c in
  match _checkPermission auth http "vfs"
          (VfsOptions (JsString.strip_get (endpoint http)) (data http)) with
  | Some r => (d, r)
  | None => let (d1, o) := request inst VFS http d in (d1, respond o)
  end.

Definition _apiCall (auth : auth_library) (inst : instance) (f : api_method)
    (c : connection) (d : disk) : disk * reply :=
  let http := c_http c in
  match _checkPermission auth http "api" (ApiOptions (endpoint http)) with
  | Some r => (d, r)
  | None => let (d1, o) := f inst http d in (d1, respond o)
  end.

Definition _serve (inst : instance) (c : connection) : reply :=
  ReplyFile (Path.join [DIRS_root inst; DIST inst; c_path c]).

Definition _deny : reply := ReplyError "Access denied" 403.

Definition _staticResponse (auth : auth_library) (inst : instance) (c : connection) : reply :=
  let http := c_http c in
  match package_of (c_path c) with
  | Some package =>
      match _checkPermission auth http "package" (PackageOptions package) with
      | Some r => r
      | None =>
          match checkSession auth http with
          | Fulfilled _ => _serve inst c
          | Broken _ => _deny
          | Pending _ => NoReply
          end
      end
  | None => _serve inst c
  end.

(** [request] of the instance.  Nothing is chained to the promise of
    [initSession] for the case that it is rejected. *)
Definition instance_request (auth : auth_library) (inst : instance) (VFS : list transport)
    (API : gmap string api_method) (c : connection) (d : disk) : disk * reply :=
  match initSession auth (c_http c) with
  | Fulfilled _ =>
      if String.eqb (method (c_http c)) "GET" then
        if c_isfs c then _vfsCall auth inst VFS c d
        else (d, _staticResponse auth inst c)
      else
        if c_isfs c then _vfsCall auth inst VFS c d
        else match API_member API (endpoint (c_http c)) with
             | Some f => _apiCall auth inst f c d
             | None => (d, ReplyJson NoMethodBody (Some 500))
             end
  | _ => (d, NoReply)
  end.

(** [logout] of [modules/api/auth.js] on the example authenticator, which
    resolves [true]. *)
Definition API_logout : api_method := fun _ _ d => (d, Resolved VTrue).

(** The status [createHttpResponder] writes with [writeHead].  [json]
    passes 200 to [raw] whatever code it was given; [file] answers 404 for
    a file that does not exist; a missing or zero code is 500 for [error]
    and 200 for [raw]. *)
Definition writeHead_code (d : disk) (r : reply) : option nat :=
  match r with
  | ReplyJson _ _ => Some 200
  | ReplyFile path => Some (if fs_exists d (Some path) then 200 else 404)
  | ReplyError _ code => Some (if (code =? 0)%nat then 500 else code)
  | ReplyBy (RespondRaw _ code _) => Some (if (code =? 0)%nat then 200 else code)
  | ReplyBy (RespondStream _ _) => Some 200
  | NoReply => None
  end.

End Instance.

(** *** modules/auth/example.js

    The example authenticator behind the promises of [lib/auth.js]: every
    request gets a session object, every permission is granted, and a
    session is there once it has a user name. *)
Definition auth_example : auth_library :=
  {| initSession := fun _ => Fulfilled tt;
     checkSession := fun http =>
       match truthy (username http) with
       | Some _ => Fulfilled tt
       | None => Broken "You have no OS.js Session, please log in!"
       end;
     checkPermission := fun _ _ _ => Fulfilled tt |}.

(** ** More fixtures: mounts of every kind, an API table, connections *)

Module Sample.

(** A disabled mount, a mount on a transport that is not registered, and a
    read-only wildcard. *)
Definition host : instance :=
  {| DIST := "dist";
     DIRS_root := "/opt/osjs";
     DIRS_server := "/opt/osjs/src/server";
     mounts :=
       Some (<["archive" := MountObject {| destination := Some "/srv/archive";
                                           mount_transport := None;
                                           enabled := Some false; ro := None |}]>
             (<["cloud" := MountObject {| destination := None;
                                          mount_transport := Some "Cloud";
                                          enabled := None; ro := None |}]>
              (<["*" := MountObject {| destination := Some "/srv/data";
                                       mount_transport := None;
                                       enabled := None; ro := Some true |}]> ∅)));
     mimes := ∅ |}.

(** A decoder that finds no entry in the archive. *)
Definition empty_archive (sink : string -> outcome stream) (zipStream : stream)
    (d : Reference.ref_disk) : Reference.ref_disk * option string :=
  (d, None).

(** [{src, dest}] *)
Definition install_home (dest : string) : install_args :=
  {| zip := Some "home://p.zip"; install_dest := Some dest; install_paths := Some [] |}.

(** [{path, args: {query, recursive: true}}] *)
Definition find_all (p q : string) : vfs_args :=
  {| a_path := Some p; a_src := None; a_dest := None; a_root := None;
     a_data := None; a_overwrite := None; a_raw := None; a_stream := None;
     a_rawtype := None; a_query := Some q; a_recursive := Some true; a_limit := None |}.

(** [{path, data, options: {raw: true, rawtype}}] *)
Definition write_args (p text : string) (rawtype : option string) : vfs_args :=
  {| a_path := Some p; a_src := None; a_dest := None; a_root := None;
     a_data := Some text; a_overwrite := None; a_raw := Some true; a_stream := None;
     a_rawtype := rawtype; a_query := None; a_recursive := None; a_limit := None |}.

(** A server that knows the type of pictures, and a disk with one. *)
Definition gallery : instance :=
  {| DIST := "dist";
     DIRS_root := "/opt/osjs";
     DIRS_server := "/opt/osjs/src/server";
     mounts := Some (<["home" := Fixture.home_mount]> ∅);
     mimes := <[".png" := "image/png"]> ∅ |}.

Definition album : Reference.ref_disk :=
  [("/srv", Reference.Directory); ("/srv/users", Reference.Directory);
   ("/srv/users/alice", Reference.Directory);
   ("/srv/users/alice/cat.png", Reference.File "PNG")].

(** The API table with [logout] alone; an inherited function that returns
    without settling the promise, as [toString] and [valueOf] do. *)
Definition API : gmap string (@api_method Fixture.node) :=
  <["logout" := @API_logout Fixture.node]> ∅.

Definition silent (name : string) : @api_method Fixture.node :=
  fun _ _ d => (d, Unanswered).

(** A POST with JSON data, with and without a session. *)
Definition post (path : string) (args : vfs_args) (user : option string) : connection :=
  createHttpObject "POST" path (Some args) None user.

End Sample.

(** ** The string and path functions on examples *)

Example split_protocol_home :
  JsString.split_protocol "home://docs/a.txt" = [Some ""; Some "home"; Some "docs/a.txt"; Some ""].
Proof. reflexivity. Qed.

Example split_protocol_plain : JsString.split_protocol "/" = [Some "/"].
Proof. reflexivity. Qed.

Example split_protocol_twice :
  JsString.split_protocol "a://b://c" = [Some ""; Some "a://b"; Some "c"; Some ""].
Proof. reflexivity. Qed.

Example replace_all_user :
  JsString.replace_all "%USERNAME%" "alice" "/srv/users/%USERNAME%" = "/srv/users/alice".
Proof. reflexivity. Qed.

Example replace_all_dollar :
  JsString.replace_all "%UID%" "<$&>" "a%UID%b%UID%" = "a<%UID%>b<%UID%>".
Proof. reflexivity. Qed.

Example path_join_alice :
  Path.join ["/srv/users/alice"; "docs/a.txt"] = "/srv/users/alice/docs/a.txt".
Proof. reflexivity. Qed.

Example path_join_dotdot :
  Path.join ["/srv/users/alice"; "../bob/x"] = "/srv/users/bob/x".
Proof. reflexivity. Qed.

Example path_join_empty : Path.join ["/srv/data"; ""] = "/srv/data".
Proof. reflexivity. Qed.

Example path_join_relative : Path.join ["a/../.."; "b/"] = "../b/".
Proof. reflexivity. Qed.

(** ** Names every object inherits *)

Lemma indexOf_absent (xs : list string) (s : string) :
  ~ In s xs -> indexOf xs (Some s) = (-1)%Z.
Proof.
  unfold indexOf. generalize 0%Z. induction xs as [| x xs IH]; intros i Hno; [reflexivity |].
  cbn [indexOf_from]. destruct (String.eqb_spec x s) as [-> | _].
  - exfalso. apply Hno. left. reflexivity.
  - apply IH. intros Hin. apply Hno. right. exact Hin.
Qed.

Lemma indexOf_from_present (xs : list string) (s : string) (i : Z) :
  In s xs -> (i <= indexOf_from i xs (Some s))%Z.
Proof.
  revert i. induction xs as [| x xs IH]; intros i Hin; [destruct Hin |].
  cbn [indexOf_from]. destruct (String.eqb_spec x s) as [_ | Hne]; [lia |].
  destruct Hin as [Heq | Hin]; [contradiction |].
  specialize (IH (i + 1)%Z Hin). lia.
Qed.

Lemma inherited_false (k : string) :
  ~ In k Object_prototype_members -> inherited k = false.
Proof.
  intros Hno. unfold inherited.
  rewrite (bool_decide_eq_true_2 _ (indexOf_absent _ _ Hno)). reflexivity.
Qed.

Lemma inherited_true (k : string) :
  In k Object_prototype_members -> inherited k = true.
Proof.
  intros Hin. unfold inherited. rewrite bool_decide_eq_false_2; [reflexivity |].
  pose proof (indexOf_from_present _ _ 0%Z Hin) as Hle. unfold indexOf. lia.
Qed.

(** ** The dispatcher *)

Section Dispatcher.
Context `{Runtime}.

(** What [findTransport] returns once the address has been extracted. *)
Lemma findTransport_extracted inst VFS method_ args q :
  argumentMap method_ args false = Returned (Some q) ->
  exists parsed transportName,
    p_query parsed = q /\
    (findTransport inst VFS method_ args = Returned None \/
     findTransport inst VFS method_ args =
       Returned (Some {| f_parsed := parsed;
                         f_transport :=
                           List.find (fun module => String.eqb (name module) transportName) VFS |})).
Proof.
  intros Hq. unfold findTransport. rewrite Hq.
  match goal with
  | |- context [if ?b then Returned None
                else Returned (Some {| f_parsed := ?p;
                                       f_transport := List.find (fun m => String.eqb (name m) ?n) VFS |})] =>
      exists p, n; split; [reflexivity |]; destruct b
  end; [left | right]; reflexivity.
Qed.

(** The gate of the dispatcher: a writing operation whose extracted
    address names a mount object that is disabled or read-only is turned
    down, and so is any operation on a disabled mount. *)
Lemma findTransport_denied inst VFS method_ args q o :
  argumentMap method_ args false = Returned (Some q) ->
  mountpoints inst !! JsString.String_ (JsString.part 1 (JsString.split_protocol q))
    = Some (MountObject o) ->
  enabled o = Some false \/
    (ro o = Some true /\ indexOf writeableMap (Some method_) <> (-1)%Z) ->
  findTransport inst VFS method_ args = Returned None.
Proof.
  intros Hq Hm Hgate. unfold findTransport. rewrite Hq. cbn [p_protocol].
  rewrite Hm.
  destruct Hgate as [He | [Hr Hw]].
  - rewrite (bool_decide_eq_true_2 _ He). reflexivity.
  - rewrite (bool_decide_eq_true_2 _ Hr).
    apply Z.eqb_neq in Hw. rewrite Hw. rewrite orb_true_r. reflexivity.
Qed.

Lemma request_denied inst VFS http d q o :
  method http <> "GET" ->
  argumentMap (endpoint http) (data http) false = Returned (Some q) ->
  mountpoints inst !! JsString.String_ (JsString.part 1 (JsString.split_protocol q))
    = Some (MountObject o) ->
  enabled o = Some false \/
    (ro o = Some true /\ indexOf writeableMap (Some (endpoint http)) <> (-1)%Z) ->
  request inst VFS http d = (d, Rejected "Operation denied!").
Proof.
  intros Hget Hq Hm Hgate. unfold request.
  apply String.eqb_neq in Hget. rewrite Hget.
  rewrite (findTransport_denied _ _ _ _ _ _ Hq Hm Hgate). reflexivity.
Qed.

(** For the methods of the stream creators and of the package manager the
    extractor is [_default]. *)
Lemma argumentMap_default method_ args :
  In method_ ["read"; "exists"; "mkdir"; "delete"] ->
  argumentMap method_ args false = Returned (a_path args).
Proof.
  intros [<- | [<- | [<- | [<- | []]]]]; reflexivity.
Qed.

(** The extractor of [copy] and [move] is never asked for the
    destination. *)
Lemma findTransport_ignores_dest inst VFS method_ args dest' :
  findTransport inst VFS method_ args =
  findTransport inst VFS method_
    {| a_path := a_path args; a_src := a_src args; a_dest := dest';
       a_root := a_root args; a_data := a_data args; a_overwrite := a_overwrite args;
       a_raw := a_raw args; a_stream := a_stream args; a_rawtype := a_rawtype args;
       a_query := a_query args; a_recursive := a_recursive args; a_limit := a_limit args |}.
Proof.
  unfold findTransport, argumentMap. cbn.
  destruct (String.eqb method_ "freeSpace"); [reflexivity |].
  destruct (String.eqb method_ "move" || String.eqb method_ "copy"); reflexivity.
Qed.

End Dispatcher.

Section GetRequests.
Context `{Runtime}.

Lemma strip_get_prefixed (q : string) : JsString.strip_get ("get/" +:+ q) = q.
Proof. unfold JsString.strip_get. cbn. destruct q; reflexivity. Qed.

Lemma strip_get_plain (q : string) :
  String.prefix "get/" q = false -> JsString.strip_get q = q.
Proof. intros Hpre. unfold JsString.strip_get. rewrite Hpre. reflexivity. Qed.

(** C10.  A request whose HTTP method is GET is dispatched as the operation
    [read] on the address [q] that the endpoint gives once a leading [get/]
    is taken off, whatever the endpoint names.  The dispatcher turns the
    request down when the mount of the address is an object with
    [enabled: false], and only then; else it rejects when no registered
    module carries the name of the transport; else it hands the envelope
    [{query, method: 'read', data: {path}}] to that module, and the default
    transport runs its [read] on it.  [read] is none of the writing
    operations, so a GET never reaches upload, write, delete, copy, move or
    mkdir, and a read-only mount does not turn it down. *)
Theorem request_get_is_read inst VFS http d q :
  method http = "GET" ->
  endpoint http = "get/" +:+ q \/
    (endpoint http = q /\ String.prefix "get/" q = false) ->
  let envelope := {| query := q; req_method := "read"; req_data := path_args q |} in
  let hand_to (transportName : string) :=
    match List.find (fun module => String.eqb (name module) transportName) VFS with
    | Some t => transport_request t inst http envelope d
    | None => (d, Rejected ("Cannot find VFS module for: " +:+ q))
    end in
  indexOf writeableMap (Some "read") = (-1)%Z /\
  filesystem_request inst http envelope = VFS_read inst http (path_args q) /\
  request inst VFS http d =
    match mountpoints inst !! JsString.String_ (JsString.part 1 (JsString.split_protocol q)) with
    | Some (MountObject o) =>
        if bool_decide (enabled o = Some false)
        then (d, Rejected "Operation denied!")
        else hand_to (default "__default__" (mount_transport o))
    | _ => hand_to "__default__"
    end.
Proof.
  intros Hget Hq envelope hand_to. split; [reflexivity |]. split; [reflexivity |].
  assert (Hstrip : JsString.strip_get (endpoint http) = q).
  { destruct Hq as [-> | [-> Hpre]];
      [apply strip_get_prefixed | apply strip_get_plain; exact Hpre]. }
  unfold request. rewrite Hget. cbn [String.eqb Ascii.eqb Bool.eqb]. rewrite Hstrip.
  unfold findTransport.
  rewrite (argumentMap_default "read") by (left; reflexivity).
  cbn [path_args a_path p_protocol].
  destruct (mountpoints inst !! _) as [[template | o] |]; [reflexivity | | reflexivity].
  destruct (bool_decide (enabled o = Some false)); [reflexivity |].
  change (indexOf writeableMap (Some "read") =? -1)%Z with true.
  cbn [negb orb]. rewrite andb_false_r. reflexivity.
Qed.

End GetRequests.

Section StreamPassthrough.
Context `{Runtime}.

(** C9.  [createWriteStream] finds its transport under the name of the
    operation [read], so the [ro] flag of the mount takes no part: on a path
    whose protocol names an enabled mount object with [ro: true] and a
    registered transport, the result is what the transport's
    [createWriteStream] returns, which for the default transport is a
    promise resolved with a writer on the real path, while a dispatched
    [write] on the same path is turned down. *)
Theorem createWriteStream_ignores_ro inst VFS http path o t :
  mountpoints inst !! JsString.String_ (JsString.part 1 (JsString.split_protocol path))
    = Some (MountObject o) ->
  ro o = Some true ->
  enabled o <> Some false ->
  List.find (fun module => String.eqb (name module) (default "__default__" (mount_transport o))) VFS
    = Some t ->
  createWriteStream inst VFS http path = transport_createWriteStream t inst http path /\
  (exists resolved,
     resolveRequestPath inst http (Some path) = Returned resolved /\
     transport_createWriteStream filesystem inst http path
       = Resolved (Writer (r_real resolved))) /\
  (forall d,
     request inst VFS
       {| method := "POST"; endpoint := "write"; data := path_args path;
          files_upload := files_upload http; username := username http |} d
     = (d, Rejected "Operation denied!")).
Proof.
  intros Hmount Hro Henabled Hfind. split; [| split].
  - unfold createWriteStream, findTransport.
    rewrite (argumentMap_default "read") by (left; reflexivity).
    cbn [path_args a_path p_protocol].
    rewrite Hmount, Hfind.
    rewrite (bool_decide_eq_false_2 _ Henabled).
    rewrite (bool_decide_eq_true_2 _ Hro). reflexivity.
  - eexists. split; reflexivity.
  - intros d. apply (request_denied inst VFS _ d path o).
    + discriminate.
    + reflexivity.
    + exact Hmount.
    + right. split; [exact Hro | discriminate].
Qed.

End StreamPassthrough.

Section Transport.
Context `{Runtime}.

Lemma existsWrapper_found checkFound real resolve reject d :
  fs_exists d real = true ->
  existsWrapper checkFound real resolve reject d =
    if checkFound then reject "File or directory already exist." d else resolve VTrue d.
Proof. intros He. unfold existsWrapper. rewrite He. reflexivity. Qed.

Lemma existsWrapper_missing checkFound real resolve reject d :
  fs_exists d real = false ->
  existsWrapper checkFound real resolve reject d =
    if checkFound then resolve VTrue d else reject "No such file or directory" d.
Proof. intros He. unfold existsWrapper. rewrite He. reflexivity. Qed.

(** The guard of [delete] never fires: the operation is the existence check
    followed by the removal. *)
Lemma VFS_delete_unguarded inst http args :
  VFS_delete inst http args =
  with_resolved inst http (a_path args) (fun resolved =>
    existsWrapper false (r_real resolved) (fun _ d =>
      match fs_remove d (r_real resolved) with
      | (d1, Some err) => reject_ ("Error deleting: " +:+ err) d1
      | (d1, None) => resolve_ VTrue d1
      end) reject_).
Proof. reflexivity. Qed.

Lemma VFS_delete_never_permission_denied inst http args d :
  snd (VFS_delete inst http args d) <> Rejected "Permission denied".
Proof.
  rewrite VFS_delete_unguarded. unfold with_resolved.
  destruct (resolveRequestPath inst http (a_path args)) as [resolved | e];
    [| discriminate].
  unfold existsWrapper. destruct (fs_exists d (r_real resolved)); [| discriminate].
  destruct (fs_remove d (r_real resolved)) as [d1 [err |]]; discriminate.
Qed.

(** [read] with [options.raw === false] never gets to build the data URL:
    once the file has been read, the initialiser of [const data] reads the
    constant it is about to define. *)
Lemma VFS_read_data_url_uncaught inst http args d resolved real content :
  resolveRequestPath inst http (a_path args) = Returned resolved ->
  r_real resolved = Some real ->
  a_raw args = Some false ->
  fs_readFile d (Some real) = inr content ->
  VFS_read inst http args d = (d, Uncaught "ReferenceError: data is not defined").
Proof.
  intros Hres Hreal Hraw Hfile. unfold VFS_read, with_resolved. rewrite Hres, Hreal.
  rewrite (bool_decide_eq_true_2 _ Hraw). cbn [negb readFile_or_throw].
  rewrite Hfile. reflexivity.
Qed.

(** C4 (as amended).  [exists] resolves [true] when the target does not
    exist, and rejects with the message [File or directory already exist.]
    when it does. *)
Theorem VFS_exists_resolves_when_absent inst http args d resolved :
  resolveRequestPath inst http (a_path args) = Returned resolved ->
  VFS_exists inst http args d =
    (d, if fs_exists d (r_real resolved)
        then Rejected "File or directory already exist."
        else Resolved VTrue).
Proof.
  intros Hres. unfold VFS_exists, with_resolved. rewrite Hres.
  unfold existsWrapper. destruct (fs_exists d (r_real resolved)); reflexivity.
Qed.

(** C6 (as amended).  An upload:
    (0) when the temporary file is not there, the call rejects and the disk
    is left as it was;
    (1) when the destination exists and [overwrite] is not ['true'], the
    call rejects and the disk is left as it was;
    (2) otherwise the file is copied; when the copy completes the temporary
    file is unlinked and the response [1] is written; when a stream reports
    an error the call rejects with it and nothing is unlinked. *)
Theorem VFS_upload_spec inst http args d upload resolved real :
  files_upload http = Some upload ->
  resolveRequestPath inst http (a_path (data http)) = Returned resolved ->
  r_real resolved = Some real ->
  let source := upload_path upload in
  let dest := Path.join [real; upload_name upload] in
  let overwrite := String.eqb (JsString.String_ (a_overwrite (data http))) "true" in
  (fs_exists d (Some source) = false ->
   VFS_upload inst http args d = (d, Rejected "No such file or directory")) /\
  (fs_exists d (Some source) = true ->
   overwrite = false -> fs_exists d (Some dest) = true ->
   VFS_upload inst http args d = (d, Rejected "File or directory already exist.")) /\
  (fs_exists d (Some source) = true ->
   overwrite = true \/ fs_exists d (Some dest) = false ->
   VFS_upload inst http args d =
     match fs_pipe d source dest with
     | (d1, None) =>
         (fs_unlink d1 source,
          Responded (RespondRaw "1" 200 [("Content-Type", "text/plain")]))
     | (d1, Some err) => (d1, Rejected err)
     end).
Proof.
  intros Hup Hres Hreal. cbv zeta.
  unfold VFS_upload, with_resolved. rewrite Hup, Hres, Hreal.
  split; [| split].
  - intros Hsrc. rewrite (existsWrapper_missing _ _ _ _ _ Hsrc). reflexivity.
  - intros Hsrc Hov Hdest. rewrite (existsWrapper_found _ _ _ _ _ Hsrc), Hov.
    rewrite (existsWrapper_found _ _ _ _ _ Hdest). reflexivity.
  - intros Hsrc Hcase. rewrite (existsWrapper_found _ _ _ _ _ Hsrc).
    destruct Hcase as [Hov | Hdest].
    + rewrite Hov. reflexivity.
    + destruct (String.eqb _ "true"); [reflexivity |].
      rewrite (existsWrapper_missing _ _ _ _ _ Hdest). reflexivity.
Qed.

End Transport.

(** ** Searching a directory *)

Lemma prefix_spec (q s : string) :
  String.prefix q s = true <-> exists post, s = q +:+ post.
Proof.
  revert s. induction q as [| c q IH]; intros s.
  - split; [intros _; exists s; reflexivity | intros _; destruct s; reflexivity].
  - destruct s as [| c' s]; cbn.
    + split; [discriminate | intros [post Hpost]; discriminate].
    + destruct (ascii_dec c c') as [-> | Hne].
      * rewrite IH. split; intros [post Hpost]; exists post.
        -- rewrite Hpost. reflexivity.
        -- cbn in Hpost. injection Hpost. auto.
      * split; [discriminate |].
        intros [post Hpost]. cbn in Hpost. injection Hpost. intros. congruence.
Qed.

Lemma includes_cons (q : string) (c : ascii) (s : string) :
  JsString.includes q (String c s)
  = String.prefix q (String c s) || JsString.includes q s.
Proof. reflexivity. Qed.

Lemma includes_spec (q s : string) :
  JsString.includes q s = true <-> exists pre post, s = pre +:+ q +:+ post.
Proof.
  split.
  - induction s as [| c s IH].
    + change (JsString.includes q "") with (String.prefix q "" || false).
      rewrite orb_false_r. intros Hp.
      apply prefix_spec in Hp as [post Hpost]. exists "", post. exact Hpost.
    + rewrite includes_cons, orb_true_iff. intros [Hp | Hin].
      * apply prefix_spec in Hp as [post Hpost]. exists "", post. exact Hpost.
      * destruct (IH Hin) as (pre & post & Hs).
        exists (String c pre), post. rewrite Hs. reflexivity.
  - intros (pre & post & Hs). subst s. induction pre as [| c pre IH].
    + assert (Hp : String.prefix q (q +:+ post) = true)
        by (apply prefix_spec; exists post; reflexivity).
      change ("" +:+ q +:+ post) with (q +:+ post).
      destruct (q +:+ post) as [| c s].
      * change (JsString.includes q "") with (String.prefix q "" || false).
        rewrite Hp. reflexivity.
      * rewrite includes_cons, Hp. reflexivity.
    + change (String c pre +:+ q +:+ post) with (String c (pre +:+ q +:+ post)).
      rewrite includes_cons, IH. apply orb_true_r.
Qed.

Lemma not_dot_entry (iter : string) :
  indexOf ["."; ".."] (Some iter) = (-1)%Z <-> iter <> "." /\ iter <> "..".
Proof.
  unfold indexOf. cbn [indexOf_from].
  destruct (String.eqb_spec "." iter) as [<- | Hdot].
  - split; [discriminate | intros [Hne _]; congruence].
  - destruct (String.eqb_spec ".." iter) as [<- | Hdots].
    + split; [discriminate | intros [_ Hne]; congruence].
    + split; [intros _; split; congruence | reflexivity].
Qed.

Lemma nat_of_lower_char (c : ascii) :
  nat_of_ascii (JsString.lower_char c) =
    let n := nat_of_ascii c in
    if (((65 <=? n) && (n <=? 90)) ||
        ((192 <=? n) && (n <=? 222) && negb (n =? 215)))%nat
    then (n + 32)%nat else n.
Proof.
  unfold JsString.lower_char. cbv zeta.
  destruct (((65 <=? nat_of_ascii c) && (nat_of_ascii c <=? 90)) ||
            ((192 <=? nat_of_ascii c) && (nat_of_ascii c <=? 222)
             && negb (nat_of_ascii c =? 215)))%nat eqn:Hcap; [| reflexivity].
  apply nat_ascii_embedding.
  apply orb_true_iff in Hcap as [Hcap | Hcap].
  - apply andb_true_iff in Hcap as [_ Hle]. apply Nat.leb_le in Hle. lia.
  - apply andb_true_iff in Hcap as [Hcap _]. apply andb_true_iff in Hcap as [_ Hle].
    apply Nat.leb_le in Hle. lia.
Qed.

Lemma nat_of_ascii_inj (a b : ascii) : nat_of_ascii a = nat_of_ascii b -> a = b.
Proof.
  intros Hab. rewrite <- (ascii_nat_embedding a), <- (ascii_nat_embedding b), Hab.
  reflexivity.
Qed.

(** The lower-case forms of two characters agree exactly when they are the
    same letter. *)
Lemma lower_char_same_letter (a b : ascii) :
  JsString.lower_char a = JsString.lower_char b <-> same_letter a b.
Proof.
  assert (Hnat : JsString.lower_char a = JsString.lower_char b <->
                 nat_of_ascii (JsString.lower_char a) = nat_of_ascii (JsString.lower_char b)).
  { split; [intros ->; reflexivity | apply nat_of_ascii_inj]. }
  rewrite Hnat, !nat_of_lower_char. cbv zeta.
  unfold same_letter, capital_of. cbv zeta.
  assert (Heq : a = b <-> nat_of_ascii a = nat_of_ascii b).
  { split; [intros ->; reflexivity | apply nat_of_ascii_inj]. }
  rewrite Heq.
  generalize (nat_of_ascii a) (nat_of_ascii b). intros n m.
  destruct (Nat.leb_spec 65 n), (Nat.leb_spec n 90), (Nat.leb_spec 192 n),
    (Nat.leb_spec n 222), (Nat.eqb_spec n 215),
    (Nat.leb_spec 65 m), (Nat.leb_spec m 90), (Nat.leb_spec 192 m),
    (Nat.leb_spec m 222), (Nat.eqb_spec m 215);
    cbn [andb orb negb]; lia.
Qed.

Lemma toLowerCase_same_text (s t : string) :
  JsString.toLowerCase s = JsString.toLowerCase t <-> same_text s t.
Proof.
  revert t. induction s as [| a s IH]; intros [| b t]; cbn [JsString.toLowerCase same_text].
  - tauto.
  - split; [discriminate | contradiction].
  - split; [discriminate | contradiction].
  - rewrite <- IH, <- lower_char_same_letter. split.
    + intros [= Hc Hs]. auto.
    + intros [-> ->]. reflexivity.
Qed.

Lemma toLowerCase_app (s t : string) :
  JsString.toLowerCase (s +:+ t) = JsString.toLowerCase s +:+ JsString.toLowerCase t.
Proof.
  induction s as [| a s IH]; [reflexivity |].
  change (String a s +:+ t) with (String a (s +:+ t)).
  cbn [JsString.toLowerCase]. rewrite IH. reflexivity.
Qed.

(** A text whose lower-case form falls into two parts falls into two parts
    with these lower-case forms. *)
Lemma toLowerCase_split (x y s : string) :
  JsString.toLowerCase s = x +:+ y ->
  exists a b, s = a +:+ b /\ JsString.toLowerCase a = x /\ JsString.toLowerCase b = y.
Proof.
  revert s. induction x as [| c x IH]; intros s Hs.
  - exists "", s. repeat split. exact Hs.
  - destruct s as [| c' s]; [discriminate |].
    change (String c x +:+ y) with (String c (x +:+ y)) in Hs.
    cbn [JsString.toLowerCase] in Hs. injection Hs as Hc Hs.
    destruct (IH s Hs) as (a & b & -> & Ha & Hb).
    exists (String c' a), b.
    change (String c' a +:+ b) with (String c' (a +:+ b)).
    cbn [JsString.toLowerCase]. rewrite Hc, Ha. repeat split. exact Hb.
Qed.

Lemma find_filter_spec (query_ iter : string) :
  find_filter (JsString.toLowerCase query_) iter = true <-> name_matches query_ iter.
Proof.
  assert (Hin : JsString.includes (JsString.toLowerCase query_) (JsString.toLowerCase iter) = true
                <-> exists pre mid post, iter = pre +:+ mid +:+ post /\ same_text mid query_).
  { rewrite includes_spec. split.
    - intros (x & y & Hl).
      apply toLowerCase_split in Hl as (pre & rest & -> & _ & Hrest).
      apply toLowerCase_split in Hrest as (mid & post & -> & Hmid & _).
      exists pre, mid, post. split; [reflexivity |].
      apply toLowerCase_same_text. exact Hmid.
    - intros (pre & mid & post & -> & Hmid).
      apply toLowerCase_same_text in Hmid.
      exists (JsString.toLowerCase pre), (JsString.toLowerCase post).
      rewrite !toLowerCase_app, Hmid. reflexivity. }
  unfold find_filter, name_matches. rewrite <- Hin.
  destruct (bool_decide_reflect (indexOf ["."; ".."] (Some iter) = (-1)%Z)) as [Hi | Hi].
  - apply not_dot_entry in Hi. intuition.
  - split; [discriminate |].
    intros (Hdot & Hdots & _). exfalso. apply Hi. apply not_dot_entry. auto.
Qed.

Section Find.
Context `{Runtime}.

(** C7.  [find] without [recursive], on a directory whose listing is
    [names]: the call resolves the File Info records of the names it keeps,
    one for each and in the order of the listing, and it keeps exactly the
    names that are neither [.] nor [..] and contain the query whatever the
    case of the letters, in the name or in the query. *)
Theorem VFS_find_flat inst http args d resolved real names :
  resolveRequestPath inst http (a_path args) = Returned resolved ->
  r_real resolved = Some real ->
  a_recursive args <> Some true ->
  fs_readdir d (Some real) = inr names ->
  exists keep : string -> bool,
    (forall iter, keep iter = true <-> name_matches (default "" (a_query args)) iter) /\
    VFS_find inst http args d =
      (d, Resolved (VList (map (fun iter =>
                                  createFileIter inst (r_query resolved)
                                    (Some (Path.join [real; iter])) iter None d)
                               (List.filter keep names)))) /\
    (forall iter, filename (createFileIter inst (r_query resolved)
                              (Some (Path.join [real; iter])) iter None d) = iter).
Proof.
  intros Hres Hreal Hrec Hdir.
  exists (find_filter (JsString.toLowerCase (default "" (a_query args)))).
  split; [| split].
  - intros iter. apply find_filter_spec.
  - unfold VFS_find, with_resolved. rewrite Hres.
    rewrite (bool_decide_eq_false_2 _ Hrec). cbn [negb].
    unfold readDir. rewrite Hreal, Hdir. reflexivity.
  - reflexivity.
Qed.

End Find.

(** ** Package manifests *)

Section Packages.
Context `{Runtime}.

Lemma add_user_manifest_lookup (meta summed : gmap string (gmap string json)) k :
  add_user_manifest meta summed !! k =
    if String.eqb k "__proto__" then summed !! k
    else match meta !! k with
         | Some v => Some (set_scope "user" v)
         | None => summed !! k
         end.
Proof.
  unfold add_user_manifest. revert k.
  apply (map_fold_weak_ind
           (fun r (m : gmap string (gmap string json)) =>
              forall k, r !! k = if String.eqb k "__proto__" then summed !! k
                                 else match m !! k with
                                      | Some v => Some (set_scope "user" v)
                                      | None => summed !! k
                                      end)).
  - intros k. rewrite lookup_empty. destruct (String.eqb k "__proto__"); reflexivity.
  - intros i x m r Hi IH k.
    destruct (String.eqb_spec i "__proto__") as [-> | Hproto].
    + rewrite IH. destruct (String.eqb_spec k "__proto__") as [-> | Hk]; [reflexivity |].
      rewrite lookup_insert_ne by congruence. reflexivity.
    + destruct (decide (i = k)) as [-> | Hne].
      * rewrite !lookup_insert_eq.
        apply String.eqb_neq in Hproto. rewrite Hproto. reflexivity.
      * rewrite !lookup_insert_ne by exact Hne. apply IH.
Qed.

Lemma add_missing_lookup (r summed : gmap string (gmap string json)) k :
  add_missing r summed !! k =
    match summed !! k with
    | Some v => Some v
    | None => if inherited k then None else r !! k
    end.
Proof.
  unfold add_missing. revert k.
  apply (map_fold_weak_ind
           (fun acc (m : gmap string (gmap string json)) =>
              forall k, acc !! k = match summed !! k with
                                   | Some v => Some v
                                   | None => if inherited k then None else m !! k
                                   end)).
  - intros k. rewrite lookup_empty. destruct (summed !! k); [| destruct (inherited k)]; reflexivity.
  - intros i x m acc Hi IH k.
    destruct (acc !! i) as [y |] eqn:Hacc.
    + rewrite IH. destruct (summed !! k) as [v |] eqn:Hk; [reflexivity |].
      destruct (inherited k) eqn:Hin; [reflexivity |].
      destruct (decide (i = k)) as [-> | Hne].
      * rewrite IH, Hk, Hin, Hi in Hacc. discriminate.
      * rewrite lookup_insert_ne by exact Hne. reflexivity.
    + destruct (inherited i) eqn:Hini.
      * rewrite IH. destruct (summed !! k) as [v |] eqn:Hk; [reflexivity |].
        destruct (inherited k) eqn:Hin; [reflexivity |].
        destruct (decide (i = k)) as [-> | Hne]; [congruence |].
        rewrite lookup_insert_ne by exact Hne. reflexivity.
      * destruct (decide (i = k)) as [-> | Hne].
        -- rewrite lookup_insert_eq. rewrite IH, Hi, Hini in Hacc.
           destruct (summed !! k); [discriminate |].
           rewrite Hini, lookup_insert_eq. reflexivity.
        -- rewrite lookup_insert_ne by exact Hne.
           rewrite IH. rewrite lookup_insert_ne by exact Hne. reflexivity.
Qed.

(** What the loop of [getUserMetadata] resolves: the manifests read, added
    one after the other. *)
Lemma getUserMetadata_iterate_fold inst VFS http paths_ summed d d1 U :
  getUserMetadata_iterate inst VFS http paths_ summed d = (d1, Fulfilled U) ->
  U = fold_left (fun summed meta => add_user_manifest meta summed)
        (user_manifests inst VFS http paths_ d) summed.
Proof.
  revert summed d. induction paths_ as [| iter rest IH]; intros summed d.
  - cbn. intros [= _ <-]. reflexivity.
  - cbn [getUserMetadata_iterate user_manifests].
    destruct (_request inst VFS http "read" _ d) as [d2 [res | e | e]].
    + intros Hrest. apply IH in Hrest. exact Hrest.
    + intros Hrest. apply IH in Hrest. exact Hrest.
    + discriminate.
Qed.

(** Every entry of the sum comes from one of the manifests and carries the
    scope [user]; every key of a manifest but [__proto__] is a key of the
    sum. *)
Lemma fold_user_manifests_lookup (Us : list (gmap string (gmap string json))) summed k m :
  fold_left (fun summed meta => add_user_manifest meta summed) Us summed !! k = Some m ->
  summed !! k = Some m \/
  (k <> "__proto__" /\
   exists meta v, In meta Us /\ meta !! k = Some v /\ m = set_scope "user" v).
Proof.
  revert summed. induction Us as [| meta Us IH]; intros summed; cbn [fold_left].
  - intros Hk. left. exact Hk.
  - intros Hk. apply IH in Hk as [Hk | (Hproto & meta' & v & Hin & Hv & ->)].
    + rewrite add_user_manifest_lookup in Hk.
      destruct (String.eqb_spec k "__proto__") as [-> | Hproto]; [left; exact Hk |].
      destruct (meta !! k) as [v |] eqn:Hv.
      * right. split; [exact Hproto |]. exists meta, v. split; [left; reflexivity |].
        split; [exact Hv | congruence].
      * left. exact Hk.
    + right. split; [exact Hproto |].
      exists meta', v. split; [right; exact Hin | split; [exact Hv | reflexivity]].
Qed.

Lemma fold_user_manifests_keys (Us : list (gmap string (gmap string json))) summed k :
  is_Some (summed !! k) \/
  (k <> "__proto__" /\ exists meta, In meta Us /\ is_Some (meta !! k)) ->
  is_Some (fold_left (fun summed meta => add_user_manifest meta summed) Us summed !! k).
Proof.
  revert summed. induction Us as [| meta Us IH]; intros summed; cbn [fold_left].
  - intros [Hk | (_ & meta & [] & _)]. exact Hk.
  - intros Hk. apply IH.
    destruct Hk as [Hk | (Hproto & meta' & [<- | Hin] & Hmeta)].
    + left. rewrite add_user_manifest_lookup.
      destruct (String.eqb k "__proto__"); [exact Hk |].
      destruct (meta !! k); [eauto | exact Hk].
    + left. rewrite add_user_manifest_lookup.
      apply String.eqb_neq in Hproto. rewrite Hproto.
      destruct Hmeta as [v ->]. eauto.
    + right. split; [exact Hproto |]. exists meta'. split; assumption.
Qed.

Lemma getUserMetadata_iterate_settles inst VFS http paths_ summed d e :
  snd (getUserMetadata_iterate inst VFS http paths_ summed d) <> Broken e.
Proof.
  revert summed d. induction paths_ as [| iter rest IH]; intros summed d.
  - discriminate.
  - cbn [getUserMetadata_iterate].
    destruct (_request inst VFS http "read" _ d) as [d1 [res | e' | e']].
    + apply IH.
    + apply IH.
    + discriminate.
Qed.

(** X31.  What a listing resolves, for every system manifest [S] (the
    member of [packages.json] named by the dist) and whatever the search
    paths hold.
    - With [scope = 'system'] it is [S], every entry with the scope
      [system]; with [scope = 'user'] it is the user tier.
    - The user tier never rejects.  When it is fulfilled with [U], an entry
      of [U] is an entry of one of the manifests read, with the scope
      [user], and every key of such a manifest is a key of [U], except
      [__proto__], which is never one.
    - With no scope the listing resolves [M]: a key of [S] maps to the
      entry of [S] with the scope [system]; a name every object inherits
      that is no key of [S] is left out; any other key maps to what [U] has
      for it.  When the user tier is never answered, neither is the
      listing. *)
Theorem list_packages_merges inst VFS http paths_ d text document S :
  fs_readFile d (Some (Path.join [DIRS_server inst; "packages.json"])) = inr text ->
  JSON_parse_packages text = Some document ->
  document !! DIST inst = Some S ->
  list_packages inst VFS http {| scope := Some "system"; paths := paths_ |} d
    = (d, Fulfilled (set_scope "system" <$> S)) /\
  list_packages inst VFS http {| scope := Some "user"; paths := paths_ |} d
    = getUserMetadata inst VFS http {| scope := None; paths := paths_ |} d /\
  forall d1 tier,
    getUserMetadata inst VFS http {| scope := None; paths := paths_ |} d = (d1, tier) ->
    match tier with
    | Broken _ => False
    | Pending e =>
        list_packages inst VFS http {| scope := None; paths := paths_ |} d = (d1, Pending e)
    | Fulfilled U =>
        (exists M,
           list_packages inst VFS http {| scope := None; paths := paths_ |} d
             = (d1, Fulfilled M) /\
           forall k,
             (forall v, S !! k = Some v -> M !! k = Some (set_scope "system" v)) /\
             (S !! k = None -> In k Object_prototype_members -> M !! k = None) /\
             (S !! k = None -> ~ In k Object_prototype_members -> M !! k = U !! k)) /\
        (forall k m, U !! k = Some m ->
           k <> "__proto__" /\
           exists meta v,
             In meta (user_manifests inst VFS http (default [] paths_) d) /\
             meta !! k = Some v /\ m = set_scope "user" v) /\
        (forall k meta,
           k <> "__proto__" ->
           In meta (user_manifests inst VFS http (default [] paths_) d) ->
           is_Some (meta !! k) -> is_Some (U !! k))
    end.
Proof.
  intros Hfile Hparse Hdist.
  assert (Hsys : getSystemMetadata inst d = Fulfilled (set_scope "system" <$> S)).
  { unfold getSystemMetadata. rewrite Hfile, Hparse, Hdist. reflexivity. }
  split; [| split].
  - unfold list_packages. cbn. rewrite Hsys. reflexivity.
  - reflexivity.
  - intros d1 tier Huser. destruct tier as [U | e | e].
    + assert (HU : U = fold_left (fun summed meta => add_user_manifest meta summed)
                         (user_manifests inst VFS http (default [] paths_) d) ∅).
      { apply (getUserMetadata_iterate_fold inst VFS http _ _ _ _ _ Huser). }
      split; [| split].
      * exists (add_missing U (set_scope "system" <$> S)). split.
        -- unfold list_packages. cbn [scope]. rewrite Hsys, Huser. reflexivity.
        -- intros k. rewrite add_missing_lookup, lookup_fmap.
           split; [| split].
           ++ intros v ->. reflexivity.
           ++ intros -> Hin. cbn. rewrite (inherited_true _ Hin). reflexivity.
           ++ intros -> Hown. cbn. rewrite (inherited_false _ Hown). reflexivity.
      * intros k m Hk. rewrite HU in Hk.
        apply fold_user_manifests_lookup in Hk as [Hk | Hk]; [| exact Hk].
        rewrite lookup_empty in Hk. discriminate.
      * intros k meta Hproto Hin Hmeta. rewrite HU.
        apply fold_user_manifests_keys. right. split; [exact Hproto |].
        exists meta. split; assumption.
    + pose proof (getUserMetadata_iterate_settles inst VFS http (default [] paths_) ∅ d e)
        as Hnever.
      unfold getUserMetadata in Huser. cbn [paths] in Huser.
      rewrite Huser in Hnever. apply Hnever. reflexivity.
    + unfold list_packages. cbn [scope]. rewrite Hsys, Huser. reflexivity.
Qed.

End Packages.

(** ** The resolver *)

Lemma split_char_cons (c : ascii) (s : string) :
  exists h t, JsString.split_char c s = h :: t.
Proof.
  induction s as [| d s IH]; cbn.
  - eauto.
  - destruct (JsString.is_char c d); [eauto |].
    destruct IH as (h & t & ->). eauto.
Qed.

Lemma split_char_app (c : ascii) (a b : string) :
  JsString.split_char c (a +:+ String c b)
  = JsString.split_char c a ++ JsString.split_char c b.
Proof.
  induction a as [| d a IH].
  - change ("" +:+ String c b) with (String c b).
    cbn [JsString.split_char app]. unfold JsString.is_char.
    rewrite Ascii.eqb_refl. reflexivity.
  - change (String d a +:+ String c b) with (String d (a +:+ String c b)).
    cbn [JsString.split_char]. rewrite IH.
    destruct (JsString.is_char c d); [reflexivity |].
    destruct (split_char_cons c a) as (h & t & ->). reflexivity.
Qed.

Lemma normalizeArray_go_plain allow (qs res : list string) :
  ~ In ".." qs ->
  Path.normalizeArray_go allow qs res = rev res ++ clean qs.
Proof.
  revert res. induction qs as [| p qs IH]; intros res Hno.
  - cbn. rewrite app_nil_r. reflexivity.
  - assert (Hp : String.eqb p ".." = false).
    { apply String.eqb_neq. intros ->. apply Hno. left. reflexivity. }
    assert (Hqs : ~ In ".." qs) by (intros Hin; apply Hno; right; exact Hin).
    cbn [Path.normalizeArray_go clean List.filter]. rewrite Hp.
    destruct (String.eqb p "" || String.eqb p "."); cbn [negb].
    + apply IH, Hqs.
    + rewrite (IH _ Hqs). cbn [rev]. rewrite <- app_assoc. reflexivity.
Qed.

Lemma normalizeArray_go_app allow (ps res : list string) :
  exists res',
    Path.normalizeArray_go allow ps res = rev res' /\
    forall qs, Path.normalizeArray_go allow (ps ++ qs) res
               = Path.normalizeArray_go allow qs res'.
Proof.
  revert res. induction ps as [| p ps IH]; intros res.
  - exists res. split; reflexivity.
  - cbn [Path.normalizeArray_go app].
    destruct (String.eqb p "" || String.eqb p "."); [apply IH |].
    destruct (String.eqb p ".."); [| apply IH].
    destruct res as [| top below]; [destruct allow; apply IH |].
    destruct (negb (String.eqb top "..")); [apply IH |].
    destruct allow; apply IH.
Qed.

Lemma normalizeArray_app allow (ps qs : list string) :
  ~ In ".." qs ->
  Path.normalizeArray (ps ++ qs) allow = Path.normalizeArray ps allow ++ clean qs.
Proof.
  intros Hno. unfold Path.normalizeArray.
  destruct (normalizeArray_go_app allow ps []) as (res' & -> & Happ).
  rewrite Happ. apply normalizeArray_go_plain, Hno.
Qed.

Lemma isAbsolute_app (root rest : string) :
  root <> "" -> Path.isAbsolute (root +:+ rest) = Path.isAbsolute root.
Proof. destruct root; [congruence | reflexivity]. Qed.

(** The text [path.join] normalises is the destination, a slash, the path;
    with no [..] in the path its segments are those of the destination
    followed by those of the path. *)
Lemma segments_join (root path : string) :
  root <> "" ->
  ~ In ".." (JsString.split_char "/" path) ->
  Path.isAbsolute (Path.join_go "" [root; path]) = Path.isAbsolute root /\
  Path.segments (Path.join_go "" [root; path])
  = Path.segments root ++ clean (JsString.split_char "/" path).
Proof.
  intros Hroot Hno. cbn [Path.join_go].
  pose proof (proj2 (String.eqb_neq _ _) Hroot) as Hr. rewrite Hr.
  change (String.eqb "" "") with true. cbn iota.
  destruct (String.eqb_spec path "") as [-> | Hpath].
  - split; [reflexivity |]. cbn. rewrite app_nil_r. reflexivity.
  - assert (Habs : Path.isAbsolute (root +:+ "/" +:+ path) = Path.isAbsolute root)
      by (apply isAbsolute_app; exact Hroot).
    split; [exact Habs |].
    unfold Path.segments. rewrite Habs.
    change (root +:+ "/" +:+ path) with (root +:+ String "/" path).
    rewrite split_char_app. apply normalizeArray_app, Hno.
Qed.

(** *** Token substitution *)

Lemma get_substitution_plain (matched before after repl : string) :
  has_char "$" repl = false ->
  JsString.get_substitution matched before after repl = repl.
Proof.
  induction repl as [| a t IH]; [reflexivity |].
  cbn [has_char]. intros Hno. apply orb_false_iff in Hno as [Ha Ht].
  cbn [JsString.get_substitution]. rewrite Ha, (IH Ht). reflexivity.
Qed.

Lemma replace_go_no_token (tok repl before s : string) :
  JsString.includes tok s = false ->
  JsString.replace_go tok repl 0 before s = s.
Proof.
  revert before. induction s as [| c s IH]; intros before Hno; [reflexivity |].
  rewrite includes_cons in Hno. apply orb_false_iff in Hno as [Hp Hs].
  cbn [JsString.replace_go]. rewrite Hp, (IH _ Hs). reflexivity.
Qed.

Lemma replace_go_skip (tok repl before a s : string) :
  exists before',
    JsString.replace_go tok repl (String.length a) before (a +:+ s)
    = JsString.replace_go tok repl 0 before' s.
Proof.
  revert before. induction a as [| c a IH]; intros before.
  - exists before. reflexivity.
  - change (String c a +:+ s) with (String c (a +:+ s)).
    cbn [JsString.replace_go String.length]. apply IH.
Qed.

(** A template with one token: the text before it has no percent sign, the
    text after it has no further occurrence, and the value has no dollar
    sign.  The pass puts the value in the place of the token. *)
Lemma replace_all_single (name_ repl pre post : string) :
  let tok := String "%" name_ in
  has_char "%" pre = false ->
  JsString.includes tok post = false ->
  has_char "$" repl = false ->
  JsString.replace_all tok repl (pre +:+ tok +:+ post) = pre +:+ repl +:+ post.
Proof.
  intros tok Hpre Hpost Hrepl. unfold JsString.replace_all.
  generalize EmptyString as before.
  induction pre as [| c pre IH]; intros before.
  - change ("" +:+ tok +:+ post) with (String "%" (name_ +:+ post)).
    change ("" +:+ repl +:+ post) with (repl +:+ post).
    assert (Hp : String.prefix tok (String "%" (name_ +:+ post)) = true)
      by (apply prefix_spec; exists post; reflexivity).
    cbn [JsString.replace_go]. rewrite Hp.
    rewrite (get_substitution_plain _ _ _ _ Hrepl).
    change (String.length tok - 1) with (String.length name_ - 0).
    rewrite Nat.sub_0_r.
    destruct (replace_go_skip tok repl (before +:+ "%") name_ post) as [before' ->].
    rewrite (replace_go_no_token _ _ _ _ Hpost). reflexivity.
  - cbn [has_char] in Hpre. apply orb_false_iff in Hpre as [Hc Hpre].
    change (String c pre +:+ tok +:+ post) with (String c (pre +:+ tok +:+ post)).
    change (String c pre +:+ repl +:+ post) with (String c (pre +:+ repl +:+ post)).
    assert (Hp : String.prefix tok (String c (pre +:+ tok +:+ post)) = false).
    { unfold tok. cbn [String.prefix].
      destruct (ascii_dec "%" c) as [<- | _]; [| reflexivity].
      unfold JsString.is_char in Hc. rewrite Ascii.eqb_refl in Hc. discriminate. }
    cbn [JsString.replace_go]. rewrite Hp, (IH Hpre). reflexivity.
Qed.

(** C3 (as amended).  For an address whose protocol has a configured mount
    with a destination template, be the mount the template itself or an
    object with a [destination] (the empty text as a mount is no mount to
    the resolver):
    - the resolver runs one global replace pass per token, in the order
      [%DIST%], [%UID%], [%USERNAME%], [%DROOT%], [%MOUNTPOINT%], and the
      real path is [path.join] of the result and the path;
    - when the result is not empty and the path has no [..] segment, the
      real path is absolute exactly when the substituted destination is, and
      its segments are those of the substituted destination followed by
      those of the path;
    - with the mount [home -> /srv/users/%USERNAME%] and the user [alice],
      [home://docs/a.txt] resolves to [/srv/users/alice/docs/a.txt]. *)
Theorem resolveRequestPath_real inst http q m template :
  let parts := JsString.split_protocol q in
  let protocol := JsString.part 1 parts in
  let path := JsString.replace_leading_slash "" (JsString.String_ (JsString.part 2 parts)) in
  let user := session_username http in
  let root :=
    JsString.replace_all "%MOUNTPOINT%" (JsString.String_ protocol)
      (JsString.replace_all "%DROOT%" (DIRS_root inst)
         (JsString.replace_all "%USERNAME%" user
            (JsString.replace_all "%UID%" user
               (JsString.replace_all "%DIST%" (DIST inst) template)))) in
  mountpoints inst !! JsString.String_ protocol = Some m ->
  (m = MountTemplate template /\ template <> "") \/
    (exists o, m = MountObject o /\ destination o = Some template) ->
  resolveRequestPath inst http (Some q) =
    Returned {| r_query := q; r_protocol := protocol; r_path := path;
                r_real := Some (Path.normalize (Path.join_go "" [root; path])) |} /\
  (root <> "" -> ~ In ".." (JsString.split_char "/" path) ->
   Path.isAbsolute (Path.join_go "" [root; path]) = Path.isAbsolute root /\
   Path.segments (Path.join_go "" [root; path])
   = Path.segments root ++ clean (JsString.split_char "/" path)) /\
  resolveRequestPath Fixture.server (Fixture.alice "POST" "read" no_args)
    (Some "home://docs/a.txt")
  = Returned {| r_query := "home://docs/a.txt"; r_protocol := Some "home";
                r_path := "docs/a.txt";
                r_real := Some "/srv/users/alice/docs/a.txt" |}.
Proof.
  intros parts protocol path user root Hm Htemplate.
  assert (Hmount : destination_of (lookup_mount inst protocol) = Some template).
  { unfold lookup_mount. rewrite Hm.
    destruct Htemplate as [[-> Hfull] | (o & -> & Ho)].
    - destruct template; [congruence | reflexivity].
    - exact Ho. }
  split; [| split].
  - unfold resolveRequestPath. fold parts protocol path. rewrite Hmount. reflexivity.
  - intros Hroot Hno. apply segments_join; assumption.
  - vm_compute. reflexivity.
Qed.

#[local] Existing Instance Fixture.node.

(** C1.  The gate of the dispatcher looks at one address only, and for
    [copy] and [move] that address is the source: a [copy] from the writable
    mount [home] into the mount [shared], which is flagged [ro: true], is
    not turned down.  [findTransport] answers with the parsed source and the
    default transport, the transport's [request] is invoked with the method
    [copy], and the file appears under the read-only mount. *)
Theorem copy_into_readonly_mount_reaches_transport :
  let args := Fixture.copy_args "home://a.txt" "shared://a.txt" in
  let http := Fixture.alice "POST" "copy" args in
  mountpoints Fixture.server !! "shared" = Some Fixture.shared_mount /\
  indexOf writeableMap (Some "copy") = 3%Z /\
  findTransport Fixture.server [filesystem] "copy" args
    = Returned (Some {| f_parsed := {| p_query := "home://a.txt";
                                       p_protocol := Some "home";
                                       p_path := "a.txt" |};
                        f_transport := Some filesystem |}) /\
  request Fixture.server [filesystem] http Fixture.disk0
    = transport_request filesystem Fixture.server http
        {| query := "home://a.txt"; req_method := "copy"; req_data := args |} Fixture.disk0 /\
  request Fixture.server [filesystem] http Fixture.disk0
    = (("/srv/shared/a.txt", Reference.File "hello") :: Fixture.disk0, Resolved VTrue).
Proof.
  cbv zeta. repeat split; vm_compute; reflexivity.
Qed.

(** The same request is turned down once the read-only mount is the
    source. *)
Example copy_from_readonly_mount_denied :
  request Fixture.server [filesystem]
    (Fixture.alice "POST" "copy" (Fixture.copy_args "shared://b.txt" "home://b.txt"))
    Fixture.disk0
  = (Fixture.disk0, Rejected "Operation denied!").
Proof. vm_compute. reflexivity. Qed.

Lemma request_get_is_read_witness :
  let http := Fixture.alice "GET" "get/home://a.txt" no_args in
  method http = "GET" /\
  endpoint http = "get/" +:+ "home://a.txt" /\
  mountpoints Fixture.server !! "home" = Some Fixture.home_mount /\
  request Fixture.server [filesystem] http Fixture.disk0
    = VFS_read Fixture.server http (path_args "home://a.txt") Fixture.disk0 /\
  request Fixture.server [filesystem] http Fixture.disk0
    = (Fixture.disk0,
       Responded (RespondStream "home://a.txt" (Reader (Some "/srv/users/alice/a.txt")))).
Proof.
  cbv zeta. split; [reflexivity |]. split; [reflexivity |].
  split; [vm_compute; reflexivity |].
  pose proof (proj2 (proj2 (request_get_is_read (H := Fixture.node) Fixture.server
                              [filesystem]
                              (Fixture.alice "GET" "get/home://a.txt" no_args)
                              Fixture.disk0 "home://a.txt" eq_refl
                              (or_introl eq_refl)))) as Hthm.
  split; [rewrite Hthm; reflexivity |].
  rewrite Hthm. vm_compute. reflexivity.
Defined.

(** The same on an endpoint without [get/], and on the read-only and the
    disabled mount. *)
Example request_get_other_endpoints :
  request Fixture.server [filesystem] (Fixture.alice "GET" "delete" no_args) Fixture.disk0
    = VFS_read Fixture.server (Fixture.alice "GET" "delete" no_args) (path_args "delete")
        Fixture.disk0 /\
  request Fixture.server [filesystem] (Fixture.alice "GET" "get/shared://b.txt" no_args)
    Fixture.disk0
    = (Fixture.disk0,
       Responded (RespondStream "shared://b.txt" (Reader (Some "/srv/shared/b.txt")))).
Proof. split; vm_compute; reflexivity. Qed.

Lemma createWriteStream_ignores_ro_witness :
  let http := Fixture.alice "POST" "install" no_args in
  let o := {| destination := Some "/srv/shared"; mount_transport := None;
              enabled := None; ro := Some true |} in
  mountpoints Fixture.server !! "shared" = Some (MountObject o) /\
  ro o = Some true /\
  enabled o <> Some false /\
  createWriteStream Fixture.server [filesystem] http "shared://pkg/main.js"
    = Resolved (Writer (Some "/srv/shared/pkg/main.js")).
Proof.
  cbv zeta.
  assert (Hmount : mountpoints Fixture.server !! "shared" = Some Fixture.shared_mount)
    by (vm_compute; reflexivity).
  assert (Hro : ro {| destination := Some "/srv/shared"; mount_transport := None;
                      enabled := None; ro := Some true |} = Some true) by reflexivity.
  assert (Hen : enabled {| destination := Some "/srv/shared"; mount_transport := None;
                           enabled := None; ro := Some true |} <> Some false) by discriminate.
  split; [exact Hmount |]. split; [exact Hro |]. split; [exact Hen |].
  rewrite (proj1 (createWriteStream_ignores_ro Fixture.server [filesystem]
                    (Fixture.alice "POST" "install" no_args) "shared://pkg/main.js"
                    _ filesystem Hmount Hro Hen eq_refl)).
  vm_compute. reflexivity.
Defined.

(** C2.  [delete] on the paths [/], [.] and the empty string is not
    refused.  None of the three has a protocol, so the resolver reads the
    protocol as [undefined] and the path as the text [undefined]: with a
    wildcard mount the file of that name is removed and the call resolves;
    without one the call rejects, with the message of a missing file. *)
Theorem delete_root_is_not_refused :
  let removed := [("/srv", Reference.Directory); ("/srv/data", Reference.Directory);
                  ("/srv/data/report.txt", Reference.File "r")] in
  indexOf [""; "."; "/"] None = (-1)%Z /\
  VFS_delete Fixture.wildcard_server (Fixture.alice "POST" "delete" (path_args "/"))
    (path_args "/") Fixture.disk1 = (removed, Resolved VTrue) /\
  VFS_delete Fixture.wildcard_server (Fixture.alice "POST" "delete" (path_args "."))
    (path_args ".") Fixture.disk1 = (removed, Resolved VTrue) /\
  VFS_delete Fixture.wildcard_server (Fixture.alice "POST" "delete" (path_args ""))
    (path_args "") Fixture.disk1 = (removed, Resolved VTrue) /\
  VFS_delete Fixture.server (Fixture.alice "POST" "delete" (path_args "/"))
    (path_args "/") Fixture.disk0 = (Fixture.disk0, Rejected "No such file or directory").
Proof.
  cbv zeta. repeat split; vm_compute; reflexivity.
Qed.

(** An address with a protocol and the path [/] resolves to the root of the
    mount, and [delete] removes all of it. *)
Example delete_mount_root :
  VFS_delete Fixture.server (Fixture.alice "POST" "delete" (path_args "home:///"))
    (path_args "home:///") Fixture.disk0
  = ([("/srv", Reference.Directory); ("/srv/users", Reference.Directory);
      ("/srv/shared", Reference.Directory); ("/srv/shared/b.txt", Reference.File "kept");
      ("/tmp", Reference.Directory); ("/tmp/upload_1", Reference.File "new bytes")],
     Resolved VTrue).
Proof. vm_compute. reflexivity. Qed.

(** C4, counterexample.  [exists] on a file that is there rejects, and on a
    path where nothing is it resolves [true]. *)
Lemma VFS_exists_inverted :
  Reference.exists_ Fixture.disk0 (Some "/srv/users/alice/a.txt") = true /\
  VFS_exists Fixture.server (Fixture.alice "POST" "exists" (path_args "home://a.txt"))
    (path_args "home://a.txt") Fixture.disk0
  = (Fixture.disk0, Rejected "File or directory already exist.") /\
  Reference.exists_ Fixture.disk0 (Some "/srv/users/alice/none") = false /\
  VFS_exists Fixture.server (Fixture.alice "POST" "exists" (path_args "home://none"))
    (path_args "home://none") Fixture.disk0
  = (Fixture.disk0, Resolved VTrue).
Proof. repeat split; vm_compute; reflexivity. Qed.

Lemma VFS_exists_resolves_when_absent_witness :
  let args := path_args "home://a.txt" in
  let http := Fixture.alice "POST" "exists" args in
  resolveRequestPath Fixture.server http (a_path args)
    = Returned {| r_query := "home://a.txt"; r_protocol := Some "home";
                  r_path := "a.txt"; r_real := Some "/srv/users/alice/a.txt" |} /\
  VFS_exists Fixture.server http args Fixture.disk0
    = (Fixture.disk0, Rejected "File or directory already exist.").
Proof.
  cbv zeta. split; [vm_compute; reflexivity |].
  rewrite (VFS_exists_resolves_when_absent (H := Fixture.node) Fixture.server _ _ Fixture.disk0
             {| r_query := "home://a.txt"; r_protocol := Some "home";
                r_path := "a.txt"; r_real := Some "/srv/users/alice/a.txt" |});
    vm_compute; reflexivity.
Defined.

(** C5.  Reading [home://a.txt], whose content is [hello], with
    [options.raw = false]: the file is read, then the callback throws, and
    the request is never answered.  With [options.raw = true] and
    [options.stream = false] the bytes come back. *)
Theorem read_data_url_throws :
  let args := Fixture.raw_args "home://a.txt" false in
  fs_readFile Fixture.disk0 (Some "/srv/users/alice/a.txt") = inr "hello" /\
  VFS_read Fixture.server (Fixture.alice "POST" "read" args) args Fixture.disk0
    = (Fixture.disk0, Uncaught "ReferenceError: data is not defined") /\
  request Fixture.server [filesystem] (Fixture.alice "POST" "read" args) Fixture.disk0
    = (Fixture.disk0, Uncaught "ReferenceError: data is not defined") /\
  VFS_read Fixture.server (Fixture.alice "POST" "read" (read_args "home://a.txt"))
    (read_args "home://a.txt") Fixture.disk0
    = (Fixture.disk0, Resolved (VBuffer "hello")).
Proof. cbv zeta. repeat split; vm_compute; reflexivity. Qed.

(** C6, counterexample.  Two uploads after which the temporary file is
    still on the disk: one into a directory that does not exist, where the
    copy fails, and one onto an existing file without [overwrite]. *)
Lemma VFS_upload_keeps_temporary_file :
  let failing := Fixture.upload "home://nowhere" "new.txt" None in
  let refused := Fixture.upload "home://" "a.txt" None in
  VFS_upload Fixture.server failing (data failing) Fixture.disk0
    = (Fixture.disk0, Rejected "ENOENT: no such file or directory") /\
  VFS_upload Fixture.server refused (data refused) Fixture.disk0
    = (Fixture.disk0, Rejected "File or directory already exist.") /\
  fs_exists Fixture.disk0 (Some "/tmp/upload_1") = true.
Proof. cbv zeta. repeat split; vm_compute; reflexivity. Qed.

(** An upload that goes through: the file is in place and the temporary
    file is gone. *)
Example VFS_upload_success :
  let http := Fixture.upload "home://docs" "new.txt" None in
  exists d1,
    VFS_upload Fixture.server http (data http) Fixture.disk0
      = (d1, Responded (RespondRaw "1" 200 [("Content-Type", "text/plain")])) /\
    fs_readFile d1 (Some "/srv/users/alice/docs/new.txt") = inr "new bytes" /\
    fs_exists d1 (Some "/tmp/upload_1") = false.
Proof. cbv zeta. eexists. repeat split; vm_compute; reflexivity. Qed.

Lemma VFS_upload_spec_witness :
  let http := Fixture.upload "home://" "a.txt" (Some "true") in
  files_upload http = Some {| upload_path := "/tmp/upload_1"; upload_name := "a.txt" |} /\
  fs_exists Fixture.disk0 (Some "/tmp/upload_1") = true /\
  VFS_upload Fixture.server http (data http) Fixture.disk0
    = match fs_pipe Fixture.disk0 "/tmp/upload_1" "/srv/users/alice/a.txt" with
      | (d1, None) =>
          (fs_unlink d1 "/tmp/upload_1",
           Responded (RespondRaw "1" 200 [("Content-Type", "text/plain")]))
      | (d1, Some err) => (d1, Rejected err)
      end.
Proof.
  cbv zeta.
  assert (Hsrc : fs_exists Fixture.disk0 (Some "/tmp/upload_1") = true)
    by (vm_compute; reflexivity).
  split; [reflexivity |]. split; [exact Hsrc |].
  refine (proj2 (proj2 (VFS_upload_spec (H := Fixture.node) Fixture.server
                          (Fixture.upload "home://" "a.txt" (Some "true")) _ Fixture.disk0
                          {| upload_path := "/tmp/upload_1"; upload_name := "a.txt" |}
                          {| r_query := "home://"; r_protocol := Some "home"; r_path := "";
                             r_real := Some "/srv/users/alice" |}
                          "/srv/users/alice" eq_refl _ eq_refl)) Hsrc _).
  - vm_compute. reflexivity.
  - left. reflexivity.
Defined.

(** The scenario of the specification for [write] and [read] in raw mode:
    the text written is the text read. *)
Example write_then_read_raw :
  let write_args :=
    {| a_path := Some "home://fresh.txt"; a_src := None; a_dest := None; a_root := None;
       a_data := Some "hello"; a_overwrite := None; a_raw := Some true; a_stream := None;
       a_rawtype := Some "utf8"; a_query := None; a_recursive := None; a_limit := None |} in
  exists d1,
    VFS_write Fixture.server (Fixture.alice "POST" "write" write_args) write_args
      Fixture.disk0 = (d1, Resolved VTrue) /\
    VFS_read Fixture.server (Fixture.alice "POST" "read" no_args)
      (read_args "home://fresh.txt") d1 = (d1, Resolved (VBuffer "hello")).
Proof. cbv zeta. eexists. split; vm_compute; reflexivity. Qed.

Lemma VFS_find_flat_witness :
  let args := Fixture.find_args "home://" "TXT" in
  let http := Fixture.alice "POST" "find" args in
  let resolved := {| r_query := "home://"; r_protocol := Some "home";
                     r_path := ""; r_real := Some "/srv/users/alice" |} in
  resolveRequestPath Fixture.server http (a_path args) = Returned resolved /\
  r_real resolved = Some "/srv/users/alice" /\
  a_recursive args <> Some true /\
  fs_readdir Fixture.disk0 (Some "/srv/users/alice") = inr ["a.txt"; "Notes.TXT"; "docs"] /\
  name_matches "TXT" "a.txt" /\
  name_matches "TXT" "Notes.TXT" /\
  ~ name_matches "TXT" "docs" /\
  exists found,
    VFS_find Fixture.server http args Fixture.disk0 = (Fixture.disk0, Resolved (VList found)) /\
    map filename found = ["a.txt"; "Notes.TXT"].
Proof.
  cbv zeta.
  assert (Hres : resolveRequestPath Fixture.server
                   (Fixture.alice "POST" "find" (Fixture.find_args "home://" "TXT"))
                   (a_path (Fixture.find_args "home://" "TXT"))
                 = Returned {| r_query := "home://"; r_protocol := Some "home";
                               r_path := ""; r_real := Some "/srv/users/alice" |})
    by (vm_compute; reflexivity).
  assert (Hrec : a_recursive (Fixture.find_args "home://" "TXT") <> Some true) by discriminate.
  assert (Hdir : fs_readdir Fixture.disk0 (Some "/srv/users/alice")
                 = inr ["a.txt"; "Notes.TXT"; "docs"]) by (vm_compute; reflexivity).
  assert (Hsmall : same_text "txt" "TXT").
  { cbn [same_text]. repeat split; right; left; split; vm_compute; lia. }
  assert (Ha : name_matches "TXT" "a.txt").
  { split; [discriminate |]. split; [discriminate |].
    exists "a.", "txt", "". split; [reflexivity | exact Hsmall]. }
  assert (Hn : name_matches "TXT" "Notes.TXT").
  { split; [discriminate |]. split; [discriminate |].
    exists "Notes.", "TXT", "". split; [reflexivity |].
    cbn [same_text]. repeat split; left; reflexivity. }
  assert (Hd : ~ name_matches "TXT" "docs").
  { intros Hm. apply find_filter_spec in Hm. vm_compute in Hm. discriminate. }
  split; [exact Hres |]. split; [reflexivity |]. split; [exact Hrec |].
  split; [exact Hdir |]. split; [exact Ha |]. split; [exact Hn |]. split; [exact Hd |].
  destruct (VFS_find_flat (H := Fixture.node) Fixture.server
              (Fixture.alice "POST" "find" (Fixture.find_args "home://" "TXT"))
              (Fixture.find_args "home://" "TXT") Fixture.disk0 _ _ _ Hres eq_refl Hrec Hdir)
    as (keep & Hkeep & Hfind & Hname).
  assert (Hka : keep "a.txt" = true) by (apply Hkeep; exact Ha).
  assert (Hkn : keep "Notes.TXT" = true) by (apply Hkeep; exact Hn).
  assert (Hkd : keep "docs" = false).
  { destruct (keep "docs") eqn:Hk; [| reflexivity].
    exfalso. apply Hd. apply Hkeep. exact Hk. }
  eexists. split; [exact Hfind |].
  cbn [List.filter]. rewrite Hka, Hkn, Hkd. cbn [map]. rewrite !Hname. reflexivity.
Defined.

(** C8.  The merge asks [!summed[k]] and assigns [summed[k] = meta[k]] on
    plain objects, so a name every object inherits is not treated like
    other names.  With the system manifest [{a}] and a user manifest that
    has a package called [constructor], the user tier lists the package, and
    the listing without a scope leaves it out although the system manifest
    has none of that name.  A user package called [__proto__] is not even in
    the user tier.  With the manifests [{a}] and [{b}] the listing is
    [{a: system, b: user}]. *)
Theorem list_packages_loses_inherited_names :
  let http := Fixture.alice "POST" "packages" no_args in
  let paths_ := Some ["home:///.packages"] in
  let system := <["a" := <["path" := JString "default/a"]> ∅]> ∅ in
  let listed_a := <["a" := <["scope" := JString "system"]>
                             (<["path" := JString "default/a"]> ∅)]> ∅ in
  let d := Fixture.disk_with_manifest "CONSTRUCTOR" in
  let d' := Fixture.disk_with_manifest "PROTO" in
  Fixture.system_document !! "dist" = Some system /\
  system !! "constructor" = None /\
  user_manifests Fixture.server [filesystem] http ["home:///.packages"] d
    = [Fixture.constructor_document] /\
  list_packages Fixture.server [filesystem] http {| scope := Some "user"; paths := paths_ |} d
    = (d, Fulfilled (<["constructor" :=
                         <["scope" := JString "user"]>
                           (<["path" := JString "home:///.packages/constructor"]> ∅)]> ∅)) /\
  list_packages Fixture.server [filesystem] http {| scope := None; paths := paths_ |} d
    = (d, Fulfilled listed_a) /\
  user_manifests Fixture.server [filesystem] http ["home:///.packages"] d'
    = [Fixture.proto_document] /\
  list_packages Fixture.server [filesystem] http {| scope := Some "user"; paths := paths_ |} d'
    = (d', Fulfilled ∅) /\
  list_packages Fixture.server [filesystem] http {| scope := None; paths := paths_ |}
    Fixture.disk2
  = (Fixture.disk2,
     Fulfilled (<["a" := <["scope" := JString "system"]> (<["path" := JString "default/a"]> ∅)]>
               (<["b" := <["scope" := JString "user"]>
                           (<["path" := JString "home:///.packages/b"]> ∅)]> ∅))).
Proof.
  cbv zeta. repeat split; vm_compute; reflexivity.
Qed.

Lemma list_packages_merges_witness :
  let http := Fixture.alice "POST" "packages" no_args in
  let paths_ := Some ["home:///.packages"; "home:///.more"] in
  let S := <["a" := <["path" := JString "default/a"]> ∅]> ∅ in
  fs_readFile Fixture.disk3 (Some (Path.join [DIRS_server Fixture.server; "packages.json"]))
    = inr "SYSTEM" /\
  JSON_parse_packages "SYSTEM" = Some Fixture.system_document /\
  Fixture.system_document !! DIST Fixture.server = Some S /\
  user_manifests Fixture.server [filesystem] http ["home:///.packages"; "home:///.more"]
    Fixture.disk3 = [Fixture.user_document; Fixture.later_document] /\
  list_packages Fixture.server [filesystem] http {| scope := None; paths := paths_ |}
    Fixture.disk3
  = (Fixture.disk3,
     Fulfilled (<["a" := <["scope" := JString "system"]> (<["path" := JString "default/a"]> ∅)]>
               (<["b" := <["scope" := JString "user"]>
                           (<["path" := JString "home:///.more/b"]> ∅)]>
                (<["c" := <["scope" := JString "user"]>
                            (<["path" := JString "home:///.more/c"]> ∅)]> ∅)))) /\
  list_packages Fixture.server [filesystem] http {| scope := Some "system"; paths := paths_ |}
    Fixture.disk3
  = (Fixture.disk3, Fulfilled (set_scope "system" <$> S)).
Proof.
  cbv zeta.
  assert (Hfile : fs_readFile Fixture.disk3
                    (Some (Path.join [DIRS_server Fixture.server; "packages.json"]))
                  = inr "SYSTEM") by (vm_compute; reflexivity).
  assert (Hparse : JSON_parse_packages "SYSTEM" = Some Fixture.system_document)
    by (vm_compute; reflexivity).
  assert (Hdist : Fixture.system_document !! DIST Fixture.server
                  = Some (<["a" := <["path" := JString "default/a"]> ∅]> ∅))
    by (vm_compute; reflexivity).
  split; [exact Hfile |]. split; [exact Hparse |]. split; [exact Hdist |].
  split; [vm_compute; reflexivity |]. split; [vm_compute; reflexivity |].
  exact (proj1 (list_packages_merges (H := Fixture.node) Fixture.server [filesystem]
                  (Fixture.alice "POST" "packages" no_args)
                  (Some ["home:///.packages"; "home:///.more"])
                  Fixture.disk3 "SYSTEM" Fixture.system_document _ Hfile Hparse Hdist)).
Defined.

(** C3, counterexample.  The substituted destination of [home] for [alice]
    is [/srv/users/alice]; the address [home://../bob/secret.txt] resolves
    to a real path that is not under it. *)
Lemma resolveRequestPath_leaves_mount :
  let http := Fixture.alice "POST" "read" no_args in
  substitute (rmap Fixture.server http (Some "home")) "/srv/users/%USERNAME%"
    = "/srv/users/alice" /\
  resolveRequestPath Fixture.server http (Some "home://../bob/secret.txt")
    = Returned {| r_query := "home://../bob/secret.txt"; r_protocol := Some "home";
                  r_path := "../bob/secret.txt";
                  r_real := Some "/srv/users/bob/secret.txt" |} /\
  String.prefix "/srv/users/alice" "/srv/users/bob/secret.txt" = false.
Proof. cbv zeta. repeat split; vm_compute; reflexivity. Qed.

(** A value that an earlier pass puts in is scanned by the later passes,
    and a dollar pattern in a value is expanded. *)
Example substitute_rescans :
  substitute (rmap Fixture.server
                {| method := "POST"; endpoint := "read"; data := no_args;
                   files_upload := None; username := Some "%DROOT%" |} (Some "home"))
    "/srv/users/%USERNAME%"
  = "/srv/users//opt/osjs".
Proof. vm_compute. reflexivity. Qed.

Example substitute_dollar :
  substitute (rmap Fixture.server
                {| method := "POST"; endpoint := "read"; data := no_args;
                   files_upload := None; username := Some "$&" |} (Some "home"))
    "/srv/users/%USERNAME%"
  = "/srv/users/%USERNAME%".
Proof. vm_compute. reflexivity. Qed.

Lemma resolveRequestPath_real_witness :
  let http := Fixture.alice "POST" "read" no_args in
  mountpoints Fixture.server !! "home" = Some (MountTemplate "/srv/users/%USERNAME%") /\
  "/srv/users/%USERNAME%" <> "" /\
  "/srv/users/alice" <> "" /\
  ~ In ".." (JsString.split_char "/" "docs/a.txt") /\
  Path.segments (Path.join_go "" ["/srv/users/alice"; "docs/a.txt"])
  = Path.segments "/srv/users/alice" ++ clean (JsString.split_char "/" "docs/a.txt").
Proof.
  cbv zeta.
  assert (Hmount : mountpoints Fixture.server !! "home"
                   = Some (MountTemplate "/srv/users/%USERNAME%"))
    by (vm_compute; reflexivity).
  assert (Hfull : "/srv/users/%USERNAME%" <> "") by discriminate.
  assert (Hroot : "/srv/users/alice" <> "") by discriminate.
  assert (Hno : ~ In ".." (JsString.split_char "/" "docs/a.txt")).
  { cbn. intros [Hd | [Ha | []]]; discriminate. }
  split; [exact Hmount |]. split; [exact Hfull |]. split; [exact Hroot |].
  split; [exact Hno |].
  exact (proj2 (proj1 (proj2 (resolveRequestPath_real Fixture.server
                                (Fixture.alice "POST" "read" no_args)
                                "home://docs/a.txt" _ "/srv/users/%USERNAME%"
                                Hmount (or_introl (conj eq_refl Hfull))))
                  Hroot Hno)).
Defined.

(** ** Addresses *)

Lemma append_cons (c : ascii) (s t : string) : String c s +:+ t = String c (s +:+ t).
Proof. reflexivity. Qed.

Lemma append_nil_r (s : string) : s +:+ "" = s.
Proof. induction s as [| c s IH]; [reflexivity |]. rewrite append_cons, IH. reflexivity. Qed.

Lemma append_assoc (a b c : string) : (a +:+ b) +:+ c = a +:+ b +:+ c.
Proof.
  induction a as [| x a IH]; [reflexivity |]. rewrite !append_cons, IH. reflexivity.
Qed.

Lemma includes_nil (q : string) :
  JsString.includes q "" = String.prefix q "".
Proof. cbn. apply orb_false_r. Qed.

Lemma cut_last_sep_none (l : string) :
  JsString.includes "://" l = false -> JsString.cut_last_sep l = None.
Proof.
  induction l as [| c l IH]; [reflexivity |].
  rewrite includes_cons. intros Hno. apply orb_false_iff in Hno as [Hp Hl].
  cbn [JsString.cut_last_sep]. rewrite (IH Hl), Hp. reflexivity.
Qed.

Lemma line_span_app (s : string) :
  s = fst (JsString.line_span s) +:+ snd (JsString.line_span s).
Proof.
  induction s as [| c s IH]; [reflexivity |].
  cbn [JsString.line_span]. destruct (JsString.is_line_terminator c); [reflexivity |].
  destruct (JsString.line_span s) as [l r]. cbn [fst snd] in *.
  rewrite append_cons, <- IH. reflexivity.
Qed.

Lemma includes_app_l (q a b : string) :
  JsString.includes q a = true -> JsString.includes q (a +:+ b) = true.
Proof.
  intros Ha. apply includes_spec in Ha as (pre & post & ->).
  apply includes_spec. exists pre, (post +:+ b).
  rewrite !append_assoc. reflexivity.
Qed.

Lemma match_here_none (s : string) :
  JsString.includes "://" s = false -> JsString.match_here s = None.
Proof.
  intros Hno. unfold JsString.match_here.
  pose proof (line_span_app s) as Hs.
  destruct (JsString.line_span s) as [line rest]. cbn in Hs.
  rewrite cut_last_sep_none; [reflexivity |].
  destruct (JsString.includes "://" line) eqn:Hl; [| reflexivity].
  apply (includes_app_l _ _ rest) in Hl. rewrite <- Hs, Hno in Hl. discriminate.
Qed.

Lemma split_loop_plain (fuel : nat) (piece s : string) :
  JsString.includes "://" s = false ->
  JsString.split_loop fuel piece s = [Some (piece +:+ s)].
Proof.
  revert fuel piece. induction s as [| c s IH]; intros fuel piece Hno.
  - destruct fuel; cbn; rewrite ?append_nil_r; reflexivity.
  - destruct fuel as [| fuel]; [reflexivity |].
    cbn [JsString.split_loop]. rewrite (match_here_none _ Hno).
    rewrite includes_cons in Hno. apply orb_false_iff in Hno as [_ Hs].
    rewrite (IH _ _ Hs), append_assoc. reflexivity.
Qed.

(** An address without [://] is not split: both captures are
    [undefined]. *)
Lemma split_protocol_plain_address (q : string) :
  JsString.includes "://" q = false ->
  JsString.split_protocol q = [Some q].
Proof. intros Hno. unfold JsString.split_protocol. apply split_loop_plain, Hno. Qed.

Lemma line_span_single (s : string) :
  single_line s -> JsString.line_span s = (s, "").
Proof.
  unfold single_line. induction s as [| c s IH]; [reflexivity |].
  cbn [has_char]. intros [Hlf Hcr].
  apply orb_false_iff in Hlf as [Hlf Hs1]. apply orb_false_iff in Hcr as [Hcr Hs2].
  cbn [JsString.line_span]. unfold JsString.is_line_terminator.
  rewrite Hlf, Hcr. cbn [orb]. rewrite (IH (conj Hs1 Hs2)). reflexivity.
Qed.

Lemma cut_last_sep_cons (c : ascii) (rest : string) :
  JsString.cut_last_sep (String c rest)
  = match JsString.cut_last_sep rest with
    | Some (a, b) => Some (String c a, b)
    | None =>
        if String.prefix "://" (String c rest)
        then Some ("", JsString.drop 3 (String c rest)) else None
    end.
Proof. reflexivity. Qed.

Lemma cut_last_sep_at (proto path : string) :
  JsString.includes "://" path = false ->
  JsString.cut_last_sep (proto +:+ "://" +:+ path) = Some (proto, path).
Proof.
  intros Hno. induction proto as [| c proto IH].
  - change ("" +:+ "://" +:+ path) with (String ":" (String "/" (String "/" path))).
    rewrite cut_last_sep_cons.
    assert (Hp : String.prefix "://" (String ":" (String "/" (String "/" path))) = true)
      by (apply prefix_spec; exists path; reflexivity).
    rewrite (cut_last_sep_none (String "/" (String "/" path))), Hp.
    + reflexivity.
    + rewrite !includes_cons, Hno. reflexivity.
  - change (String c proto +:+ "://" +:+ path) with (String c (proto +:+ "://" +:+ path)).
    rewrite cut_last_sep_cons, IH. reflexivity.
Qed.

Lemma has_char_app (c : ascii) (a b : string) :
  has_char c (a +:+ b) = has_char c a || has_char c b.
Proof.
  induction a as [| x a IH]; [reflexivity |].
  rewrite append_cons. cbn [has_char]. rewrite IH. apply orb_assoc.
Qed.

Lemma length_append (a b : string) :
  String.length (a +:+ b) = String.length a + String.length b.
Proof.
  induction a as [| x a IH]; [reflexivity |].
  rewrite append_cons. cbn [String.length plus]. rewrite IH. reflexivity.
Qed.

(** A one-line address [protocol://path] whose path has no further [://]
    splits into its protocol and its path. *)
Lemma split_protocol_address (proto path : string) :
  single_line (proto +:+ "://" +:+ path) ->
  JsString.includes "://" path = false ->
  JsString.split_protocol (proto +:+ "://" +:+ path)
  = [Some ""; Some proto; Some path; Some ""].
Proof.
  intros Hline Hno. unfold JsString.split_protocol.
  assert (Hm : JsString.match_here (proto +:+ "://" +:+ path) = Some (proto, path, "")).
  { unfold JsString.match_here. rewrite (line_span_single _ Hline).
    rewrite (cut_last_sep_at _ _ Hno). reflexivity. }
  assert (Hlen : exists n, String.length (proto +:+ "://" +:+ path) = S n).
  { rewrite length_append.
    change ("://" +:+ path) with (String ":" (String "/" (String "/" path))).
    cbn [String.length].
    exists (String.length proto + (2 + String.length path)). lia. }
  destruct Hlen as [n Hn]. rewrite Hn.
  destruct (proto +:+ "://" +:+ path) as [| c s] eqn:Hq; [discriminate |].
  cbn [JsString.split_loop]. rewrite Hm.
  destruct n; reflexivity.
Qed.

Lemma single_line_app (a b : string) :
  single_line (a +:+ b) <-> single_line a /\ single_line b.
Proof.
  unfold single_line. rewrite !has_char_app, !orb_false_iff. tauto.
Qed.

Lemma single_line_cons (c : ascii) (s : string) :
  single_line (String c s) <-> JsString.is_line_terminator c = false /\ single_line s.
Proof.
  unfold single_line, JsString.is_line_terminator. cbn [has_char].
  rewrite !orb_false_iff. tauto.
Qed.

Section Addresses.
Context `{Runtime}.

Lemma replace_leading_slash_same (s : string) :
  JsString.replace_leading_slash "/" s = s.
Proof.
  destruct s as [| c s]; [reflexivity |]. cbn [JsString.replace_leading_slash].
  unfold JsString.is_char. destruct (Ascii.eqb_spec "/" c) as [<- | _]; reflexivity.
Qed.

Lemma resolveRequestPath_split inst http proto path :
  single_line (proto +:+ "://" +:+ path) ->
  JsString.includes "://" path = false ->
  resolveRequestPath inst http (Some (proto +:+ "://" +:+ path))
  = Returned
      {| r_query := proto +:+ "://" +:+ path;
         r_protocol := Some proto;
         r_path := JsString.replace_leading_slash "" path;
         r_real :=
           match destination_of (lookup_mount inst (Some proto)) with
           | Some found =>
               Some (Path.join [substitute (rmap inst http (Some proto)) found;
                                JsString.replace_leading_slash "" path])
           | None => None
           end |}.
Proof.
  intros Hline Hno. unfold resolveRequestPath.
  rewrite (split_protocol_address _ _ Hline Hno). reflexivity.
Qed.

(** X1.  A one-line address [protocol://path] whose path has no further
    [://]: the resolver takes [protocol] as the protocol and the path
    without one leading slash as the path.  The real path is [path.join] of
    the substituted destination of a mount and that path, or [null] when the
    mount has no destination.  The mount is the one the protocol names, if
    it is not the empty template; the wildcard mount, when the protocol
    names no mount or the empty template; but none at all when the protocol
    names no mount and is a name every object inherits.  The dispatcher
    parses the same protocol and keeps the path as it is. *)
Theorem resolveRequestPath_address inst VFS http method_ args proto path :
  single_line (proto +:+ "://" +:+ path) ->
  JsString.includes "://" path = false ->
  let under (found : option mountpoint) :=
    match destination_of found with
    | Some found =>
        Some (Path.join [substitute (rmap inst http (Some proto)) found;
                         JsString.replace_leading_slash "" path])
    | None => None
    end in
  (exists resolved,
     resolveRequestPath inst http (Some (proto +:+ "://" +:+ path)) = Returned resolved /\
     r_query resolved = proto +:+ "://" +:+ path /\
     r_protocol resolved = Some proto /\
     r_path resolved = JsString.replace_leading_slash "" path /\
     (forall m, mountpoints inst !! proto = Some m -> m <> MountTemplate "" ->
        r_real resolved = under (Some m)) /\
     (mountpoints inst !! proto = Some (MountTemplate "") \/
        (mountpoints inst !! proto = None /\ ~ In proto Object_prototype_members) ->
      r_real resolved = under (mountpoints inst !! "*")) /\
     (mountpoints inst !! proto = None -> In proto Object_prototype_members ->
      r_real resolved = None)) /\
  (argumentMap method_ args false = Returned (Some (proto +:+ "://" +:+ path)) ->
   forall found, findTransport inst VFS method_ args = Returned (Some found) ->
     f_parsed found = {| p_query := proto +:+ "://" +:+ path;
                         p_protocol := Some proto;
                         p_path := path |}).
Proof.
  intros Hline Hno under. split.
  - eexists. split; [apply resolveRequestPath_split; assumption |].
    cbn [r_query r_protocol r_path r_real].
    split; [reflexivity |]. split; [reflexivity |]. split; [reflexivity |].
    unfold under, lookup_mount. cbn [JsString.String_]. split; [| split].
    + intros m Hm Hne. rewrite Hm.
      destruct m as [[| c t] | o]; [congruence | reflexivity | reflexivity].
    + intros [Hm | [Hm Hown]]; rewrite Hm; [reflexivity |].
      rewrite (inherited_false _ Hown). reflexivity.
    + intros Hm Hin. rewrite Hm, (inherited_true _ Hin). reflexivity.
  - intros Hq found. unfold findTransport. rewrite Hq.
    rewrite (split_protocol_address _ _ Hline Hno).
    cbn [JsString.part nth_error JsString.String_]. rewrite replace_leading_slash_same.
    match goal with
    | |- context [if ?b then _ else _] => destruct b
    end; [discriminate |].
    intros [= <-]. reflexivity.
Qed.

(** X2.  An address without [://] has no protocol: the resolver looks for a
    mount called [undefined], then for the wildcard, and takes the text
    [undefined] as the path. *)
Theorem resolveRequestPath_no_protocol inst http q :
  JsString.includes "://" q = false ->
  resolveRequestPath inst http (Some q)
  = Returned
      {| r_query := q;
         r_protocol := None;
         r_path := "undefined";
         r_real :=
           match destination_of
                   (match mountpoints inst !! "undefined" with
                    | Some (MountTemplate "") | None => mountpoints inst !! "*"
                    | Some m => Some m
                    end) with
           | Some found =>
               Some (Path.join [substitute (rmap inst http None) found; "undefined"])
           | None => None
           end |}.
Proof.
  intros Hno. unfold resolveRequestPath.
  rewrite (split_protocol_plain_address _ Hno). reflexivity.
Qed.

(** X3.  One slash between [://] and the path makes no difference: the
    addresses [protocol://path] and [protocol:///path] resolve to the same
    protocol, path and real path. *)
Theorem resolveRequestPath_leading_slash inst http proto path :
  single_line (proto +:+ "://" +:+ path) ->
  JsString.includes "://" path = false ->
  JsString.starts_with_char "/" path = false ->
  exists r1 r2,
    resolveRequestPath inst http (Some (proto +:+ "://" +:+ path)) = Returned r1 /\
    resolveRequestPath inst http (Some (proto +:+ "://" +:+ String "/" path)) = Returned r2 /\
    r_protocol r1 = r_protocol r2 /\
    r_path r1 = path /\ r_path r2 = path /\
    r_real r1 = r_real r2.
Proof.
  intros Hline Hno Hslash.
  assert (Hline' : single_line (proto +:+ "://" +:+ String "/" path)).
  { apply single_line_app in Hline as [Hproto Hrest].
    apply single_line_app. split; [exact Hproto |].
    change ("://" +:+ path) with (String ":" (String "/" (String "/" path))) in Hrest.
    change ("://" +:+ String "/" path)
      with (String ":" (String "/" (String "/" (String "/" path)))).
    rewrite !single_line_cons in *. tauto. }
  assert (Hno' : JsString.includes "://" (String "/" path) = false).
  { rewrite includes_cons, Hno. reflexivity. }
  assert (Hpath : JsString.replace_leading_slash "" path = path).
  { destruct path as [| c p]; [reflexivity |].
    cbn [JsString.replace_leading_slash JsString.starts_with_char] in *.
    rewrite Hslash. reflexivity. }
  eexists _, _.
  split; [exact (resolveRequestPath_split inst http proto path Hline Hno) |].
  split; [exact (resolveRequestPath_split inst http proto (String "/" path) Hline' Hno') |].
  cbn [r_protocol r_path r_real]. rewrite Hpath.
  repeat split; reflexivity.
Qed.

End Addresses.

(** ** MIME types and tokens *)

Lemma from_last_char_none (c : ascii) (s : string) :
  has_char c s = false -> JsString.from_last_char c s = None.
Proof.
  induction s as [| d s IH]; [reflexivity |].
  cbn [has_char]. intros Hno. apply orb_false_iff in Hno as [Hd Hs].
  cbn [JsString.from_last_char]. rewrite (IH Hs), Hd. reflexivity.
Qed.

Lemma from_last_char_suffix (c : ascii) (base ext : string) :
  has_char c ext = false ->
  JsString.from_last_char c (base +:+ String c ext) = Some (String c ext).
Proof.
  intros Hext. induction base as [| d base IH].
  - change ("" +:+ String c ext) with (String c ext).
    cbn [JsString.from_last_char]. rewrite (from_last_char_none _ _ Hext).
    unfold JsString.is_char. rewrite Ascii.eqb_refl. reflexivity.
  - rewrite append_cons. cbn [JsString.from_last_char]. rewrite IH. reflexivity.
Qed.

(** X4.  [getMime] looks the name up by what follows its last dot, the dot
    included; a name without a dot gets the entry [default]. *)
Theorem getMime_extension inst base ext name_ :
  has_char "." ext = false ->
  has_char "." name_ = false ->
  getMime inst (base +:+ "." +:+ ext) = mimes inst !! ("." +:+ ext) /\
  getMime inst name_ = mimes inst !! "default".
Proof.
  intros Hext Hname. unfold getMime. split.
  - change ("." +:+ ext) with (String "." ext).
    rewrite (from_last_char_suffix _ _ _ Hext). reflexivity.
  - rewrite (from_last_char_none _ _ Hname). reflexivity.
Qed.

Lemma getMime_extension_witness :
  has_char "." "txt" = false /\ has_char "." "README" = false /\
  getMime Fixture.server ("archive.tar" +:+ "." +:+ "txt") = Some "text/plain" /\
  getMime Fixture.server "README" = Some "application/octet-stream".
Proof.
  split; [reflexivity |]. split; [reflexivity |].
  exact (getMime_extension Fixture.server "archive.tar" "txt" "README" eq_refl eq_refl).
Defined.

Lemma prefix_has_char (c : ascii) (t s : string) :
  String.prefix t s = true -> has_char c t = true -> has_char c s = true.
Proof.
  intros Hp Ht. apply prefix_spec in Hp as [post ->].
  rewrite has_char_app, Ht. reflexivity.
Qed.

Lemma includes_no_percent (t s : string) :
  has_char "%" s = false -> JsString.includes (String "%" t) s = false.
Proof.
  induction s as [| c s IH]; [reflexivity |].
  cbn [has_char]. intros Hno. apply orb_false_iff in Hno as [Hc Hs].
  rewrite includes_cons, (IH Hs), orb_false_r.
  cbn [String.prefix]. destruct (ascii_dec "%" c) as [<- | _]; [| reflexivity].
  unfold JsString.is_char in Hc. rewrite Ascii.eqb_refl in Hc. discriminate.
Qed.

Lemma includes_skip_no_percent (t pre s : string) :
  has_char "%" pre = false ->
  JsString.includes (String "%" t) (pre +:+ s) = JsString.includes (String "%" t) s.
Proof.
  induction pre as [| c pre IH]; [reflexivity |].
  cbn [has_char]. intros Hno. apply orb_false_iff in Hno as [Hc Hpre].
  rewrite append_cons, includes_cons, (IH Hpre).
  cbn [String.prefix]. destruct (ascii_dec "%" c) as [<- | _]; [| reflexivity].
  unfold JsString.is_char in Hc. rewrite Ascii.eqb_refl in Hc. discriminate.
Qed.

Lemma replace_all_no_percent (t repl s : string) :
  has_char "%" s = false -> JsString.replace_all (String "%" t) repl s = s.
Proof.
  intros Hno. apply replace_go_no_token, includes_no_percent, Hno.
Qed.

(** The tokens that come before [%USERNAME%] in the table do not occur in
    a text whose only percent signs are those of one [%USERNAME%]. *)
Lemma no_earlier_token (tok pre post : string) :
  tok = "%DIST%" \/ tok = "%UID%" ->
  has_char "%" pre = false ->
  has_char "%" post = false ->
  JsString.includes tok (pre +:+ "%USERNAME%" +:+ post) = false.
Proof.
  intros Htok Hpre Hpost.
  assert (Hlast : forall t, has_char "%" t = true -> String.prefix t post = false).
  { intros t Ht. destruct (String.prefix t post) eqn:Hp; [| reflexivity].
    rewrite (prefix_has_char _ _ _ Hp Ht) in Hpost. discriminate. }
  destruct Htok as [-> | ->]; rewrite (includes_skip_no_percent _ _ _ Hpre).
  - change ("%USERNAME%" +:+ post)
      with (String "%" (String "U" (String "S" (String "E" (String "R" (String "N"
             (String "A" (String "M" (String "E" (String "%" post)))))))))).
    rewrite !includes_cons. rewrite (includes_no_percent _ _ Hpost).
    cbn [String.prefix]. cbn. rewrite orb_false_r. apply (Hlast "DIST%"). reflexivity.
  - change ("%USERNAME%" +:+ post)
      with (String "%" (String "U" (String "S" (String "E" (String "R" (String "N"
             (String "A" (String "M" (String "E" (String "%" post)))))))))).
    rewrite !includes_cons. rewrite (includes_no_percent _ _ Hpost).
    cbn [String.prefix]. cbn. rewrite orb_false_r. apply (Hlast "UID%"). reflexivity.
Qed.

(** X5.  A destination template with one [%USERNAME%] and no other percent
    sign, for a user name without percent and dollar signs: the result of
    the five passes is the template with the user name in the place of the
    token. *)
Theorem substitute_username inst http protocol pre post :
  has_char "%" pre = false ->
  has_char "%" post = false ->
  has_char "%" (session_username http) = false ->
  has_char "$" (session_username http) = false ->
  substitute (rmap inst http protocol) (pre +:+ "%USERNAME%" +:+ post)
  = pre +:+ session_username http +:+ post.
Proof.
  intros Hpre Hpost Huser Hdollar.
  unfold substitute, rmap. cbn [fold_left fst snd].
  unfold JsString.replace_all at 5.
  rewrite (replace_go_no_token "%DIST%" _ _ _
             (no_earlier_token _ pre post (or_introl eq_refl) Hpre Hpost)).
  unfold JsString.replace_all at 4.
  rewrite (replace_go_no_token "%UID%" _ _ _
             (no_earlier_token _ pre post (or_intror eq_refl) Hpre Hpost)).
  rewrite (replace_all_single "USERNAME%" _ pre post Hpre
             (includes_no_percent _ _ Hpost) Hdollar).
  assert (Hclean : has_char "%" (pre +:+ session_username http +:+ post) = false).
  { rewrite !has_char_app, Hpre, Huser, Hpost. reflexivity. }
  rewrite (replace_all_no_percent _ _ _ Hclean).
  apply replace_all_no_percent, Hclean.
Qed.

Lemma substitute_username_witness :
  let http := Fixture.alice "POST" "read" no_args in
  has_char "%" "/srv/users/" = false /\
  has_char "%" "/files" = false /\
  has_char "%" (session_username http) = false /\
  has_char "$" (session_username http) = false /\
  substitute (rmap Fixture.server http (Some "home")) ("/srv/users/" +:+ "%USERNAME%" +:+ "/files")
  = "/srv/users/" +:+ "alice" +:+ "/files".
Proof.
  cbv zeta. repeat (split; [reflexivity |]).
  exact (substitute_username Fixture.server (Fixture.alice "POST" "read" no_args)
           (Some "home") "/srv/users/" "/files" eq_refl eq_refl eq_refl eq_refl).
Defined.

(** ** More of the dispatcher *)

Section Mounts.
Context `{Runtime}.

(** The address the dispatcher extracts from a request. *)
Lemma request_unfold inst VFS http d :
  request inst VFS http d =
  let data_ := if String.eqb (method http) "GET"
               then path_args (JsString.strip_get (endpoint http)) else data http in
  let fn := if String.eqb (method http) "GET" then "read" else endpoint http in
  match findTransport inst VFS fn data_ with
  | Raised e => (d, Thrown e)
  | Returned None => (d, Rejected "Operation denied!")
  | Returned (Some found) =>
      match f_transport found with
      | None => (d, Rejected ("Cannot find VFS module for: " +:+ p_query (f_parsed found)))
      | Some t =>
          transport_request t inst http
            {| query := p_query (f_parsed found); req_method := fn; req_data := data_ |} d
      end
  end.
Proof. reflexivity. Qed.

(** X6.  A mount object with [enabled: false] is closed to everything: a
    request on an address of that mount is rejected whatever the operation,
    reading by GET included, and the two stream creators throw a
    [TypeError] instead of returning a promise. *)
Theorem disabled_mount_denies_all inst VFS http d q o :
  mountpoints inst !! JsString.String_ (JsString.part 1 (JsString.split_protocol q))
    = Some (MountObject o) ->
  enabled o = Some false ->
  (if String.eqb (method http) "GET"
   then Returned (Some (JsString.strip_get (endpoint http)))
   else argumentMap (endpoint http) (data http) false) = Returned (Some q) ->
  request inst VFS http d = (d, Rejected "Operation denied!") /\
  createReadStream inst VFS http q
    = Thrown "TypeError: Cannot read property 'createReadStream' of undefined" /\
  createWriteStream inst VFS http q
    = Thrown "TypeError: Cannot read property 'createWriteStream' of undefined".
Proof.
  intros Hmount Hoff Hq.
  assert (Hread : findTransport inst VFS "read" (path_args q) = Returned None).
  { apply (findTransport_denied inst VFS "read" (path_args q) q o);
      [reflexivity | exact Hmount | left; exact Hoff]. }
  split; [| split].
  - rewrite request_unfold. cbv zeta.
    destruct (String.eqb (method http) "GET").
    + injection Hq as Hq. rewrite Hq, Hread. reflexivity.
    + rewrite (findTransport_denied inst VFS _ _ q o Hq Hmount (or_introl Hoff)).
      reflexivity.
  - unfold createReadStream. rewrite Hread. reflexivity.
  - unfold createWriteStream. rewrite Hread. reflexivity.
Qed.

(** What [findTransport] returns when nothing is denied. *)
Lemma findTransport_open inst VFS method_ args q :
  argumentMap method_ args false = Returned (Some q) ->
  match mountpoints inst !! JsString.String_ (JsString.part 1 (JsString.split_protocol q)) with
  | Some (MountObject o) =>
      enabled o <> Some false /\
      (ro o <> Some true \/ indexOf writeableMap (Some method_) = (-1)%Z)
  | _ => True
  end ->
  findTransport inst VFS method_ args =
    Returned (Some
      {| f_parsed :=
           {| p_query := q;
              p_protocol := JsString.part 1 (JsString.split_protocol q);
              p_path := JsString.replace_leading_slash "/"
                          (JsString.String_ (JsString.part 2 (JsString.split_protocol q))) |};
         f_transport :=
           List.find
             (fun module =>
                String.eqb (name module)
                  match mountpoints inst
                        !! JsString.String_ (JsString.part 1 (JsString.split_protocol q)) with
                  | Some (MountObject o) => default "__default__" (mount_transport o)
                  | _ => "__default__"
                  end) VFS |}).
Proof.
  intros Hq Hopen. unfold findTransport. rewrite Hq. cbn [p_protocol].
  destruct (mountpoints inst !! _) as [[t | o] |]; [reflexivity | | reflexivity].
  destruct Hopen as [Hen Hro].
  rewrite (bool_decide_eq_false_2 _ Hen). cbn [orb].
  destruct Hro as [Hro | Hw].
  - rewrite (bool_decide_eq_false_2 _ Hro). reflexivity.
  - rewrite Hw. cbn. rewrite andb_false_r. reflexivity.
Qed.

(** X7.  The dispatcher reads the flags of the mount named by the protocol
    only; it does not fall back to the wildcard mount as the resolver does.
    An address whose protocol has no mount of its own is never denied, also
    when the wildcard mount is read-only or disabled: a writing request goes
    to the default transport.  The resolver then places the address under
    the destination of the wildcard mount, unless the protocol is a name
    every object inherits: for such a protocol the wildcard is not asked
    and there is no real path. *)
Theorem wildcard_mount_flags_ignored inst VFS http d q o found t :
  method http <> "GET" ->
  argumentMap (endpoint http) (data http) false = Returned (Some q) ->
  mountpoints inst !! JsString.String_ (JsString.part 1 (JsString.split_protocol q)) = None ->
  mountpoints inst !! "*" = Some (MountObject o) ->
  destination o = Some found ->
  List.find (fun module => String.eqb (name module) "__default__") VFS = Some t ->
  request inst VFS http d
  = transport_request t inst http
      {| query := q; req_method := endpoint http; req_data := data http |} d /\
  exists resolved,
    resolveRequestPath inst http (Some q) = Returned resolved /\
    (~ In (JsString.String_ (JsString.part 1 (JsString.split_protocol q)))
          Object_prototype_members ->
     r_real resolved
     = Some (Path.join
               [substitute (rmap inst http (JsString.part 1 (JsString.split_protocol q))) found;
                r_path resolved])) /\
    (In (JsString.String_ (JsString.part 1 (JsString.split_protocol q)))
        Object_prototype_members ->
     r_real resolved = None).
Proof.
  intros Hget Hq Hnone Hstar Hdest Hfind. split.
  - rewrite request_unfold. cbv zeta.
    apply String.eqb_neq in Hget. rewrite Hget.
    rewrite (findTransport_open inst VFS _ _ q Hq); [| rewrite Hnone; exact I].
    cbn [f_transport f_parsed p_query]. rewrite Hnone, Hfind. reflexivity.
  - eexists. split; [reflexivity |].
    cbn [r_real r_path]. unfold lookup_mount. rewrite Hnone. split.
    + intros Hown. rewrite (inherited_false _ Hown), Hstar.
      cbn [destination_of]. rewrite Hdest. reflexivity.
    + intros Hin. rewrite (inherited_true _ Hin). reflexivity.
Qed.

(** X8.  When the mount is open for the operation but no registered module
    carries the name of its transport, the request is rejected with the
    address in the message and the disk is not touched. *)
Theorem request_without_module inst VFS http d q o :
  method http <> "GET" ->
  argumentMap (endpoint http) (data http) false = Returned (Some q) ->
  mountpoints inst !! JsString.String_ (JsString.part 1 (JsString.split_protocol q))
    = Some (MountObject o) ->
  enabled o <> Some false ->
  ro o <> Some true \/ indexOf writeableMap (Some (endpoint http)) = (-1)%Z ->
  List.find (fun module => String.eqb (name module)
                             (default "__default__" (mount_transport o))) VFS = None ->
  request inst VFS http d = (d, Rejected ("Cannot find VFS module for: " +:+ q)).
Proof.
  intros Hget Hq Hmount Hen Hro Hfind.
  rewrite request_unfold. cbv zeta.
  apply String.eqb_neq in Hget. rewrite Hget.
  rewrite (findTransport_open inst VFS _ _ q Hq); [| rewrite Hmount; split; assumption].
  cbn [f_transport f_parsed p_query]. rewrite Hmount, Hfind. reflexivity.
Qed.

End Mounts.

(** ** More of the filesystem transport *)

Section Operations.
Context `{Runtime}.

(** X9.  [mkdir] on a path where something exists rejects and leaves the
    disk as it was.  On a free path it calls [fs.mkdir]; when that fails the
    call is never answered, because the message is built from a name that
    is not bound. *)
Theorem VFS_mkdir_spec inst http args d resolved :
  resolveRequestPath inst http (a_path args) = Returned resolved ->
  (fs_exists d (r_real resolved) = true ->
   VFS_mkdir inst http args d = (d, Rejected "File or directory already exist.")) /\
  (fs_exists d (r_real resolved) = false ->
   (forall d1, fs_mkdir d (r_real resolved) = (d1, None) ->
      VFS_mkdir inst http args d = (d1, Resolved VTrue)) /\
   (forall d1 err, fs_mkdir d (r_real resolved) = (d1, Some err) ->
      VFS_mkdir inst http args d = (d1, Uncaught "ReferenceError: error is not defined"))).
Proof.
  intros Hres. unfold VFS_mkdir, with_resolved. rewrite Hres. split.
  - intros He. rewrite (existsWrapper_found _ _ _ _ _ He). reflexivity.
  - intros He. rewrite (existsWrapper_missing _ _ _ _ _ He).
    split; intros; match goal with Hm : fs_mkdir _ _ = _ |- _ => rewrite Hm end;
      reflexivity.
Qed.

(** X10.  [copy] never overwrites: without a source it rejects, with an
    existing destination it rejects, both times leaving the disk as it was.
    When the directory of the destination is not writable the call is never
    answered, because the code calls a function that is not bound.
    Otherwise the outcome is that of [fs.copy]. *)
Theorem VFS_copy_spec inst http args d sresolved dresolved dest :
  resolveRequestPath inst http (a_src args) = Returned sresolved ->
  resolveRequestPath inst http (a_dest args) = Returned dresolved ->
  r_real dresolved = Some dest ->
  (fs_exists d (r_real sresolved) = false ->
   VFS_copy inst http args d = (d, Rejected "No such file or directory")) /\
  (fs_exists d (r_real sresolved) = true -> fs_exists d (Some dest) = true ->
   VFS_copy inst http args d = (d, Rejected "File or directory already exist.")) /\
  (fs_exists d (r_real sresolved) = true -> fs_exists d (Some dest) = false ->
   VFS_copy inst http args d =
     match fs_access d (Some (path_dirname dest)) W_OK with
     | Some _ => (d, Uncaught "ReferenceError: callback is not defined")
     | None =>
         match fs_copy d (r_real sresolved) (Some dest) with
         | (d1, Some error) => (d1, Rejected ("Error copying: " +:+ error))
         | (d1, None) => (d1, Resolved VTrue)
         end
     end).
Proof.
  intros Hs Hd Hdest. unfold VFS_copy, with_resolved. rewrite Hs, Hd, Hdest.
  split; [| split].
  - intros He. rewrite (existsWrapper_missing _ _ _ _ _ He). reflexivity.
  - intros He Hde. rewrite (existsWrapper_found _ _ _ _ _ He).
    cbn iota. rewrite (existsWrapper_found _ _ _ _ _ Hde). reflexivity.
  - intros He Hde. rewrite (existsWrapper_found _ _ _ _ _ He).
    cbn iota. rewrite (existsWrapper_missing _ _ _ _ _ Hde).
    cbn [dirname]. destruct (fs_access d _ W_OK); [reflexivity |].
    destruct (fs_copy d _ _) as [d1 [e |]]; reflexivity.
Qed.

(** X11.  [move] does not look whether the destination exists.  It rejects
    when the source cannot be read, and when the directory of the
    destination cannot be written, leaving the disk as it was; otherwise
    the outcome is that of [fs.rename], also onto a destination that is
    there. *)
Theorem VFS_move_spec inst http args d sresolved dresolved dest :
  resolveRequestPath inst http (a_src args) = Returned sresolved ->
  resolveRequestPath inst http (a_dest args) = Returned dresolved ->
  r_real dresolved = Some dest ->
  (fs_access d (r_real sresolved) R_OK <> None ->
   VFS_move inst http args d = (d, Rejected "Cannot read source")) /\
  (fs_access d (r_real sresolved) R_OK = None ->
   fs_access d (Some (path_dirname dest)) W_OK <> None ->
   VFS_move inst http args d = (d, Rejected "Cannot write to destination")) /\
  (fs_access d (r_real sresolved) R_OK = None ->
   fs_access d (Some (path_dirname dest)) W_OK = None ->
   VFS_move inst http args d =
     match fs_rename d (r_real sresolved) (Some dest) with
     | (d1, Some error) => (d1, Rejected ("Error renaming/moving: " +:+ error))
     | (d1, None) => (d1, Resolved VTrue)
     end).
Proof.
  intros Hs Hd Hdest. unfold VFS_move, with_resolved. rewrite Hs, Hd, Hdest.
  cbn [dirname]. split; [| split].
  - intros Hr. destruct (fs_access d (r_real sresolved) R_OK); [reflexivity | contradiction].
  - intros Hr Hw. rewrite Hr.
    destruct (fs_access d _ W_OK); [reflexivity | contradiction].
  - intros Hr Hw. rewrite Hr, Hw.
    destruct (fs_rename d _ _) as [d1 [e |]]; reflexivity.
Qed.

(** X12.  [delete] on a path where nothing exists rejects and leaves the
    disk as it was; on an existing target the outcome is that of
    [fs.remove]. *)
Theorem VFS_delete_spec inst http args d resolved :
  resolveRequestPath inst http (a_path args) = Returned resolved ->
  (fs_exists d (r_real resolved) = false ->
   VFS_delete inst http args d = (d, Rejected "No such file or directory")) /\
  (fs_exists d (r_real resolved) = true ->
   VFS_delete inst http args d =
     match fs_remove d (r_real resolved) with
     | (d1, Some err) => (d1, Rejected ("Error deleting: " +:+ err))
     | (d1, None) => (d1, Resolved VTrue)
     end).
Proof.
  intros Hres. rewrite VFS_delete_unguarded. unfold with_resolved. rewrite Hres. split.
  - intros He. rewrite (existsWrapper_missing _ _ _ _ _ He). reflexivity.
  - intros He. rewrite (existsWrapper_found _ _ _ _ _ He).
    destruct (fs_remove d _) as [d1 [e |]]; reflexivity.
Qed.

(** X13.  [read] in its default mode hands a reader on the real path to the
    responder without looking at the disk: a file that does not exist is
    not noticed.  With [options.stream = false] the file is read, and the
    call resolves its bytes or rejects with the error of [readFile].  For
    an address without a real path the reader and [readFile] throw while
    [read] is running, and the call ends with that exception. *)
Theorem VFS_read_raw_modes inst http args d resolved :
  resolveRequestPath inst http (a_path args) = Returned resolved ->
  a_raw args <> Some false ->
  (forall real, r_real resolved = Some real ->
     (a_stream args <> Some false ->
      VFS_read inst http args d
      = (d, Responded (RespondStream (r_query resolved) (Reader (Some real))))) /\
     (a_stream args = Some false ->
      VFS_read inst http args d
      = (d, match fs_readFile d (Some real) with
            | inl e => Rejected e
            | inr bytes => Resolved (VBuffer bytes)
            end))) /\
  (r_real resolved = None ->
   exists e, VFS_read inst http args d = (d, Thrown e)).
Proof.
  intros Hres Hraw. unfold VFS_read, with_resolved. rewrite Hres.
  rewrite (bool_decide_eq_false_2 _ Hraw). cbn [negb]. split.
  - intros real Hreal. rewrite Hreal. cbn [fstream_Reader readFile_or_throw]. split.
    + intros Hs. rewrite (bool_decide_eq_false_2 _ Hs). reflexivity.
    + intros Hs. rewrite (bool_decide_eq_true_2 _ Hs). cbn [negb].
      destruct (fs_readFile d (Some real)); reflexivity.
  - intros Hreal. rewrite Hreal. cbn [fstream_Reader readFile_or_throw].
    destruct (negb (bool_decide (a_stream args = Some false))); eexists; reflexivity.
Qed.

(** X14.  [fileinfo] rejects for a target that does not exist.  For an
    existing target whose MIME type is known it always resolves the File
    Info record with an [exif] member: the text [No EXIF data available]
    when the type is not an image; for an image the text of the EXIF
    reader, that same text when the reader gives nothing, and the error of
    the reader when it fails.  When the MIME table has no entry the call is
    never answered. *)
Theorem VFS_fileinfo_spec inst http args d resolved real :
  resolveRequestPath inst http (a_path args) = Returned resolved ->
  r_real resolved = Some real ->
  let info := createFileIter inst (r_query resolved) (Some real) (path_basename real) None d in
  (fs_exists d (Some real) = false ->
   VFS_fileinfo inst http args d = (d, Rejected "No such file or directory")) /\
  (fs_exists d (Some real) = true -> getMime inst real = None ->
   VFS_fileinfo inst http args d
   = (d, Uncaught "TypeError: Cannot read property 'match' of undefined")) /\
  (forall mime, fs_exists d (Some real) = true -> getMime inst real = Some mime ->
   String.prefix "image" mime = false ->
   VFS_fileinfo inst http args d = (d, Resolved (VInfo info "No EXIF data available"))) /\
  (forall mime, fs_exists d (Some real) = true -> getMime inst real = Some mime ->
   String.prefix "image" mime = true ->
   VFS_fileinfo inst http args d
   = (d, Resolved (VInfo info
                     match exif_image d (Some real) with
                     | inr "" => "No EXIF data available"
                     | inr result => result
                     | inl error => error
                     end))).
Proof.
  intros Hres Hreal info. unfold VFS_fileinfo, with_resolved. rewrite Hres, Hreal.
  split; [| split; [| split]].
  - intros He. rewrite (existsWrapper_missing _ _ _ _ _ He). reflexivity.
  - intros He Hm. rewrite (existsWrapper_found _ _ _ _ _ He). cbn iota.
    rewrite Hm. reflexivity.
  - intros mime He Hm Himg. rewrite (existsWrapper_found _ _ _ _ _ He). cbn iota.
    rewrite Hm, Himg. reflexivity.
  - intros mime He Hm Himg. rewrite (existsWrapper_found _ _ _ _ _ He). cbn iota.
    rewrite Hm, Himg. destruct (exif_image d (Some real)) as [e | [| c r]]; reflexivity.
Qed.

Lemma default_filter_dots (iter : string) :
  default_filter iter = negb (String.eqb iter ".") && negb (String.eqb iter "..").
Proof.
  unfold default_filter.
  destruct (bool_decide_reflect (indexOf ["."; ".."] (Some iter) = (-1)%Z)) as [Hi | Hi].
  - apply not_dot_entry in Hi as [Hdot Hdots].
    apply String.eqb_neq in Hdot, Hdots. rewrite Hdot, Hdots. reflexivity.
  - destruct (String.eqb_spec iter ".") as [-> | Hdot]; [reflexivity |].
    destruct (String.eqb_spec iter "..") as [-> | Hdots]; [reflexivity |].
    exfalso. apply Hi, not_dot_entry. split; assumption.
Qed.

(** X15.  [scandir] on a directory whose listing is [names] resolves the
    File Info records of the names other than [.] and [..], one for every
    such name of the listing and in the order of the listing; the path of a
    record is the address, a slash, the name. *)
Theorem VFS_scandir_spec inst http args d resolved real names :
  resolveRequestPath inst http (a_path args) = Returned resolved ->
  r_real resolved = Some real ->
  fs_readdir d (Some real) = inr names ->
  VFS_scandir inst http args d =
    (d, Resolved (VList (map (fun iter =>
                                createFileIter inst (r_query resolved)
                                  (Some (Path.join [real; iter])) iter None d)
                             (List.filter
                                (fun iter => negb (String.eqb iter ".") &&
                                             negb (String.eqb iter ".."))
                                names)))) /\
  (forall iter real_,
     JsString.starts_with_char "/" iter = false ->
     filename (createFileIter inst (r_query resolved) real_ iter None d) = iter /\
     fi_path (createFileIter inst (r_query resolved) real_ iter None d)
     = r_query resolved +:+ "/" +:+ iter).
Proof.
  intros Hres Hreal Hdir. split.
  - unfold VFS_scandir, with_resolved. rewrite Hres.
    unfold readDir. rewrite Hreal, Hdir. cbn [from_option settle].
    rewrite (List.filter_ext _ _ default_filter_dots). reflexivity.
  - intros iter real_ Hslash. split; [reflexivity |].
    cbn [createFileIter fi_path]. rewrite Hslash. reflexivity.
Qed.

(** X16.  A method that is none of the twelve of the transport, and not
    the name of a function every object inherits, is rejected by name, and
    the disk is not touched. *)
Theorem filesystem_request_unknown inst http req d :
  ~ In (req_method req)
      ["exists"; "read"; "upload"; "write"; "delete"; "copy"; "move"; "mkdir";
       "find"; "fileinfo"; "scandir"; "freeSpace"] ->
  ~ In (req_method req) Object_prototype_functions ->
  filesystem_request inst http req d
  = (d, Rejected ("No such VFS method: " +:+ req_method req)).
Proof.
  intros Hno Hown. unfold filesystem_request, VFS_methods. cbn [member].
  repeat match goal with
  | |- context [String.eqb ?k (req_method req)] =>
      destruct (String.eqb_spec k (req_method req)) as [Heq | _];
        [exfalso; apply Hno; rewrite <- Heq; cbn; tauto |]
  end.
  unfold inherited_method.
  rewrite (bool_decide_eq_true_2 _ (indexOf_absent _ _ Hown)).
  destruct (String.eqb_spec (req_method req) "__defineGetter__") as [Heq | _];
    [exfalso; apply Hown; rewrite Heq; cbn; tauto |].
  destruct (String.eqb_spec (req_method req) "__defineSetter__") as [Heq | _];
    [exfalso; apply Hown; rewrite Heq; cbn; tauto |].
  reflexivity.
Qed.

End Operations.

(** ** Writing and walking *)

Lemma includes_char (c : ascii) (s : string) :
  JsString.includes (String c "") s = has_char c s.
Proof.
  induction s as [| d s IH]; [reflexivity |].
  rewrite includes_cons, IH. cbn [has_char String.prefix].
  unfold JsString.is_char.
  destruct (ascii_dec c d) as [<- | Hne].
  - rewrite Ascii.eqb_refl. destruct s; reflexivity.
  - apply Ascii.eqb_neq in Hne. rewrite Hne. reflexivity.
Qed.

Lemma after_first_char_payload (c : ascii) (header payload : string) :
  has_char c header = false ->
  JsString.after_first_char c (header +:+ String c payload) = payload.
Proof.
  induction header as [| d header IH]; intros Hno.
  - change ("" +:+ String c payload) with (String c payload).
    cbn [JsString.after_first_char]. unfold JsString.is_char.
    rewrite Ascii.eqb_refl. reflexivity.
  - cbn [has_char] in Hno. apply orb_false_iff in Hno as [Hd Hh].
    rewrite append_cons. cbn [JsString.after_first_char]. rewrite Hd.
    rewrite includes_char, has_char_app. cbn [has_char].
    unfold JsString.is_char at 1. rewrite Ascii.eqb_refl, orb_true_r.
    apply IH, Hh.
Qed.

Lemma after_first_char_whole (c : ascii) (s : string) :
  has_char c s = false -> JsString.after_first_char c s = s.
Proof.
  destruct s as [| d s]; [reflexivity |].
  cbn [has_char]. intros Hno. apply orb_false_iff in Hno as [Hd Hs].
  cbn [JsString.after_first_char]. rewrite Hd, includes_char, Hs. reflexivity.
Qed.

Section Writing.
Context `{Runtime}.

(** X17.  [write] in raw mode hands the data, or the empty text when there
    is none, to [writeFile] with the given encoding, or with [binary] when
    none or the empty text is given.  In the other mode the data is a data
    URL: what is written is the base64 decoding of what follows the first
    comma, and all of the data when it has no comma.  A failure of
    [writeFile] is the only rejection. *)
Theorem VFS_write_spec inst http args d resolved real header payload :
  resolveRequestPath inst http (a_path args) = Returned resolved ->
  r_real resolved = Some real ->
  has_char "," header = false ->
  let finish (r : disk * option string) :=
    match r with
    | (d1, Some error) => (d1, Rejected ("Error writing file: " +:+ error))
    | (d1, None) => (d1, Resolved VTrue)
    end in
  (a_raw args = Some true ->
   VFS_write inst http args d
   = finish (fs_writeFile d (Some real) (default "" (a_data args))
               match a_rawtype args with
               | Some "" | None => "binary"
               | Some encoding => encoding
               end)) /\
  (a_raw args <> Some true -> a_data args = Some (header +:+ "," +:+ payload) ->
   VFS_write inst http args d
   = finish (fs_writeFile d (Some real) (base64_decode (unescape payload)) "utf8")) /\
  (a_raw args <> Some true -> a_data args = Some header ->
   VFS_write inst http args d
   = finish (fs_writeFile d (Some real) (base64_decode (unescape header)) "utf8")).
Proof.
  intros Hres Hreal Hcomma finish. unfold VFS_write, with_resolved. rewrite Hres, Hreal.
  split; [| split].
  - intros Hraw. rewrite (bool_decide_eq_true_2 _ Hraw).
    assert (Henc : default "binary" (truthy (a_rawtype args))
                   = match a_rawtype args with
                     | Some "" | None => "binary"
                     | Some encoding => encoding
                     end) by (destruct (a_rawtype args) as [[| c e] |]; reflexivity).
    rewrite <- Henc. cbn [from_option id].
    destruct (fs_writeFile d _ _ _) as [d1 [e |]]; reflexivity.
  - intros Hraw Hdata. rewrite (bool_decide_eq_false_2 _ Hraw), Hdata. cbn [from_option id].
    change ("," +:+ payload) with (String "," payload).
    rewrite (after_first_char_payload _ _ _ Hcomma).
    destruct (fs_writeFile d _ _ _) as [d1 [e |]]; reflexivity.
  - intros Hraw Hdata. rewrite (bool_decide_eq_false_2 _ Hraw), Hdata. cbn [from_option id].
    rewrite (after_first_char_whole _ _ Hcomma).
    destruct (fs_writeFile d _ _ _) as [d1 [e |]]; reflexivity.
Qed.

Lemma find_walk_entries inst path real query_ limit entries list_ d e :
  In e (find_walk inst path real query_ limit entries list_ d) ->
  In e list_ \/
  exists w, In w entries /\
    e = createFileIter inst path real (we_path w) (Some (we_stat w)) d /\
    JsString.includes query_ (JsString.toLowerCase (path_basename (we_path w))) = true.
Proof.
  revert list_. induction entries as [| w entries IH]; intros list_ Hin.
  - left. exact Hin.
  - cbn [find_walk] in Hin.
    destruct (limit_reached limit list_); [left; exact Hin |].
    destruct (JsString.includes query_ _) eqn:Hmatch.
    + apply IH in Hin as [Hin | (w' & Hw' & He & Hm)].
      * apply in_app_or in Hin as [Hin | [<- | []]]; [left; exact Hin |].
        right. exists w. split; [left; reflexivity | split; [reflexivity | exact Hmatch]].
      * right. exists w'. split; [right; exact Hw' | split; assumption].
    + apply IH in Hin as [Hin | (w' & Hw' & He & Hm)]; [left; exact Hin |].
      right. exists w'. split; [right; exact Hw' | split; assumption].
Qed.

Lemma find_walk_unlimited inst path real query_ limit entries list_ d :
  limit = None \/ limit = Some 0 ->
  find_walk inst path real query_ limit entries list_ d
  = list_ ++ map (fun w => createFileIter inst path real (we_path w) (Some (we_stat w)) d)
               (List.filter
                  (fun w => JsString.includes query_
                              (JsString.toLowerCase (path_basename (we_path w)))) entries).
Proof.
  intros Hlimit. revert list_. induction entries as [| w entries IH]; intros list_.
  - cbn. rewrite app_nil_r. reflexivity.
  - cbn [find_walk List.filter].
    assert (Hnot : limit_reached limit list_ = false)
      by (destruct Hlimit as [-> | ->]; reflexivity).
    rewrite Hnot. destruct (JsString.includes query_ _).
    + rewrite IH. cbn [map]. rewrite <- app_assoc. reflexivity.
    + apply IH.
Qed.

(** X18.  [find] with [recursive]: every record it resolves belongs to an
    entry of the walk whose base name, in lower case, contains the query in
    lower case; without a limit it resolves the records of all such
    entries, in the order of the walk.  When [findit] cannot be loaded the
    call rejects. *)
Theorem VFS_find_recursive inst http args d resolved :
  resolveRequestPath inst http (a_path args) = Returned resolved ->
  a_recursive args = Some true ->
  let query_ := JsString.toLowerCase (default "" (a_query args)) in
  let record w :=
    createFileIter inst (r_query resolved) (r_real resolved) (we_path w) (Some (we_stat w)) d in
  let matches w :=
    JsString.includes query_ (JsString.toLowerCase (path_basename (we_path w))) in
  (forall e, findit d (r_real resolved) = Raised e ->
     VFS_find inst http args d
     = (d, Rejected ("Failed to load findit node library: " +:+ e))) /\
  (forall entries, findit d (r_real resolved) = Returned entries ->
     exists found,
       VFS_find inst http args d = (d, Resolved (VList found)) /\
       (forall e, In e found -> exists w, In w entries /\ e = record w /\ matches w = true) /\
       (a_limit args = None \/ a_limit args = Some 0 ->
        found = map record (List.filter matches entries))).
Proof.
  intros Hres Hrec query_ record matches.
  unfold VFS_find, with_resolved. rewrite Hres.
  rewrite (bool_decide_eq_true_2 _ Hrec). cbn [negb]. split.
  - intros e Hfind. rewrite Hfind. reflexivity.
  - intros entries Hfind. rewrite Hfind. eexists. split; [reflexivity |]. split.
    + intros e Hin. apply find_walk_entries in Hin as [[] | Hin]. exact Hin.
    + intros Hlimit. rewrite (find_walk_unlimited _ _ _ _ _ _ _ _ Hlimit). reflexivity.
Qed.

End Writing.

(** ** Installing and removing packages *)

Section Installing.
Context `{Runtime}.
Variable unzip_into : (string -> outcome stream) -> stream -> disk -> disk * option string.

(** The resolver reads nothing of the request but the user name of the
    session. *)
Lemma resolveRequestPath_session inst h1 h2 q :
  username h1 = username h2 ->
  resolveRequestPath inst h1 q = resolveRequestPath inst h2 q.
Proof.
  intros Hu. unfold resolveRequestPath, rmap, session_username. rewrite Hu. reflexivity.
Qed.

Lemma truthy_text (s : string) : s <> "" -> truthy (Some s) = Some s.
Proof. destruct s; [contradiction | reflexivity]. Qed.

Lemma _request_denied inst VFS http method_ args d q o :
  argumentMap method_ args false = Returned (Some q) ->
  mountpoints inst !! JsString.String_ (JsString.part 1 (JsString.split_protocol q))
    = Some (MountObject o) ->
  enabled o = Some false \/
    (ro o = Some true /\ indexOf writeableMap (Some method_) <> (-1)%Z) ->
  _request inst VFS http method_ args d = (d, Broken "Operation denied!").
Proof.
  intros Hq Hm Hgate. unfold _request.
  rewrite (request_denied inst VFS _ d q o); [reflexivity | discriminate | exact Hq | exact Hm | exact Hgate].
Qed.

(** An internal request that the dispatcher lets through goes to the
    transport of the mount. *)
Lemma _request_routed inst VFS http method_ args d q t :
  argumentMap method_ args false = Returned (Some q) ->
  match mountpoints inst !! JsString.String_ (JsString.part 1 (JsString.split_protocol q)) with
  | Some (MountObject o) =>
      enabled o <> Some false /\
      (ro o <> Some true \/ indexOf writeableMap (Some method_) = (-1)%Z)
  | _ => True
  end ->
  List.find
    (fun module =>
       String.eqb (name module)
         match mountpoints inst !! JsString.String_ (JsString.part 1 (JsString.split_protocol q)) with
         | Some (MountObject o) => default "__default__" (mount_transport o)
         | _ => "__default__"
         end) VFS = Some t ->
  _request inst VFS http method_ args d =
    match transport_request t inst
            {| method := "POST"; endpoint := method_; data := args;
               files_upload := files_upload http; username := username http |}
            {| query := q; req_method := method_; req_data := args |} d with
    | (d', Resolved v) => (d', Fulfilled v)
    | (d', Rejected e) => (d', Broken e)
    | (d', Responded r) => (d', Fulfilled (nullResponder r))
    | (d', Thrown e) => (d', Broken e)
    | (d', Uncaught e) => (d', Pending e)
    | (d', Unanswered) => (d', Pending "")
    end.
Proof.
  intros Hq Hopen Hfind. unfold _request. rewrite request_unfold. cbv zeta.
  cbn [method endpoint data String.eqb Ascii.eqb Bool.eqb].
  rewrite (findTransport_open inst VFS _ _ q Hq Hopen).
  cbn [f_transport f_parsed p_query]. rewrite Hfind. reflexivity.
Qed.

(** X19.  Installing into a mount object flagged [ro: true]: once [exists]
    has answered that the destination is free, [mkdir] is turned down by
    the dispatcher, the clean-up [delete] is turned down as well, and the
    installation rejects with the message of the dispatcher.  The archive
    is never opened and the disk stays as [exists] left it. *)
Theorem install_into_readonly_mount inst VFS http args d zip_ dest paths_ o d1 v :
  zip args = Some zip_ -> zip_ <> "" ->
  install_dest args = Some dest -> dest <> "" ->
  install_paths args = Some paths_ ->
  mountpoints inst !! JsString.String_ (JsString.part 1 (JsString.split_protocol dest))
    = Some (MountObject o) ->
  ro o = Some true ->
  _request inst VFS http "exists" (path_args dest) d = (d1, Fulfilled v) ->
  install unzip_into inst VFS http args d = (d1, Broken "Operation denied!").
Proof.
  intros Hzip Hz Hdest Hd Hpaths Hmount Hro Hexists.
  unfold install. rewrite Hzip, Hdest, Hpaths, (truthy_text _ Hz), (truthy_text _ Hd).
  rewrite Hexists.
  rewrite (_request_denied inst VFS http "mkdir" (path_args dest) d1 dest o eq_refl Hmount);
    [| right; split; [exact Hro | discriminate]].
  unfold _onerror.
  rewrite (_request_denied inst VFS http "delete" (path_args dest) d1 dest o eq_refl Hmount);
    [| right; split; [exact Hro | discriminate]].
  reflexivity.
Qed.

(** X20.  Installing over a destination that exists, on a mount served by
    the filesystem transport: [exists] rejects, the installation rejects
    with its message, and nothing on the disk is touched; in particular
    the existing destination is not deleted. *)
Theorem install_over_existing_destination inst VFS http args d zip_ dest paths_ resolved :
  zip args = Some zip_ -> zip_ <> "" ->
  install_dest args = Some dest -> dest <> "" ->
  install_paths args = Some paths_ ->
  (forall o,
     mountpoints inst !! JsString.String_ (JsString.part 1 (JsString.split_protocol dest))
       = Some (MountObject o) ->
     enabled o <> Some false) ->
  List.find
    (fun module =>
       String.eqb (name module)
         match mountpoints inst !! JsString.String_ (JsString.part 1 (JsString.split_protocol dest)) with
         | Some (MountObject o) => default "__default__" (mount_transport o)
         | _ => "__default__"
         end) VFS = Some filesystem ->
  resolveRequestPath inst http (Some dest) = Returned resolved ->
  fs_exists d (r_real resolved) = true ->
  install unzip_into inst VFS http args d = (d, Broken "File or directory already exist.").
Proof.
  intros Hzip Hz Hdest Hd Hpaths Hopen Hfind Hres Hexists.
  unfold install. rewrite Hzip, Hdest, Hpaths, (truthy_text _ Hz), (truthy_text _ Hd).
  rewrite (_request_routed inst VFS http "exists" (path_args dest) d dest filesystem eq_refl);
    [| | exact Hfind].
  - cbn [transport_request filesystem].
    change (filesystem_request inst ?h {| query := ?q; req_method := "exists"; req_data := ?a |})
      with (VFS_exists inst h a).
    unfold VFS_exists, with_resolved. cbn [a_path path_args].
    rewrite (resolveRequestPath_session inst _ http) by reflexivity.
    rewrite Hres, (existsWrapper_found _ _ _ _ _ Hexists). reflexivity.
  - destruct (mountpoints inst !! _) as [[tpl | o] |] eqn:Hm; [exact I | | exact I].
    split; [apply (Hopen o eq_refl) | right; reflexivity].
Qed.

(** X21.  [install] asks for a zip path, a destination and search paths,
    [uninstall] for a path, and the empty text counts as missing: the call
    then rejects at once, before any request is made.  [uninstall] of a
    path on a mount object that is disabled or read-only is turned down by
    the dispatcher, and the disk stays as it was. *)
Theorem package_actions_refused inst VFS http args path d :
  (zip args = None \/ zip args = Some "" \/
   install_dest args = None \/ install_dest args = Some "" \/
   install_paths args = None ->
   install unzip_into inst VFS http args d = (d, Broken "Invalid install action")) /\
  (path = None \/ path = Some "" ->
   uninstall inst VFS http path d = (d, Broken "Invalid uninstall action")) /\
  (forall p o, path = Some p -> p <> "" ->
   mountpoints inst !! JsString.String_ (JsString.part 1 (JsString.split_protocol p))
     = Some (MountObject o) ->
   enabled o = Some false \/ ro o = Some true ->
   uninstall inst VFS http path d = (d, Broken "Operation denied!")).
Proof.
  split; [| split].
  - intros Hbad. unfold install.
    destruct Hbad as [Hb | [Hb | [Hb | [Hb | Hb]]]]; rewrite Hb; cbn [truthy];
      try reflexivity;
      destruct (truthy (zip args)); try reflexivity;
      destruct (truthy (install_dest args)); reflexivity.
  - intros [-> | ->]; reflexivity.
  - intros p o -> Hp Hmount Hgate. unfold uninstall. rewrite (truthy_text _ Hp).
    apply (_request_denied inst VFS http "delete" (path_args p) d p o eq_refl Hmount).
    destruct Hgate as [Hoff | Hro]; [left; exact Hoff | right; split; [exact Hro | discriminate]].
Qed.

End Installing.

(** ** Listing packages *)

Section Listing.
Context `{Runtime}.

Lemma user_manifests_skip_lookup (Vs : list (gmap string (gmap string json))) summed k :
  (forall m, In m Vs -> m !! k = None) ->
  fold_left (fun summed meta => add_user_manifest meta summed) Vs summed !! k = summed !! k.
Proof.
  revert summed. induction Vs as [| meta Vs IH]; intros summed Hno; [reflexivity |].
  cbn [fold_left]. rewrite IH by (intros m Hm; apply Hno; right; exact Hm).
  rewrite add_user_manifest_lookup, (Hno meta (or_introl eq_refl)).
  destruct (String.eqb k "__proto__"); reflexivity.
Qed.

Lemma user_manifests_no_proto (Us : list (gmap string (gmap string json))) summed :
  fold_left (fun summed meta => add_user_manifest meta summed) Us summed !! "__proto__"
  = summed !! "__proto__".
Proof.
  revert summed. induction Us as [| meta Us IH]; intros summed; [reflexivity |].
  cbn [fold_left]. rewrite IH, add_user_manifest_lookup. reflexivity.
Qed.

(** X22.  The user listing never rejects: a search path whose
    [packages.json] cannot be read is passed over.  Without search paths it
    resolves the empty manifest without reading anything. *)
Theorem getUserMetadata_never_rejects inst VFS http args d :
  (forall e, snd (getUserMetadata inst VFS http args d) <> Broken e) /\
  (forall e, snd (list_packages inst VFS http {| scope := Some "user"; paths := paths args |} d)
             <> Broken e) /\
  (paths args = None \/ paths args = Some [] ->
   getUserMetadata inst VFS http args d = (d, Fulfilled ∅)).
Proof.
  split; [| split].
  - intros e. apply getUserMetadata_iterate_settles.
  - intros e. unfold list_packages. cbn [scope String.eqb Ascii.eqb Bool.eqb].
    apply getUserMetadata_iterate_settles.
  - unfold getUserMetadata. intros [-> | ->]; reflexivity.
Qed.

(** X23.  When a package is named by the manifests of several search
    paths, the entry of the last of them is the one the user listing
    resolves, with the scope [user].  The name [__proto__] is the
    exception: the user listing never has a package of that name. *)
Theorem getUserMetadata_last_path_wins inst VFS http args d d1 U :
  getUserMetadata inst VFS http args d = (d1, Fulfilled U) ->
  (forall Us meta Vs k v,
     user_manifests inst VFS http (default [] (paths args)) d = Us ++ meta :: Vs ->
     k <> "__proto__" ->
     meta !! k = Some v ->
     (forall m, In m Vs -> m !! k = None) ->
     U !! k = Some (set_scope "user" v)) /\
  U !! "__proto__" = None.
Proof.
  intros HU.
  rewrite (getUserMetadata_iterate_fold inst VFS http _ _ _ _ _ HU). split.
  - intros Us meta Vs k v Hsplit Hproto Hk Hlater. rewrite Hsplit.
    rewrite fold_left_app. cbn [fold_left].
    rewrite (user_manifests_skip_lookup _ _ _ Hlater), add_user_manifest_lookup, Hk.
    apply String.eqb_neq in Hproto. rewrite Hproto. reflexivity.
  - rewrite user_manifests_no_proto. apply lookup_empty.
Qed.

(** X24.  How a listing fails.  A scope other than [system] and [user]
    rejects by name.  When the [packages.json] of the server cannot be read,
    the listing of the system scope and the listing without a scope reject
    with the error of [readFile], and no user manifest is read.  When the
    file has no member for the dist, these two are never answered. *)
Theorem list_packages_failures inst VFS http args d :
  let file := fs_readFile d (Some (Path.join [DIRS_server inst; "packages.json"])) in
  let system_or_all := scope args = None \/ scope args = Some "" \/ scope args = Some "system" in
  (forall s, scope args = Some s -> s <> "" -> s <> "system" -> s <> "user" ->
     list_packages inst VFS http args d = (d, Broken "Invalid scope")) /\
  (forall e, file = inl e -> system_or_all ->
     list_packages inst VFS http args d = (d, Broken e)) /\
  (forall text document, file = inr text ->
     JSON_parse_packages text = Some document -> document !! DIST inst = None ->
     system_or_all ->
     list_packages inst VFS http args d
     = (d, Pending "TypeError: Cannot convert undefined or null to object")).
Proof.
  intros file system_or_all. subst file system_or_all. split; [| split].
  - intros s Hs Hempty Hsys Huser. unfold list_packages. rewrite Hs.
    destruct s as [| c s]; [contradiction |].
    apply String.eqb_neq in Hsys, Huser. rewrite Hsys, Huser. reflexivity.
  - intros e Hfile Hscope.
    assert (Hsys : getSystemMetadata inst d = Broken e)
      by (unfold getSystemMetadata; rewrite Hfile; reflexivity).
    unfold list_packages.
    destruct Hscope as [-> | [-> | ->]]; cbn [String.eqb Ascii.eqb Bool.eqb];
      rewrite Hsys; reflexivity.
  - intros text document Hfile Hparse Hdist Hscope.
    assert (Hsys : getSystemMetadata inst d
                   = Pending "TypeError: Cannot convert undefined or null to object")
      by (unfold getSystemMetadata; rewrite Hfile, Hparse, Hdist; reflexivity).
    unfold list_packages.
    destruct Hscope as [-> | [-> | ->]]; cbn [String.eqb Ascii.eqb Bool.eqb];
      rewrite Hsys; reflexivity.
Qed.

End Listing.

(** ** The request layer *)



Lemma prefix_app (t s : string) : String.prefix t (t +:+ s) = true.
Proof. apply prefix_spec. exists s. reflexivity. Qed.

Lemma drop_app (t s : string) : JsString.drop (String.length t) (t +:+ s) = s.
Proof. induction t as [| c t IH]; [reflexivity | exact IH]. Qed.

Lemma strip_get_address (q : string) : JsString.strip_get ("get/" +:+ q) = q.
Proof.
  unfold JsString.strip_get. rewrite prefix_app. exact (drop_app "get/" q).
Qed.

Lemma endpoint_of_FS (rest : string) : endpoint_of ("/FS/" +:+ rest) = rest.
Proof.
  unfold endpoint_of.
  assert (Hp : String.prefix "/FS" ("/FS/" +:+ rest) = true)
    by (apply prefix_spec; exists ("/" +:+ rest); reflexivity).
  rewrite Hp. reflexivity.
Qed.

Lemma isfs_of_FS (rest : string) : isfs_of ("/FS" +:+ rest) = true.
Proof. unfold isfs_of. apply prefix_app. Qed.


Section RequestLayer.
Context `{Runtime}.
Variable inherited : string -> api_method.

Lemma _checkPermission_reply auth http type options r :
  _checkPermission auth http type options = Some r ->
  r = NoReply \/ exists e, r = _rejectResponse e.
Proof.
  unfold _checkPermission.
  assert (Hperm : match checkPermission auth http type options with
                  | Broken e => Some (_rejectResponse e)
                  | Pending _ => Some NoReply
                  | Fulfilled _ => None
                  end = Some r -> r = NoReply \/ exists e, r = _rejectResponse e).
  { destruct (checkPermission auth http type options) as [u | e | e].
    - discriminate.
    - intros [= <-]. right. exists e. reflexivity.
    - intros [= <-]. left. reflexivity. }
  match goal with
  | |- context [if ?b then Fulfilled tt else _] => destruct b
  end; [exact Hperm |].
  destruct (checkSession auth http) as [u | e | e].
  - exact Hperm.
  - intros [= <-]. right. exists e. reflexivity.
  - intros [= <-]. left. reflexivity.
Qed.

Lemma _checkPermission_no_session auth http type options e :
  checkSession auth http = Broken e ->
  (type <> "api" \/ options <> ApiOptions "login") ->
  _checkPermission auth http type options = Some (_rejectResponse e).
Proof.
  intros Hs Hlogin. unfold _checkPermission.
  assert (Hno : String.eqb type "api" &&
                match options with
                | ApiOptions method_ => String.eqb method_ "login"
                | _ => false
                end = false).
  { destruct (String.eqb_spec type "api") as [-> | _]; [| reflexivity].
    destruct options as [m a | m | p]; try reflexivity.
    destruct (String.eqb_spec m "login") as [-> | _]; [| reflexivity].
    destruct Hlogin as [Hl | Hl]; contradiction. }
  rewrite Hno, Hs. reflexivity.
Qed.

(** X25.  A call on the VFS by a request without a session is answered
    with the error of the session check, as JSON; the dispatcher is not
    consulted and the disk is not touched, whatever the operation and
    whatever the permission check would say. *)
Theorem vfs_call_without_session auth inst VFS API c d e :
  initSession auth (c_http c) = Fulfilled tt ->
  c_isfs c = true ->
  checkSession auth (c_http c) = Broken e ->
  instance_request inherited auth inst VFS API c d
  = (d, ReplyJson (ErrorBody e) (Some 500)).
Proof.
  intros Hinit Hfs Hs. unfold instance_request. rewrite Hinit, Hfs.
  assert (Hcall : _vfsCall auth inst VFS c d = (d, ReplyJson (ErrorBody e) (Some 500))).
  { unfold _vfsCall.
    rewrite (_checkPermission_no_session auth _ "vfs" _ e Hs) by (left; discriminate).
    reflexivity. }
  destruct (String.eqb (method (c_http c)) "GET"); exact Hcall.
Qed.

(** X26.  Whatever goes wrong with a call on the VFS, the HTTP status the
    request layer writes for it is 200: a missing session, a refused
    permission, a rejection and an exception are all answered as JSON, and
    the JSON responder writes 200 whatever code it is given.  Only a
    response the transport writes itself can carry another status. *)
Theorem vfs_call_status auth inst VFS API c d d1 r :
  c_isfs c = true ->
  instance_request inherited auth inst VFS API c d = (d1, r) ->
  r = NoReply \/ (exists written, r = ReplyBy written) \/
  ((exists body, r = ReplyJson body (Some 500) \/ r = ReplyJson body None) /\
   writeHead_code d1 r = Some 200).
Proof.
  intros Hfs. unfold instance_request. rewrite Hfs.
  assert (Hcall : _vfsCall auth inst VFS c d = (d1, r) ->
                  r = NoReply \/ (exists written, r = ReplyBy written) \/
                  ((exists body, r = ReplyJson body (Some 500) \/ r = ReplyJson body None) /\
                   writeHead_code d1 r = Some 200)).
  { unfold _vfsCall.
    destruct (_checkPermission auth (c_http c) "vfs" _) as [r' |] eqn:Hperm.
    - intros [= <- <-]. apply _checkPermission_reply in Hperm as [-> | [e ->]].
      + left. reflexivity.
      + right. right. split; [exists (ErrorBody e); left |]; reflexivity.
    - destruct (request inst VFS (c_http c) d) as [d2 o].
      intros [= <- <-]. destruct o as [v | e | w | e | e |]; cbn [respond].
      + right. right. split; [exists (ResultBody v); right |]; reflexivity.
      + right. right. split; [exists (ErrorBody e); left |]; reflexivity.
      + right. left. exists w. reflexivity.
      + right. right. split; [exists (ErrorBody e); left |]; reflexivity.
      + left. reflexivity.
      + left. reflexivity. }
  destruct (initSession auth (c_http c)) as [u | e | e].
  - destruct (String.eqb (method (c_http c)) "GET"); exact Hcall.
  - intros [= <- <-]. left. reflexivity.
  - intros [= <- <-]. left. reflexivity.
Qed.


(** X29.  The checks in front of the API.  A name that is no function of the
    API table is answered [No such API method] without any check.  The
    method [login] is called without a session; any other method of a
    request without a session is answered with the error of the session
    check, and its function is not called. *)
Theorem api_call_checks auth inst VFS API c d :
  initSession auth (c_http c) = Fulfilled tt ->
  method (c_http c) <> "GET" ->
  c_isfs c = false ->
  (API !! endpoint (c_http c) = None ->
   ~ In (endpoint (c_http c)) Object_prototype_functions ->
   instance_request inherited auth inst VFS API c d = (d, ReplyJson NoMethodBody (Some 500))) /\
  (forall f : api_method, API !! endpoint (c_http c) = Some f ->
   endpoint (c_http c) = "login" ->
   checkPermission auth (c_http c) "api" (ApiOptions "login") = Fulfilled tt ->
   instance_request inherited auth inst VFS API c d
   = (fst (f inst (c_http c) d), respond (snd (f inst (c_http c) d)))) /\
  (forall (f : api_method) e, API !! endpoint (c_http c) = Some f ->
   endpoint (c_http c) <> "login" ->
   checkSession auth (c_http c) = Broken e ->
   instance_request inherited auth inst VFS API c d = (d, ReplyJson (ErrorBody e) (Some 500))).
Proof.
  intros Hinit Hget Hfs. apply String.eqb_neq in Hget.
  unfold instance_request. rewrite Hinit, Hget, Hfs. split; [| split].
  - intros Hnone Hown. unfold API_member. rewrite Hnone.
    rewrite bool_decide_eq_true_2; [reflexivity |].
    apply indexOf_absent, Hown.
  - intros f Hf Hlogin Hperm. unfold API_member. rewrite Hf.
    unfold _apiCall, _checkPermission. rewrite Hlogin.
    cbn [String.eqb Ascii.eqb Bool.eqb andb]. rewrite Hperm.
    destruct (f inst (c_http c) d) as [d1 o]. reflexivity.
  - intros f e Hf Hlogin Hs. unfold API_member. rewrite Hf.
    unfold _apiCall.
    rewrite (_checkPermission_no_session auth _ "api" _ e Hs); [reflexivity |].
    right. intros [= Heq]. contradiction.
Qed.

(** X30.  A GET on [/FS/get/] followed by an address is a call on the VFS
    whose endpoint is [get/] and the address.  The permission check is
    asked about a method that carries the address as its name, not about
    [read]; when it passes, the dispatcher looks up the transport for a
    [read] of the address. *)
Theorem get_permission_method auth inst VFS API d q data_ files user :
  let c := createHttpObject "GET" ("/FS/get/" +:+ q) data_ files user in
  initSession auth (c_http c) = Fulfilled tt ->
  checkSession auth (c_http c) = Fulfilled tt ->
  c_isfs c = true /\
  endpoint (c_http c) = "get/" +:+ q /\
  (forall e,
     checkPermission auth (c_http c) "vfs" (VfsOptions q (default no_args data_)) = Broken e ->
     instance_request inherited auth inst VFS API c d = (d, ReplyJson (ErrorBody e) (Some 500))) /\
  (checkPermission auth (c_http c) "vfs" (VfsOptions q (default no_args data_)) = Fulfilled tt ->
   instance_request inherited auth inst VFS API c d
   = (fst (request inst VFS (c_http c) d), respond (snd (request inst VFS (c_http c) d))) /\
   request inst VFS (c_http c) d
   = match findTransport inst VFS "read" (path_args q) with
     | Raised e => (d, Thrown e)
     | Returned None => (d, Rejected "Operation denied!")
     | Returned (Some found) =>
         match f_transport found with
         | None => (d, Rejected ("Cannot find VFS module for: " +:+ p_query (f_parsed found)))
         | Some t =>
             transport_request t inst (c_http c)
               {| query := p_query (f_parsed found); req_method := "read";
                  req_data := path_args q |} d
         end
     end).
Proof.
  intros c Hinit Hs.
  assert (Hend : endpoint (c_http c) = "get/" +:+ q).
  { subst c. cbn [createHttpObject c_http endpoint].
    exact (endpoint_of_FS ("get/" +:+ q)). }
  assert (Hfs : c_isfs c = true).
  { subst c. cbn [createHttpObject c_isfs]. exact (isfs_of_FS ("/get/" +:+ q)). }
  assert (Hcall : instance_request inherited auth inst VFS API c d = _vfsCall auth inst VFS c d).
  { unfold instance_request. rewrite Hinit, Hfs.
    destruct (String.eqb (method (c_http c)) "GET"); reflexivity. }
  assert (Hdata : data (c_http c) = default no_args data_) by reflexivity.
  split; [exact Hfs |]. split; [exact Hend |].
  rewrite Hcall. unfold _vfsCall, _checkPermission.
  cbn [String.eqb Ascii.eqb Bool.eqb andb].
  rewrite Hs, Hend, strip_get_address, Hdata. split.
  - intros e Hperm. rewrite Hperm. reflexivity.
  - intros Hperm. rewrite Hperm. split.
    + destruct (request inst VFS (c_http c) d) as [d1 o]. reflexivity.
    + rewrite request_unfold. cbv zeta.
      assert (Hm : method (c_http c) = "GET") by reflexivity.
      rewrite Hm, Hend, strip_get_address. reflexivity.
Qed.

End RequestLayer.

(** ** The properties above on the fixtures *)

Lemma resolveRequestPath_address_witness :
  let http := Fixture.alice "POST" "read" (path_args "home://docs/a.txt") in
  single_line ("home" +:+ "://" +:+ "docs/a.txt") /\
  JsString.includes "://" "docs/a.txt" = false /\
  mountpoints Fixture.server !! "home" = Some (MountTemplate "/srv/users/%USERNAME%") /\
  exists resolved,
    resolveRequestPath Fixture.server http (Some "home://docs/a.txt") = Returned resolved /\
    r_protocol resolved = Some "home" /\
    r_path resolved = "docs/a.txt" /\
    r_real resolved = Some "/srv/users/alice/docs/a.txt".
Proof.
  cbv zeta.
  assert (Hline : single_line ("home" +:+ "://" +:+ "docs/a.txt")) by (split; reflexivity).
  assert (Hno : JsString.includes "://" "docs/a.txt" = false) by reflexivity.
  assert (Hmount : mountpoints Fixture.server !! "home"
                   = Some (MountTemplate "/srv/users/%USERNAME%"))
    by (vm_compute; reflexivity).
  split; [exact Hline |]. split; [exact Hno |]. split; [exact Hmount |].
  destruct (proj1 (resolveRequestPath_address (H := Fixture.node) Fixture.server [filesystem]
                     (Fixture.alice "POST" "read" (path_args "home://docs/a.txt"))
                     "read" (path_args "home://docs/a.txt") "home" "docs/a.txt"
                     Hline Hno))
    as (resolved & Hres & _ & Hproto & Hpath & Hown & _).
  exists resolved. split; [exact Hres |]. split; [exact Hproto |]. split; [exact Hpath |].
  rewrite (Hown _ Hmount ltac:(discriminate)). vm_compute. reflexivity.
Defined.

(** Under a wildcard mount alone, an address is placed below the
    destination of the wildcard, but not when its protocol is a name every
    object inherits; and a call of such a name has no address of its own. *)
Example resolveRequestPath_inherited_names :
  let http := Fixture.alice "POST" "read" no_args in
  resolveRequestPath Fixture.wildcard_server http (Some "tmp://x")
    = Returned {| r_query := "tmp://x"; r_protocol := Some "tmp";
                  r_path := "x"; r_real := Some "/srv/data/x" |} /\
  resolveRequestPath Fixture.wildcard_server http (Some "constructor://x")
    = Returned {| r_query := "constructor://x"; r_protocol := Some "constructor";
                  r_path := "x"; r_real := None |} /\
  resolveRequestPath Fixture.wildcard_server http (Some "__proto__://x")
    = Returned {| r_query := "__proto__://x"; r_protocol := Some "__proto__";
                  r_path := "x"; r_real := None |} /\
  argumentMap "toString" (path_args "home://a.txt") false
    = Returned (Some "[object Undefined]") /\
  argumentMap "valueOf" (path_args "home://a.txt") false
    = Raised "TypeError: Cannot convert undefined or null to object" /\
  request Fixture.server [] (Fixture.alice "POST" "toString" (path_args "home://a.txt"))
    Fixture.disk0
    = (Fixture.disk0, Rejected "Cannot find VFS module for: [object Undefined]") /\
  request Fixture.server [filesystem]
    (Fixture.alice "POST" "valueOf" (path_args "home://a.txt")) Fixture.disk0
    = (Fixture.disk0, Thrown "TypeError: Cannot convert undefined or null to object").
Proof. cbv zeta. repeat split; vm_compute; reflexivity. Qed.

(** The same names as methods of the default transport: the table gives
    an inherited function, which is called and does not answer. *)
Example filesystem_request_inherited_names :
  let http := Fixture.alice "POST" "toString" (path_args "home://a.txt") in
  let req method_ := {| query := "home://a.txt"; req_method := method_;
                        req_data := path_args "home://a.txt" |} in
  filesystem_request Fixture.server http (req "toString") Fixture.disk0
    = (Fixture.disk0, Unanswered) /\
  filesystem_request Fixture.server http (req "constructor") Fixture.disk0
    = (Fixture.disk0, Unanswered) /\
  filesystem_request Fixture.server http (req "__defineGetter__") Fixture.disk0
    = (Fixture.disk0,
       Thrown "TypeError: Object.prototype.__defineGetter__: Expecting function") /\
  filesystem_request Fixture.server http (req "__proto__") Fixture.disk0
    = (Fixture.disk0, Rejected "No such VFS method: __proto__") /\
  request Fixture.server [filesystem] http Fixture.disk0 = (Fixture.disk0, Unanswered).
Proof. cbv zeta. repeat split; vm_compute; reflexivity. Qed.

Lemma resolveRequestPath_no_protocol_witness :
  let http := Fixture.alice "POST" "read" (path_args "report.txt") in
  JsString.includes "://" "report.txt" = false /\
  resolveRequestPath Fixture.wildcard_server http (Some "report.txt")
  = Returned {| r_query := "report.txt"; r_protocol := None;
                r_path := "undefined"; r_real := Some "/srv/data/undefined" |}.
Proof.
  cbv zeta.
  assert (Hno : JsString.includes "://" "report.txt" = false) by reflexivity.
  split; [exact Hno |].
  pose proof (resolveRequestPath_no_protocol Fixture.wildcard_server
                (Fixture.alice "POST" "read" (path_args "report.txt")) "report.txt" Hno) as Hthm.
  vm_compute in Hthm |- *. exact Hthm.
Defined.

Lemma resolveRequestPath_leading_slash_witness :
  let http := Fixture.alice "POST" "read" (path_args "home://a.txt") in
  single_line ("home" +:+ "://" +:+ "a.txt") /\
  JsString.includes "://" "a.txt" = false /\
  JsString.starts_with_char "/" "a.txt" = false /\
  exists r1 r2,
    resolveRequestPath Fixture.server http (Some ("home" +:+ "://" +:+ "a.txt")) = Returned r1 /\
    resolveRequestPath Fixture.server http (Some ("home" +:+ "://" +:+ String "/" "a.txt"))
      = Returned r2 /\
    r_protocol r1 = r_protocol r2 /\
    r_path r1 = "a.txt" /\ r_path r2 = "a.txt" /\
    r_real r1 = r_real r2.
Proof.
  cbv zeta.
  assert (Hline : single_line ("home" +:+ "://" +:+ "a.txt")) by (split; reflexivity).
  split; [exact Hline |]. split; [reflexivity |]. split; [reflexivity |].
  exact (resolveRequestPath_leading_slash Fixture.server
           (Fixture.alice "POST" "read" (path_args "home://a.txt")) "home" "a.txt"
           Hline eq_refl eq_refl).
Defined.

Lemma disabled_mount_denies_all_witness :
  let http := Fixture.alice "GET" "get/archive://old.txt" no_args in
  let o := {| destination := Some "/srv/archive"; mount_transport := None;
              enabled := Some false; ro := None |} in
  mountpoints Sample.host
    !! JsString.String_ (JsString.part 1 (JsString.split_protocol "archive://old.txt"))
    = Some (MountObject o) /\
  enabled o = Some false /\
  (if String.eqb (method http) "GET"
   then Returned (Some (JsString.strip_get (endpoint http)))
   else argumentMap (endpoint http) (data http) false) = Returned (Some "archive://old.txt") /\
  request Sample.host [filesystem] http Fixture.disk1
    = (Fixture.disk1, Rejected "Operation denied!") /\
  createReadStream Sample.host [filesystem] http "archive://old.txt"
    = Thrown "TypeError: Cannot read property 'createReadStream' of undefined" /\
  createWriteStream Sample.host [filesystem] http "archive://old.txt"
    = Thrown "TypeError: Cannot read property 'createWriteStream' of undefined".
Proof.
  cbv zeta.
  assert (Hmount : mountpoints Sample.host
            !! JsString.String_ (JsString.part 1 (JsString.split_protocol "archive://old.txt"))
          = Some (MountObject {| destination := Some "/srv/archive"; mount_transport := None;
                                 enabled := Some false; ro := None |}))
    by (vm_compute; reflexivity).
  split; [exact Hmount |]. split; [reflexivity |]. split; [reflexivity |].
  exact (disabled_mount_denies_all (H := Fixture.node) Sample.host [filesystem]
           (Fixture.alice "GET" "get/archive://old.txt" no_args) Fixture.disk1
           "archive://old.txt" _ Hmount eq_refl eq_refl).
Defined.

Lemma wildcard_mount_flags_ignored_witness :
  let http := Fixture.alice "POST" "delete" (path_args "tmp://report.txt") in
  let o := {| destination := Some "/srv/data"; mount_transport := None;
              enabled := None; ro := Some true |} in
  method http <> "GET" /\
  argumentMap (endpoint http) (data http) false = Returned (Some "tmp://report.txt") /\
  mountpoints Sample.host
    !! JsString.String_ (JsString.part 1 (JsString.split_protocol "tmp://report.txt")) = None /\
  mountpoints Sample.host !! "*" = Some (MountObject o) /\
  destination o = Some "/srv/data" /\
  List.find (fun module => String.eqb (name module) "__default__") [filesystem]
    = Some filesystem /\
  request Sample.host [filesystem] http Fixture.disk1
    = ([("/srv", Reference.Directory); ("/srv/data", Reference.Directory);
        ("/srv/data/undefined", Reference.File "x")], Resolved VTrue).
Proof.
  cbv zeta.
  assert (Hget : method (Fixture.alice "POST" "delete" (path_args "tmp://report.txt")) <> "GET")
    by discriminate.
  assert (Hnone : mountpoints Sample.host
            !! JsString.String_ (JsString.part 1 (JsString.split_protocol "tmp://report.txt"))
          = None) by (vm_compute; reflexivity).
  assert (Hstar : mountpoints Sample.host !! "*"
          = Some (MountObject {| destination := Some "/srv/data"; mount_transport := None;
                                 enabled := None; ro := Some true |}))
    by (vm_compute; reflexivity).
  split; [exact Hget |]. split; [reflexivity |]. split; [exact Hnone |].
  split; [exact Hstar |]. split; [reflexivity |]. split; [reflexivity |].
  pose proof (proj1 (wildcard_mount_flags_ignored (H := Fixture.node) Sample.host [filesystem]
                       (Fixture.alice "POST" "delete" (path_args "tmp://report.txt"))
                       Fixture.disk1 "tmp://report.txt" _ "/srv/data" filesystem
                       Hget eq_refl Hnone Hstar eq_refl eq_refl)) as Hthm.
  rewrite Hthm. vm_compute. reflexivity.
Defined.

Lemma request_without_module_witness :
  let http := Fixture.alice "POST" "read" (path_args "cloud://x") in
  let o := {| destination := None; mount_transport := Some "Cloud";
              enabled := None; ro := None |} in
  method http <> "GET" /\
  argumentMap (endpoint http) (data http) false = Returned (Some "cloud://x") /\
  mountpoints Sample.host
    !! JsString.String_ (JsString.part 1 (JsString.split_protocol "cloud://x"))
    = Some (MountObject o) /\
  enabled o <> Some false /\
  (ro o <> Some true \/ indexOf writeableMap (Some (endpoint http)) = (-1)%Z) /\
  List.find (fun module => String.eqb (name module)
                             (default "__default__" (mount_transport o))) [filesystem] = None /\
  request Sample.host [filesystem] http Fixture.disk1
    = (Fixture.disk1, Rejected ("Cannot find VFS module for: " +:+ "cloud://x")).
Proof.
  cbv zeta.
  assert (Hget : method (Fixture.alice "POST" "read" (path_args "cloud://x")) <> "GET")
    by discriminate.
  assert (Hmount : mountpoints Sample.host
            !! JsString.String_ (JsString.part 1 (JsString.split_protocol "cloud://x"))
          = Some (MountObject {| destination := None; mount_transport := Some "Cloud";
                                 enabled := None; ro := None |}))
    by (vm_compute; reflexivity).
  assert (Hen : enabled {| destination := None; mount_transport := Some "Cloud";
                           enabled := None; ro := None |} <> Some false) by discriminate.
  assert (Hro : ro {| destination := None; mount_transport := Some "Cloud";
                      enabled := None; ro := None |} <> Some true \/
                indexOf writeableMap (Some "read") = (-1)%Z) by (left; discriminate).
  split; [exact Hget |]. split; [reflexivity |]. split; [exact Hmount |].
  split; [exact Hen |]. split; [exact Hro |]. split; [reflexivity |].
  exact (request_without_module (H := Fixture.node) Sample.host [filesystem]
           (Fixture.alice "POST" "read" (path_args "cloud://x")) Fixture.disk1
           "cloud://x" _ Hget eq_refl Hmount Hen Hro eq_refl).
Defined.

Lemma VFS_mkdir_spec_witness :
  let http := Fixture.alice "POST" "mkdir" (path_args "home://docs") in
  let resolved := {| r_query := "home://docs"; r_protocol := Some "home";
                     r_path := "docs"; r_real := Some "/srv/users/alice/docs" |} in
  resolveRequestPath Fixture.server http (a_path (path_args "home://docs")) = Returned resolved /\
  fs_exists Fixture.disk0 (r_real resolved) = true /\
  VFS_mkdir Fixture.server http (path_args "home://docs") Fixture.disk0
    = (Fixture.disk0, Rejected "File or directory already exist.").
Proof.
  cbv zeta.
  assert (Hres : resolveRequestPath Fixture.server
                   (Fixture.alice "POST" "mkdir" (path_args "home://docs"))
                   (a_path (path_args "home://docs"))
                 = Returned {| r_query := "home://docs"; r_protocol := Some "home";
                               r_path := "docs"; r_real := Some "/srv/users/alice/docs" |})
    by (vm_compute; reflexivity).
  assert (Hex : fs_exists Fixture.disk0 (Some "/srv/users/alice/docs") = true)
    by (vm_compute; reflexivity).
  split; [exact Hres |]. split; [exact Hex |].
  exact (proj1 (VFS_mkdir_spec (H := Fixture.node) Fixture.server _ _ Fixture.disk0 _ Hres) Hex).
Defined.

Lemma VFS_copy_spec_witness :
  let args := Fixture.copy_args "home://a.txt" "home://Notes.TXT" in
  let http := Fixture.alice "POST" "copy" args in
  let sresolved := {| r_query := "home://a.txt"; r_protocol := Some "home";
                      r_path := "a.txt"; r_real := Some "/srv/users/alice/a.txt" |} in
  let dresolved := {| r_query := "home://Notes.TXT"; r_protocol := Some "home";
                      r_path := "Notes.TXT"; r_real := Some "/srv/users/alice/Notes.TXT" |} in
  resolveRequestPath Fixture.server http (a_src args) = Returned sresolved /\
  resolveRequestPath Fixture.server http (a_dest args) = Returned dresolved /\
  r_real dresolved = Some "/srv/users/alice/Notes.TXT" /\
  fs_exists Fixture.disk0 (r_real sresolved) = true /\
  fs_exists Fixture.disk0 (Some "/srv/users/alice/Notes.TXT") = true /\
  VFS_copy Fixture.server http args Fixture.disk0
    = (Fixture.disk0, Rejected "File or directory already exist.").
Proof.
  cbv zeta.
  assert (Hs : resolveRequestPath Fixture.server
                 (Fixture.alice "POST" "copy" (Fixture.copy_args "home://a.txt" "home://Notes.TXT"))
                 (a_src (Fixture.copy_args "home://a.txt" "home://Notes.TXT"))
               = Returned {| r_query := "home://a.txt"; r_protocol := Some "home";
                             r_path := "a.txt"; r_real := Some "/srv/users/alice/a.txt" |})
    by (vm_compute; reflexivity).
  assert (Hd : resolveRequestPath Fixture.server
                 (Fixture.alice "POST" "copy" (Fixture.copy_args "home://a.txt" "home://Notes.TXT"))
                 (a_dest (Fixture.copy_args "home://a.txt" "home://Notes.TXT"))
               = Returned {| r_query := "home://Notes.TXT"; r_protocol := Some "home";
                             r_path := "Notes.TXT";
                             r_real := Some "/srv/users/alice/Notes.TXT" |})
    by (vm_compute; reflexivity).
  assert (Hse : fs_exists Fixture.disk0 (Some "/srv/users/alice/a.txt") = true)
    by (vm_compute; reflexivity).
  assert (Hde : fs_exists Fixture.disk0 (Some "/srv/users/alice/Notes.TXT") = true)
    by (vm_compute; reflexivity).
  split; [exact Hs |]. split; [exact Hd |]. split; [reflexivity |].
  split; [exact Hse |]. split; [exact Hde |].
  exact (proj1 (proj2 (VFS_copy_spec (H := Fixture.node) Fixture.server _ _ Fixture.disk0 _ _ _
                         Hs Hd eq_refl)) Hse Hde).
Defined.

Lemma VFS_move_spec_witness :
  let args := Fixture.copy_args "home://a.txt" "home://Notes.TXT" in
  let http := Fixture.alice "POST" "move" args in
  let sresolved := {| r_query := "home://a.txt"; r_protocol := Some "home";
                      r_path := "a.txt"; r_real := Some "/srv/users/alice/a.txt" |} in
  let dresolved := {| r_query := "home://Notes.TXT"; r_protocol := Some "home";
                      r_path := "Notes.TXT"; r_real := Some "/srv/users/alice/Notes.TXT" |} in
  resolveRequestPath Fixture.server http (a_src args) = Returned sresolved /\
  resolveRequestPath Fixture.server http (a_dest args) = Returned dresolved /\
  r_real dresolved = Some "/srv/users/alice/Notes.TXT" /\
  fs_exists Fixture.disk0 (Some "/srv/users/alice/Notes.TXT") = true /\
  VFS_move Fixture.server http args Fixture.disk0
    = ([("/srv", Reference.Directory); ("/srv/users", Reference.Directory);
        ("/srv/users/alice", Reference.Directory);
        ("/srv/users/alice/Notes.TXT", Reference.File "hello");
        ("/srv/users/alice/docs", Reference.Directory);
        ("/srv/shared", Reference.Directory);
        ("/srv/shared/b.txt", Reference.File "kept");
        ("/tmp", Reference.Directory);
        ("/tmp/upload_1", Reference.File "new bytes")],
       Resolved VTrue).
Proof.
  cbv zeta.
  assert (Hs : resolveRequestPath Fixture.server
                 (Fixture.alice "POST" "move" (Fixture.copy_args "home://a.txt" "home://Notes.TXT"))
                 (a_src (Fixture.copy_args "home://a.txt" "home://Notes.TXT"))
               = Returned {| r_query := "home://a.txt"; r_protocol := Some "home";
                             r_path := "a.txt"; r_real := Some "/srv/users/alice/a.txt" |})
    by (vm_compute; reflexivity).
  assert (Hd : resolveRequestPath Fixture.server
                 (Fixture.alice "POST" "move" (Fixture.copy_args "home://a.txt" "home://Notes.TXT"))
                 (a_dest (Fixture.copy_args "home://a.txt" "home://Notes.TXT"))
               = Returned {| r_query := "home://Notes.TXT"; r_protocol := Some "home";
                             r_path := "Notes.TXT";
                             r_real := Some "/srv/users/alice/Notes.TXT" |})
    by (vm_compute; reflexivity).
  assert (Hr : fs_access Fixture.disk0 (Some "/srv/users/alice/a.txt") R_OK = None)
    by (vm_compute; reflexivity).
  assert (Hw : fs_access Fixture.disk0
                 (Some (path_dirname "/srv/users/alice/Notes.TXT")) W_OK = None)
    by (vm_compute; reflexivity).
  split; [exact Hs |]. split; [exact Hd |]. split; [reflexivity |].
  split; [vm_compute; reflexivity |].
  rewrite (proj2 (proj2 (VFS_move_spec (H := Fixture.node) Fixture.server _ _ Fixture.disk0 _ _ _
                           Hs Hd eq_refl)) Hr Hw).
  vm_compute. reflexivity.
Defined.

Lemma VFS_delete_spec_witness :
  let http := Fixture.alice "POST" "delete" (path_args "home://nothing") in
  let resolved := {| r_query := "home://nothing"; r_protocol := Some "home";
                     r_path := "nothing"; r_real := Some "/srv/users/alice/nothing" |} in
  resolveRequestPath Fixture.server http (a_path (path_args "home://nothing"))
    = Returned resolved /\
  fs_exists Fixture.disk0 (r_real resolved) = false /\
  VFS_delete Fixture.server http (path_args "home://nothing") Fixture.disk0
    = (Fixture.disk0, Rejected "No such file or directory").
Proof.
  cbv zeta.
  assert (Hres : resolveRequestPath Fixture.server
                   (Fixture.alice "POST" "delete" (path_args "home://nothing"))
                   (a_path (path_args "home://nothing"))
                 = Returned {| r_query := "home://nothing"; r_protocol := Some "home";
                               r_path := "nothing";
                               r_real := Some "/srv/users/alice/nothing" |})
    by (vm_compute; reflexivity).
  assert (Hex : fs_exists Fixture.disk0 (Some "/srv/users/alice/nothing") = false)
    by (vm_compute; reflexivity).
  split; [exact Hres |]. split; [exact Hex |].
  exact (proj1 (VFS_delete_spec (H := Fixture.node) Fixture.server _ _ Fixture.disk0 _ Hres) Hex).
Defined.

Lemma VFS_read_raw_modes_witness :
  let at_ q := {| r_query := "home://" +:+ q; r_protocol := Some "home"; r_path := q;
                  r_real := Some ("/srv/users/alice/" +:+ q) |} in
  let nowhere := {| r_query := "nowhere://x"; r_protocol := Some "nowhere"; r_path := "x";
                    r_real := None |} in
  let http args := Fixture.alice "POST" "read" args in
  (resolveRequestPath Fixture.server (http (read_args "home://a.txt")) (Some "home://a.txt")
     = Returned (at_ "a.txt") /\
   a_raw (read_args "home://a.txt") <> Some false /\
   a_stream (read_args "home://a.txt") = Some false /\
   VFS_read Fixture.server (http (read_args "home://a.txt")) (read_args "home://a.txt")
     Fixture.disk0
   = (Fixture.disk0, Resolved (VBuffer "hello"))) /\
  (resolveRequestPath Fixture.server (http (path_args "home://nothing"))
     (Some "home://nothing") = Returned (at_ "nothing") /\
   a_stream (path_args "home://nothing") <> Some false /\
   fs_exists Fixture.disk0 (Some "/srv/users/alice/nothing") = false /\
   VFS_read Fixture.server (http (path_args "home://nothing")) (path_args "home://nothing")
     Fixture.disk0
   = (Fixture.disk0,
      Responded (RespondStream "home://nothing"
                   (Reader (Some "/srv/users/alice/nothing"))))) /\
  (resolveRequestPath Fixture.server (http (path_args "nowhere://x")) (Some "nowhere://x")
     = Returned nowhere /\
   exists e,
     VFS_read Fixture.server (http (path_args "nowhere://x")) (path_args "nowhere://x")
       Fixture.disk0
     = (Fixture.disk0, Thrown e)).
Proof.
  cbv zeta.
  assert (Hfile : resolveRequestPath Fixture.server
                    (Fixture.alice "POST" "read" (read_args "home://a.txt"))
                    (a_path (read_args "home://a.txt"))
                  = Returned {| r_query := "home://a.txt"; r_protocol := Some "home";
                                r_path := "a.txt";
                                r_real := Some "/srv/users/alice/a.txt" |})
    by (vm_compute; reflexivity).
  assert (Hmissing : resolveRequestPath Fixture.server
                       (Fixture.alice "POST" "read" (path_args "home://nothing"))
                       (a_path (path_args "home://nothing"))
                     = Returned {| r_query := "home://nothing"; r_protocol := Some "home";
                                   r_path := "nothing";
                                   r_real := Some "/srv/users/alice/nothing" |})
    by (vm_compute; reflexivity).
  assert (Hnowhere : resolveRequestPath Fixture.server
                       (Fixture.alice "POST" "read" (path_args "nowhere://x"))
                       (a_path (path_args "nowhere://x"))
                     = Returned {| r_query := "nowhere://x"; r_protocol := Some "nowhere";
                                   r_path := "x"; r_real := None |})
    by (vm_compute; reflexivity).
  assert (Hraw : a_raw (read_args "home://a.txt") <> Some false) by discriminate.
  assert (Hdefault : a_raw (path_args "home://nothing") <> Some false) by discriminate.
  assert (Hstream : a_stream (path_args "home://nothing") <> Some false) by discriminate.
  split; [| split].
  - split; [exact Hfile |]. split; [exact Hraw |]. split; [reflexivity |].
    rewrite (proj2 (proj1 (VFS_read_raw_modes (H := Fixture.node) Fixture.server _ _
                             Fixture.disk0 _ Hfile Hraw) "/srv/users/alice/a.txt" eq_refl)
               eq_refl).
    vm_compute. reflexivity.
  - split; [exact Hmissing |]. split; [exact Hstream |]. split; [vm_compute; reflexivity |].
    exact (proj1 (proj1 (VFS_read_raw_modes (H := Fixture.node) Fixture.server _ _
                           Fixture.disk0 _ Hmissing Hdefault)
                    "/srv/users/alice/nothing" eq_refl) Hstream).
  - split; [exact Hnowhere |].
    exact (proj2 (VFS_read_raw_modes (H := Fixture.node) Fixture.server _ _
                    Fixture.disk0 _ Hnowhere Hdefault) eq_refl).
Defined.

(** What is thrown for an address that no mount serves. *)
Example VFS_read_without_mount :
  VFS_read Fixture.server (Fixture.alice "POST" "read" (path_args "nowhere://x"))
    (path_args "nowhere://x") Fixture.disk0
  = (Fixture.disk0, Thrown "TypeError: Cannot read property 'type' of null") /\
  VFS_read Fixture.server (Fixture.alice "POST" "read" (read_args "nowhere://x"))
    (read_args "nowhere://x") Fixture.disk0
  = (Fixture.disk0, Thrown "TypeError: path must be a string or Buffer").
Proof. split; vm_compute; reflexivity. Qed.

Lemma VFS_fileinfo_spec_witness :
  let http := Fixture.alice "POST" "fileinfo" (path_args "home://cat.png") in
  let resolved := {| r_query := "home://cat.png"; r_protocol := Some "home";
                     r_path := "cat.png"; r_real := Some "/srv/users/alice/cat.png" |} in
  resolveRequestPath Sample.gallery http (a_path (path_args "home://cat.png"))
    = Returned resolved /\
  r_real resolved = Some "/srv/users/alice/cat.png" /\
  fs_exists Sample.album (Some "/srv/users/alice/cat.png") = true /\
  getMime Sample.gallery "/srv/users/alice/cat.png" = Some "image/png" /\
  String.prefix "image" "image/png" = true /\
  exif_image Sample.album (Some "/srv/users/alice/cat.png") = inl "Error: no EXIF segment" /\
  VFS_fileinfo Sample.gallery http (path_args "home://cat.png") Sample.album
    = (Sample.album,
       Resolved (VInfo {| filename := "cat.png"; fi_path := "home://cat.png/cat.png";
                          fi_size := 3; fi_mime := Some "image/png"; fi_type := TypeFile;
                          permissions := "rw-r--r--"; ctime := None; mtime := None |}
                       "Error: no EXIF segment")).
Proof.
  cbv zeta.
  assert (Hres : resolveRequestPath Sample.gallery
                   (Fixture.alice "POST" "fileinfo" (path_args "home://cat.png"))
                   (a_path (path_args "home://cat.png"))
                 = Returned {| r_query := "home://cat.png"; r_protocol := Some "home";
                               r_path := "cat.png";
                               r_real := Some "/srv/users/alice/cat.png" |})
    by (vm_compute; reflexivity).
  assert (Hex : fs_exists Sample.album (Some "/srv/users/alice/cat.png") = true)
    by (vm_compute; reflexivity).
  assert (Hm : getMime Sample.gallery "/srv/users/alice/cat.png" = Some "image/png")
    by (vm_compute; reflexivity).
  split; [exact Hres |]. split; [reflexivity |]. split; [exact Hex |].
  split; [exact Hm |]. split; [reflexivity |]. split; [reflexivity |].
  rewrite (proj2 (proj2 (proj2 (VFS_fileinfo_spec (H := Fixture.node) Sample.gallery _ _
                                  Sample.album _ _ Hres eq_refl)))
             "image/png" Hex Hm eq_refl).
  vm_compute. reflexivity.
Defined.

(** A file that is no picture. *)
Example VFS_fileinfo_text :
  VFS_fileinfo Fixture.server (Fixture.alice "POST" "fileinfo" (path_args "home://a.txt"))
    (path_args "home://a.txt") Fixture.disk0
  = (Fixture.disk0,
     Resolved (VInfo {| filename := "a.txt"; fi_path := "home://a.txt/a.txt"; fi_size := 5;
                        fi_mime := Some "text/plain"; fi_type := TypeFile;
                        permissions := "rw-r--r--"; ctime := None; mtime := None |}
                     "No EXIF data available")).
Proof. vm_compute. reflexivity. Qed.

Lemma VFS_scandir_spec_witness :
  let http := Fixture.alice "POST" "scandir" (path_args "home://") in
  let resolved := {| r_query := "home://"; r_protocol := Some "home";
                     r_path := ""; r_real := Some "/srv/users/alice" |} in
  resolveRequestPath Fixture.server http (a_path (path_args "home://")) = Returned resolved /\
  r_real resolved = Some "/srv/users/alice" /\
  fs_readdir Fixture.disk0 (Some "/srv/users/alice") = inr ["a.txt"; "Notes.TXT"; "docs"] /\
  exists found,
    VFS_scandir Fixture.server http (path_args "home://") Fixture.disk0
      = (Fixture.disk0, Resolved (VList found)) /\
    map filename found = ["a.txt"; "Notes.TXT"; "docs"] /\
    map fi_path found = ["home:///a.txt"; "home:///Notes.TXT"; "home:///docs"].
Proof.
  cbv zeta.
  assert (Hres : resolveRequestPath Fixture.server
                   (Fixture.alice "POST" "scandir" (path_args "home://"))
                   (a_path (path_args "home://"))
                 = Returned {| r_query := "home://"; r_protocol := Some "home";
                               r_path := ""; r_real := Some "/srv/users/alice" |})
    by (vm_compute; reflexivity).
  assert (Hdir : fs_readdir Fixture.disk0 (Some "/srv/users/alice")
                 = inr ["a.txt"; "Notes.TXT"; "docs"]) by (vm_compute; reflexivity).
  split; [exact Hres |]. split; [reflexivity |]. split; [exact Hdir |].
  eexists. split.
  - exact (proj1 (VFS_scandir_spec (H := Fixture.node) Fixture.server _ _ Fixture.disk0 _ _ _
                    Hres eq_refl Hdir)).
  - split; vm_compute; reflexivity.
Defined.

Lemma filesystem_request_unknown_witness :
  let http := Fixture.alice "POST" "chmod" (path_args "home://a.txt") in
  let req := {| query := "home://a.txt"; req_method := "chmod";
                req_data := path_args "home://a.txt" |} in
  ~ In (req_method req)
      ["exists"; "read"; "upload"; "write"; "delete"; "copy"; "move"; "mkdir";
       "find"; "fileinfo"; "scandir"; "freeSpace"] /\
  ~ In (req_method req) Object_prototype_functions /\
  filesystem_request Fixture.server http req Fixture.disk0
    = (Fixture.disk0, Rejected ("No such VFS method: " +:+ "chmod")).
Proof.
  cbv zeta.
  assert (Hno : ~ In "chmod"
                    ["exists"; "read"; "upload"; "write"; "delete"; "copy"; "move"; "mkdir";
                     "find"; "fileinfo"; "scandir"; "freeSpace"]).
  { cbn. intros Hin. repeat destruct Hin as [Hin | Hin]; try discriminate. exact Hin. }
  assert (Hown : ~ In "chmod" Object_prototype_functions).
  { cbn. intros Hin. repeat destruct Hin as [Hin | Hin]; try discriminate. exact Hin. }
  split; [exact Hno |]. split; [exact Hown |].
  exact (filesystem_request_unknown (H := Fixture.node) Fixture.server
           (Fixture.alice "POST" "chmod" (path_args "home://a.txt"))
           {| query := "home://a.txt"; req_method := "chmod";
              req_data := path_args "home://a.txt" |} Fixture.disk0 Hno Hown).
Defined.

Lemma VFS_write_spec_witness :
  let args := Sample.write_args "home://w.txt" "text" (Some "") in
  let http := Fixture.alice "POST" "write" args in
  let resolved := {| r_query := "home://w.txt"; r_protocol := Some "home";
                     r_path := "w.txt"; r_real := Some "/srv/users/alice/w.txt" |} in
  resolveRequestPath Fixture.server http (a_path args) = Returned resolved /\
  r_real resolved = Some "/srv/users/alice/w.txt" /\
  has_char "," "text" = false /\
  a_raw args = Some true /\
  VFS_write Fixture.server http args Fixture.disk0
    = match fs_writeFile Fixture.disk0 (Some "/srv/users/alice/w.txt") "text" "binary" with
      | (d1, Some error) => (d1, Rejected ("Error writing file: " +:+ error))
      | (d1, None) => (d1, Resolved VTrue)
      end /\
  VFS_write Fixture.server http args Fixture.disk0
    = (("/srv/users/alice/w.txt", Reference.File "text") :: Fixture.disk0, Resolved VTrue).
Proof.
  cbv zeta.
  assert (Hres : resolveRequestPath Fixture.server
                   (Fixture.alice "POST" "write" (Sample.write_args "home://w.txt" "text" (Some "")))
                   (a_path (Sample.write_args "home://w.txt" "text" (Some "")))
                 = Returned {| r_query := "home://w.txt"; r_protocol := Some "home";
                               r_path := "w.txt"; r_real := Some "/srv/users/alice/w.txt" |})
    by (vm_compute; reflexivity).
  assert (Hcomma : has_char "," "text" = false) by reflexivity.
  split; [exact Hres |]. split; [reflexivity |]. split; [exact Hcomma |].
  split; [reflexivity |].
  pose proof (proj1 (VFS_write_spec (H := Fixture.node) Fixture.server _ _ Fixture.disk0 _ _
                       "text" "" Hres eq_refl Hcomma) eq_refl) as Hthm.
  split; [exact Hthm |]. rewrite Hthm. vm_compute. reflexivity.
Defined.

Lemma VFS_find_recursive_witness :
  let args := Sample.find_all "home://" "TXT" in
  let http := Fixture.alice "POST" "find" args in
  let resolved := {| r_query := "home://"; r_protocol := Some "home";
                     r_path := ""; r_real := Some "/srv/users/alice" |} in
  resolveRequestPath Fixture.server http (a_path args) = Returned resolved /\
  a_recursive args = Some true /\
  exists found,
    VFS_find Fixture.server http args Fixture.disk0 = (Fixture.disk0, Resolved (VList found)) /\
    map filename found = ["/srv/users/alice/a.txt"; "/srv/users/alice/Notes.TXT"].
Proof.
  cbv zeta.
  assert (Hres : resolveRequestPath Fixture.server
                   (Fixture.alice "POST" "find" (Sample.find_all "home://" "TXT"))
                   (a_path (Sample.find_all "home://" "TXT"))
                 = Returned {| r_query := "home://"; r_protocol := Some "home";
                               r_path := ""; r_real := Some "/srv/users/alice" |})
    by (vm_compute; reflexivity).
  split; [exact Hres |]. split; [reflexivity |].
  destruct (proj2 (VFS_find_recursive (H := Fixture.node) Fixture.server _ _ Fixture.disk0 _
                     Hres eq_refl) _ eq_refl) as (found & Hfind & _ & Hall).
  exists found. split; [exact Hfind |].
  rewrite (Hall (or_introl eq_refl)). vm_compute. reflexivity.
Defined.

Lemma install_into_readonly_mount_witness :
  let http := Fixture.alice "POST" "install" no_args in
  let args := Sample.install_home "shared://pkg" in
  let o := {| destination := Some "/srv/shared"; mount_transport := None;
              enabled := None; ro := Some true |} in
  zip args = Some "home://p.zip" /\ "home://p.zip" <> "" /\
  install_dest args = Some "shared://pkg" /\ "shared://pkg" <> "" /\
  install_paths args = Some [] /\
  mountpoints Fixture.server
    !! JsString.String_ (JsString.part 1 (JsString.split_protocol "shared://pkg"))
    = Some (MountObject o) /\
  ro o = Some true /\
  _request Fixture.server [filesystem] http "exists" (path_args "shared://pkg") Fixture.disk0
    = (Fixture.disk0, Fulfilled VTrue) /\
  install Sample.empty_archive Fixture.server [filesystem] http args Fixture.disk0
    = (Fixture.disk0, Broken "Operation denied!").
Proof.
  cbv zeta.
  assert (Hz : "home://p.zip" <> "") by discriminate.
  assert (Hd : "shared://pkg" <> "") by discriminate.
  assert (Hmount : mountpoints Fixture.server
            !! JsString.String_ (JsString.part 1 (JsString.split_protocol "shared://pkg"))
          = Some (MountObject {| destination := Some "/srv/shared"; mount_transport := None;
                                 enabled := None; ro := Some true |}))
    by (vm_compute; reflexivity).
  assert (Hexists : _request Fixture.server [filesystem] (Fixture.alice "POST" "install" no_args)
                      "exists" (path_args "shared://pkg") Fixture.disk0
                    = (Fixture.disk0, Fulfilled VTrue)) by (vm_compute; reflexivity).
  split; [reflexivity |]. split; [exact Hz |]. split; [reflexivity |]. split; [exact Hd |].
  split; [reflexivity |]. split; [exact Hmount |]. split; [reflexivity |].
  split; [exact Hexists |].
  exact (install_into_readonly_mount (H := Fixture.node) Sample.empty_archive Fixture.server
           [filesystem] (Fixture.alice "POST" "install" no_args)
           (Sample.install_home "shared://pkg") Fixture.disk0 "home://p.zip" "shared://pkg" []
           _ Fixture.disk0 VTrue eq_refl Hz eq_refl Hd eq_refl Hmount eq_refl Hexists).
Defined.

Lemma install_over_existing_destination_witness :
  let http := Fixture.alice "POST" "install" no_args in
  let args := Sample.install_home "home://docs" in
  let resolved := {| r_query := "home://docs"; r_protocol := Some "home";
                     r_path := "docs"; r_real := Some "/srv/users/alice/docs" |} in
  zip args = Some "home://p.zip" /\ "home://p.zip" <> "" /\
  install_dest args = Some "home://docs" /\ "home://docs" <> "" /\
  install_paths args = Some [] /\
  mountpoints Fixture.server
    !! JsString.String_ (JsString.part 1 (JsString.split_protocol "home://docs"))
    = Some Fixture.home_mount /\
  List.find (fun module => String.eqb (name module) "__default__") [filesystem]
    = Some filesystem /\
  resolveRequestPath Fixture.server http (Some "home://docs") = Returned resolved /\
  fs_exists Fixture.disk0 (r_real resolved) = true /\
  install Sample.empty_archive Fixture.server [filesystem] http args Fixture.disk0
    = (Fixture.disk0, Broken "File or directory already exist.").
Proof.
  cbv zeta.
  assert (Hz : "home://p.zip" <> "") by discriminate.
  assert (Hd : "home://docs" <> "") by discriminate.
  assert (Hmount : mountpoints Fixture.server
            !! JsString.String_ (JsString.part 1 (JsString.split_protocol "home://docs"))
          = Some Fixture.home_mount) by (vm_compute; reflexivity).
  assert (Hopen : forall o,
            mountpoints Fixture.server
              !! JsString.String_ (JsString.part 1 (JsString.split_protocol "home://docs"))
            = Some (MountObject o) -> enabled o <> Some false)
    by (intros o Ho; rewrite Hmount in Ho; discriminate).
  assert (Hfind : List.find
            (fun module =>
               String.eqb (name module)
                 match mountpoints Fixture.server
                       !! JsString.String_
                            (JsString.part 1 (JsString.split_protocol "home://docs")) with
                 | Some (MountObject o) => default "__default__" (mount_transport o)
                 | _ => "__default__"
                 end) [filesystem] = Some filesystem)
    by (rewrite Hmount; reflexivity).
  assert (Hres : resolveRequestPath Fixture.server (Fixture.alice "POST" "install" no_args)
                   (Some "home://docs")
                 = Returned {| r_query := "home://docs"; r_protocol := Some "home";
                               r_path := "docs"; r_real := Some "/srv/users/alice/docs" |})
    by (vm_compute; reflexivity).
  assert (Hex : fs_exists Fixture.disk0 (Some "/srv/users/alice/docs") = true)
    by (vm_compute; reflexivity).
  split; [reflexivity |]. split; [exact Hz |]. split; [reflexivity |]. split; [exact Hd |].
  split; [reflexivity |]. split; [exact Hmount |]. split; [reflexivity |].
  split; [exact Hres |]. split; [exact Hex |].
  exact (install_over_existing_destination (H := Fixture.node) Sample.empty_archive
           Fixture.server [filesystem] (Fixture.alice "POST" "install" no_args)
           (Sample.install_home "home://docs") Fixture.disk0 "home://p.zip" "home://docs" []
           _ eq_refl Hz eq_refl Hd eq_refl Hopen Hfind Hres Hex).
Defined.

Lemma getUserMetadata_last_path_wins_witness :
  let http := Fixture.alice "POST" "packages" no_args in
  let args := {| scope := Some "user";
                 paths := Some ["home:///.packages"; "home:///.more"] |} in
  exists U,
    getUserMetadata Fixture.server [filesystem] http args Fixture.disk3
      = (Fixture.disk3, Fulfilled U) /\
    user_manifests Fixture.server [filesystem] http (default [] (paths args)) Fixture.disk3
      = [Fixture.user_document] ++ Fixture.later_document :: [] /\
    Fixture.user_document !! "b" = Some (<["path" := JString "home:///.packages/b"]> ∅) /\
    Fixture.later_document !! "b" = Some (<["path" := JString "home:///.more/b"]> ∅) /\
    U !! "b" = Some (set_scope "user" (<["path" := JString "home:///.more/b"]> ∅)).
Proof.
  cbv zeta.
  assert (HU : exists U,
            getUserMetadata (H := Fixture.node) Fixture.server [filesystem]
              (Fixture.alice "POST" "packages" no_args)
              {| scope := Some "user";
                 paths := Some ["home:///.packages"; "home:///.more"] |} Fixture.disk3
            = (Fixture.disk3, Fulfilled U))
    by (vm_compute; eexists; reflexivity).
  destruct HU as [U HU].
  assert (Hsplit : user_manifests Fixture.server [filesystem]
                     (Fixture.alice "POST" "packages" no_args)
                     (default [] (Some ["home:///.packages"; "home:///.more"]))
                     Fixture.disk3
                   = [Fixture.user_document] ++ Fixture.later_document :: [])
    by (vm_compute; reflexivity).
  assert (Hk : Fixture.later_document !! "b"
               = Some (<["path" := JString "home:///.more/b"]> ∅))
    by (vm_compute; reflexivity).
  assert (Hlater : forall m : gmap string (gmap string json), In m [] -> m !! "b" = None)
    by (intros m []).
  exists U. split; [exact HU |]. split; [exact Hsplit |].
  split; [vm_compute; reflexivity |]. split; [exact Hk |].
  exact (proj1 (getUserMetadata_last_path_wins (H := Fixture.node) Fixture.server [filesystem]
                  (Fixture.alice "POST" "packages" no_args)
                  {| scope := Some "user";
                     paths := Some ["home:///.packages"; "home:///.more"] |}
                  Fixture.disk3 Fixture.disk3 U HU)
           [Fixture.user_document] Fixture.later_document [] "b" _ Hsplit
           ltac:(discriminate) Hk Hlater).
Defined.

Lemma vfs_call_without_session_witness :
  let c := Sample.post "/FS/delete" (path_args "home://a.txt") None in
  initSession auth_example (c_http c) = Fulfilled tt /\
  c_isfs c = true /\
  checkSession auth_example (c_http c) = Broken "You have no OS.js Session, please log in!" /\
  instance_request Sample.silent auth_example Fixture.server [filesystem] Sample.API c
    Fixture.disk0
  = (Fixture.disk0, ReplyJson (ErrorBody "You have no OS.js Session, please log in!") (Some 500)).
Proof.
  cbv zeta. split; [reflexivity |]. split; [reflexivity |]. split; [reflexivity |].
  exact (vfs_call_without_session (H := Fixture.node) Sample.silent auth_example Fixture.server
           [filesystem] Sample.API (Sample.post "/FS/delete" (path_args "home://a.txt") None)
           Fixture.disk0 _ eq_refl eq_refl eq_refl).
Defined.

Lemma vfs_call_status_witness :
  let c := Sample.post "/FS/delete" (path_args "shared://b.txt") (Some "alice") in
  let r := ReplyJson (ErrorBody "Operation denied!") (Some 500) in
  c_isfs c = true /\
  instance_request Sample.silent auth_example Fixture.server [filesystem] Sample.API c
    Fixture.disk0 = (Fixture.disk0, r) /\
  (r = NoReply \/ (exists written, r = ReplyBy written) \/
   ((exists body, r = ReplyJson body (Some 500) \/ r = ReplyJson body None) /\
    writeHead_code Fixture.disk0 r = Some 200)).
Proof.
  cbv zeta.
  assert (Hreq : instance_request Sample.silent auth_example Fixture.server [filesystem]
                   Sample.API
                   (Sample.post "/FS/delete" (path_args "shared://b.txt") (Some "alice"))
                   Fixture.disk0
                 = (Fixture.disk0, ReplyJson (ErrorBody "Operation denied!") (Some 500)))
    by (vm_compute; reflexivity).
  split; [reflexivity |]. split; [exact Hreq |].
  exact (vfs_call_status (H := Fixture.node) Sample.silent auth_example Fixture.server
           [filesystem] Sample.API
           (Sample.post "/FS/delete" (path_args "shared://b.txt") (Some "alice"))
           Fixture.disk0 Fixture.disk0 _ eq_refl Hreq).
Defined.


Lemma api_call_checks_witness :
  let c := Sample.post "/API/logout" no_args None in
  initSession auth_example (c_http c) = Fulfilled tt /\
  method (c_http c) <> "GET" /\
  c_isfs c = false /\
  Sample.API !! endpoint (c_http c) = Some (@API_logout Fixture.node) /\
  endpoint (c_http c) <> "login" /\
  checkSession auth_example (c_http c) = Broken "You have no OS.js Session, please log in!" /\
  instance_request Sample.silent auth_example Fixture.server [filesystem] Sample.API c
    Fixture.disk0
  = (Fixture.disk0, ReplyJson (ErrorBody "You have no OS.js Session, please log in!") (Some 500)).
Proof.
  cbv zeta.
  assert (Hget : method (c_http (Sample.post "/API/logout" no_args None)) <> "GET")
    by discriminate.
  assert (Hf : Sample.API !! endpoint (c_http (Sample.post "/API/logout" no_args None))
               = Some (@API_logout Fixture.node)) by (vm_compute; reflexivity).
  assert (Hlogin : endpoint (c_http (Sample.post "/API/logout" no_args None)) <> "login")
    by discriminate.
  split; [reflexivity |]. split; [exact Hget |]. split; [reflexivity |].
  split; [exact Hf |]. split; [exact Hlogin |]. split; [reflexivity |].
  exact (proj2 (proj2 (api_call_checks (H := Fixture.node) Sample.silent auth_example
                         Fixture.server [filesystem] Sample.API
                         (Sample.post "/API/logout" no_args None) Fixture.disk0
                         eq_refl Hget eq_refl))
           _ _ Hf Hlogin eq_refl).
Defined.

Lemma get_permission_method_witness :
  let c := createHttpObject "GET" ("/FS/get/" +:+ "home://a.txt") None None (Some "alice") in
  initSession auth_example (c_http c) = Fulfilled tt /\
  checkSession auth_example (c_http c) = Fulfilled tt /\
  c_isfs c = true /\
  endpoint (c_http c) = "get/" +:+ "home://a.txt" /\
  instance_request Sample.silent auth_example Fixture.server [filesystem] Sample.API c
    Fixture.disk0
  = (Fixture.disk0,
     ReplyBy (RespondStream "home://a.txt" (Reader (Some "/srv/users/alice/a.txt")))).
Proof.
  cbv zeta. split; [reflexivity |]. split; [reflexivity |].
  destruct (get_permission_method (H := Fixture.node) Sample.silent auth_example Fixture.server
              [filesystem] Sample.API Fixture.disk0 "home://a.txt" None None (Some "alice")
              eq_refl eq_refl) as (Hfs & Hend & _ & Hcall).
  split; [exact Hfs |]. split; [exact Hend |].
  rewrite (proj1 (Hcall eq_refl)). vm_compute. reflexivity.
Defined.
